(** * Virtual chemistry lab: vessel store, reaction matcher, guided experiments

    A shallow embedding of the lab store ([src/store/labStore.ts]), the
    reaction manager and the experiment table ([core/ReactionManager],
    [core/experiments]), the neutralization colour of [Beaker.tsx] and the
    heating loop of the scene.

    Conventions of the embedding.
    - A JavaScript [number] that holds a volume, a capacity or a level is an
      exact rational ([Q]); equalities between such values are stated with
      [==].  Rounding of IEEE doubles is not modelled.  Counters that only
      ever receive integers are [Z].
    - The [Map<string, LabVessel>] of the store is a [gmap string LabVessel];
      [string[]] fields stay lists, in as-added order.
    - A plain object used as a table ([Experiment.reactions]) is an
      association list in insertion order, which is the order of
      [Object.keys] for these keys; inherited properties of [Object.prototype]
      are not modelled.
    - [set(partial)] of the store is a chain of field setters; an updater
      that returns [state] returns the store unchanged.
    - [setTimeout] calls are returned as a list of [Timer] values next to the
      new store; [fire] gives what a timer does when it runs.
    - Sound playback and [localStorage] writes are left out. *)

From Stdlib Require Import QArith Qminmax Qabs Lqa Reals Lra ZArith Bool DecimalString DecimalNat.
From stdpp Require Import gmap strings list fin_maps.
From Stdlib Require Import String Ascii List.
Import ListNotations.
Open Scope string_scope.

(* ===================================================================== *)
(** ** JavaScript helpers *)
(* ===================================================================== *)

(** [Array.prototype.includes] on a [string[]]. *)
Definition includes (l : list string) (x : string) : bool :=
  existsb (String.eqb x) l.

(** [Array.prototype.findIndex] with a predicate. *)
Fixpoint findIndex {A : Type} (p : A -> bool) (l : list A) : option nat :=
  match l with
  | [] => None
  | x :: tl => if p x then Some 0%nat else option_map S (findIndex p tl)
  end.

(** [Array.prototype.join]. *)
Definition join (sep : string) (l : list string) : string :=
  String.concat sep l.

(** [String.prototype.includes]: [sub] occurs somewhere in [s]. *)
Fixpoint str_includes (s sub : string) : bool :=
  if String.prefix sub s then true
  else match s with
       | EmptyString => false
       | String _ tl => str_includes tl sub
       end.

(** [split('+')]: the pieces between the separators, also the empty ones. *)
Fixpoint split_on (sep : ascii) (s : string) : list string :=
  match s with
  | EmptyString => [EmptyString]
  | String c tl =>
      if Ascii.eqb c sep then EmptyString :: split_on sep tl
      else match split_on sep tl with
           | [] => [String c EmptyString]
           | p :: ps => String c p :: ps
           end
  end.

(** [replace(/-/g, ' ')]. *)
Fixpoint replace_dashes (s : string) : string :=
  match s with
  | EmptyString => EmptyString
  | String c tl => String (if Ascii.eqb c "-"%char then " "%char else c) (replace_dashes tl)
  end.

(** [Array.prototype.sort] without a comparator: ascending order of the
    strings, code unit by code unit. *)
Fixpoint sort_insert (x : string) (l : list string) : list string :=
  match l with
  | [] => [x]
  | y :: tl => if String.leb x y then x :: y :: tl else y :: sort_insert x tl
  end.

Definition sort (l : list string) : list string :=
  fold_right sort_insert [] l.

(** Decimal rendering of a counter inside a template string. *)
Definition nat_to_string (n : nat) : string :=
  NilEmpty.string_of_uint (Nat.to_uint n).

(** [Math.min] with three arguments. *)
Definition min3 (a b c : Q) : Q := Qmin (Qmin a b) c.

(** [a > b] and [a <= b] on numbers. *)
Definition Qgtb (a b : Q) : bool := negb (Qle_bool a b).
Definition Qleb (a b : Q) : bool := Qle_bool a b.

(* ===================================================================== *)
(** ** core/types.ts *)
(* ===================================================================== *)

Inductive ChemicalType :=
  | acid | base | neutral | metal | salt | water | indicator.

Definition ChemicalType_eqb (a b : ChemicalType) : bool :=
  match a, b with
  | acid, acid | base, base | neutral, neutral | metal, metal
  | salt, salt | water, water | indicator, indicator => true
  | _, _ => false
  end.

Module Chemical.
Record t := mk {
  id : string;
  name : string;
  formula : option string;
  color : string;
  type : ChemicalType;
  concentration : option Q
}.
End Chemical.

(** [VesselContents]: a chemical and its volume. *)
Record VesselContents := mkContents {
  chemical : Chemical.t;
  volume : Q
}.

Inductive VesselType :=
  | beaker | flask | test_tube | graduated_cylinder | tongs.

Definition VesselType_eqb (a b : VesselType) : bool :=
  match a, b with
  | beaker, beaker | flask, flask | test_tube, test_tube
  | graduated_cylinder, graduated_cylinder | tongs, tongs => true
  | _, _ => false
  end.

Module LabVessel.
Record t := mk {
  id : string;
  name : option string;
  type : VesselType;
  capacity : Q;
  currentVolume : Q;
  tiltAngle : Q;
  temperature : Q;
  contents : list VesselContents;
  position : Q * Q * Q
}.

Definition with_contents (c : list VesselContents) (v : t) : t :=
  mk (id v) (name v) (type v) (capacity v) (currentVolume v) (tiltAngle v)
     (temperature v) c (position v).

Definition with_currentVolume (x : Q) (v : t) : t :=
  mk (id v) (name v) (type v) (capacity v) x (tiltAngle v)
     (temperature v) (contents v) (position v).

Definition with_tiltAngle (x : Q) (v : t) : t :=
  mk (id v) (name v) (type v) (capacity v) (currentVolume v) x
     (temperature v) (contents v) (position v).

Definition with_temperature (x : Q) (v : t) : t :=
  mk (id v) (name v) (type v) (capacity v) (currentVolume v) (tiltAngle v)
     x (contents v) (position v).

Definition with_position (p : Q * Q * Q) (v : t) : t :=
  mk (id v) (name v) (type v) (capacity v) (currentVolume v) (tiltAngle v)
     (temperature v) (contents v) p.

Definition with_name (n : option string) (v : t) : t :=
  mk (id v) n (type v) (capacity v) (currentVolume v) (tiltAngle v)
     (temperature v) (contents v) (position v).
End LabVessel.

Inductive ReactionEffect :=
  | bubbles | smoke | precipitate | color_change | heat | explosion | steam | boiling.

Module Reaction.
Record t := mk {
  id : string;
  name : string;
  description : string;
  chemicalType1 : ChemicalType;
  chemicalType2 : ChemicalType;
  products : list Chemical.t;
  resultColor : string;
  effects : list ReactionEffect;
  isExothermic : option bool
}.
End Reaction.

(** [ReactionResult]; [reaction] and [products] are present exactly when
    [occurred] is true. *)
Record ReactionResult := mkResult {
  occurred : bool;
  reaction : option Reaction.t;
  result_products : option (list Chemical.t);
  message : string
}.

(* ===================================================================== *)
(** ** core/ReactionManager.ts *)
(* ===================================================================== *)

Module CHEMICALS.
Definition water : Chemical.t :=
  Chemical.mk "water" "Water" (Some "H₂O") "#4fc3f7" water None.
Definition hydrochloric_acid : Chemical.t :=
  Chemical.mk "hydrochloric_acid" "Hydrochloric Acid" (Some "HCl") "#c8e6c9" acid (Some 1%Q).
Definition sodium_hydroxide : Chemical.t :=
  Chemical.mk "sodium_hydroxide" "Sodium Hydroxide" (Some "NaOH") "#e1bee7" base (Some 1%Q).
Definition zinc : Chemical.t :=
  Chemical.mk "zinc" "Zinc Metal" (Some "Zn") "#b0bec5" metal None.
Definition sodium_chloride : Chemical.t :=
  Chemical.mk "sodium_chloride" "Sodium Chloride (Salt)" (Some "NaCl") "#ffffff" salt None.
Definition sulfuric_acid : Chemical.t :=
  Chemical.mk "sulfuric_acid" "Sulfuric Acid" (Some "H₂SO₄") "#e8f5e9" acid (Some 1%Q).
Definition barium_chloride : Chemical.t :=
  Chemical.mk "barium_chloride" "Barium Chloride" (Some "BaCl₂") "#e3f2fd" salt None.
Definition silver_nitrate : Chemical.t :=
  Chemical.mk "silver_nitrate" "Silver Nitrate" (Some "AgNO₃") "#f5f5f5" salt None.
Definition barium_sulfate : Chemical.t :=
  Chemical.mk "barium_sulfate" "Barium Sulfate" (Some "BaSO₄") "#ffffff" salt None.
Definition silver_chloride : Chemical.t :=
  Chemical.mk "silver_chloride" "Silver Chloride" (Some "AgCl") "#f5f5f5" salt None.
End CHEMICALS.

Definition hydrogen_gas : Chemical.t :=
  Chemical.mk "hydrogen_gas" "Hydrogen Gas" (Some "H₂") "transparent" neutral None.
Definition zinc_chloride : Chemical.t :=
  Chemical.mk "zinc_chloride" "Zinc Chloride" (Some "ZnCl₂") "#f5f5f5" salt None.

Definition REACTIONS : list Reaction.t :=
  [ Reaction.mk "acid_base_neutralization" "Acid-Base Neutralization"
      "When an acid reacts with a base, they neutralize each other to form water and a salt."
      acid base [CHEMICALS.water; CHEMICALS.sodium_chloride] "#e0f7fa"
      [color_change; heat] (Some true);
    Reaction.mk "acid_metal_reaction" "Acid-Metal Reaction"
      "When an acid reacts with a reactive metal, it produces hydrogen gas and a salt."
      acid metal [hydrogen_gas; zinc_chloride] "#f5f5f5"
      [bubbles; heat] (Some true);
    Reaction.mk "indicator_base" "Indicator Color Change"
      "Phenolphthalein turns pink in basic solutions!"
      indicator base [CHEMICALS.sodium_hydroxide] "#ff66b2"
      [color_change] (Some false);
    Reaction.mk "barium_sulfate_precipitation" "Precipitation Reaction"
      "Barium chloride reacts with sulfuric acid to form white barium sulfate precipitate!"
      salt acid [CHEMICALS.barium_sulfate] "#ffffff"
      [precipitate] (Some false) ].

(** The class [ReactionManager], parameterised by its private rule list. *)
Section ReactionManager.
Variable reactions : list Reaction.t.

Definition matches_pair (type1 type2 : ChemicalType) (r : Reaction.t) : bool :=
  (ChemicalType_eqb (Reaction.chemicalType1 r) type1
     && ChemicalType_eqb (Reaction.chemicalType2 r) type2)
  || (ChemicalType_eqb (Reaction.chemicalType1 r) type2
     && ChemicalType_eqb (Reaction.chemicalType2 r) type1).

Definition findReaction (type1 type2 : ChemicalType) : option Reaction.t :=
  List.find (matches_pair type1 type2) reactions.

(** The inner loop [for (j = i + 1; ...)] for a fixed [contents[i]]. *)
Fixpoint checkReaction_inner (c1 : VesselContents) (rest : list VesselContents)
  : option Reaction.t :=
  match rest with
  | [] => None
  | c2 :: tl =>
      match findReaction (Chemical.type (chemical c1)) (Chemical.type (chemical c2)) with
      | Some r => Some r
      | None => checkReaction_inner c1 tl
      end
  end.

(** The outer loop [for (i = 0; ...)]. *)
Fixpoint checkReaction_outer (contents : list VesselContents) : option Reaction.t :=
  match contents with
  | [] => None
  | c1 :: tl =>
      match checkReaction_inner c1 tl with
      | Some r => Some r
      | None => checkReaction_outer tl
      end
  end.

Definition checkReaction (contents : list VesselContents) : ReactionResult :=
  if (length contents <? 2)%nat then
    mkResult false None None "Not enough chemicals to react."
  else
    match checkReaction_outer contents with
    | Some r =>
        mkResult true (Some r) (Some (Reaction.products r))
          ("Reaction! " ++ Reaction.name r ++ ": " ++ Reaction.description r)
    | None => mkResult false None None "No reaction occurred."
    end.
End ReactionManager.

(** [export const reactionManager = new ReactionManager()]. *)
Definition reactionManager_checkReaction := checkReaction REACTIONS.

(* ===================================================================== *)
(** ** core/experiments.ts *)
(* ===================================================================== *)

Module ExperimentChemical.
Record t := mk {
  id : string;
  name : string;
  color : string
}.
End ExperimentChemical.

(** [ExperimentReaction]; the [visual] and [resultType] fields are read by
    the rendering only and are left out. *)
Record ExperimentReaction := mkExperimentReaction {
  observation : string;
  explanation : string;
  success : bool
}.

Module Experiment.
Record t := mk {
  id : string;
  title : string;
  chapter : string;
  classLevel : Z;
  aim : string;
  apparatus : list string;
  chemicals : list ExperimentChemical.t;
  reactions : list (string * ExperimentReaction);
  conclusion : string;
  procedureSteps : option (list string)
}.

Definition with_procedureSteps (p : option (list string)) (e : t) : t :=
  mk (id e) (title e) (chapter e) (classLevel e) (aim e) (apparatus e)
     (chemicals e) (reactions e) (conclusion e) p.
End Experiment.

(** [table[key]] on a plain object. *)
Fixpoint lookup_key {A : Type} (key : string) (table : list (string * A)) : option A :=
  match table with
  | [] => None
  | (k, v) :: tl => if String.eqb k key then Some v else lookup_key key tl
  end.

(** [Object.keys(table)]. *)
Definition object_keys {A : Type} (table : list (string * A)) : list string :=
  List.map fst table.

Definition exp_salt_dissolution : Experiment.t :=
  {| Experiment.id := "salt-dissolution";
     Experiment.title := "Dissolving Salt vs Sand in Water";
     Experiment.chapter := "Separation of Substances";
     Experiment.classLevel := 6;
     Experiment.aim := "To study the solubility of salt and sand in water.";
     Experiment.apparatus := ["beaker"; "glass-rod"];
     Experiment.chemicals :=
       [ ExperimentChemical.mk "water" "Water" "#a8d4ff";
       ExperimentChemical.mk "salt" "Common Salt" "#d0e8ff";
       ExperimentChemical.mk "sand" "Sand" "#c4a465" ];
     Experiment.reactions :=
       [ ("water+salt+stir",
         {| observation := "The salt crystals gradually disappear as you stir. The solution becomes slightly milky.";
            explanation := "Salt (sodium chloride) is soluble in water. Water molecules surround the salt ions (Naâº and Clâ») and pull them apart, distributing them evenly throughout the solution. This is called dissolution.";
            success := true |});
       ("water+sand+stir",
         {| observation := "The sand particles swirl around but settle at the bottom when stirring stops. The water becomes slightly cloudy.";
            explanation := "Sand (silicon dioxide) is insoluble in water. The water molecules cannot break apart the strong bonds in sand particles. Sand is denser than water, so it sinks and settles at the bottom.";
            success := true |});
       ("water+salt",
         {| observation := "Salt crystals are sitting in the water. Nothing much is happening yet.";
            explanation := "Try stirring the mixture to help the salt dissolve faster. Stirring increases the contact between water molecules and salt crystals.";
            success := false |});
       ("water+sand",
         {| observation := "Sand has sunk to the bottom of the beaker. The water above is clear.";
            explanation := "Sand is denser than water and insoluble, so it naturally settles at the bottom.";
            success := false |}) ];
     Experiment.conclusion := "Salt is soluble in water and forms a clear solution. Sand is insoluble in water and settles at the bottom. This difference in solubility can be used to separate mixtures of salt and sand.";
     Experiment.procedureSteps :=
       Some [ "Place the beaker on the lab bench";
          "Add water to the beaker";
          "Add salt to the water";
          "Place the glass rod";
          "Stir the mixture with glass rod";
          "Observe - then Reset and repeat with sand" ] |}.

Definition exp_filtration : Experiment.t :=
  {| Experiment.id := "filtration";
     Experiment.title := "Separation by Filtration";
     Experiment.chapter := "Separation of Substances";
     Experiment.classLevel := 6;
     Experiment.aim := "To separate insoluble impurities from water using filtration.";
     Experiment.apparatus := ["beaker"; "funnel"; "filter-paper"];
     Experiment.chemicals :=
       [ ExperimentChemical.mk "muddy-water" "Muddy Water" "#8b7355" ];
     Experiment.reactions :=
       [ ("muddy-water",
         {| observation := "Muddy water is in the beaker. The water appears brown and cloudy with suspended mud particles.";
            explanation := "Muddy water is a mixture of water and insoluble mud particles. To separate them, you need to set up a filtration apparatus.";
            success := false |});
       ("muddy-water+pour",
         {| observation := "You are pouring the muddy water into the funnel... Watch as the filter paper separates the mud from the water!";
            explanation := "The muddy water passes through the filter paper. Water molecules are small enough to pass through the tiny pores, but mud particles are too large and get trapped.";
            success := false |});
       ("muddy-water+pour+filter",
         {| observation := "Filtration complete! Clear water has collected in the beaker below. The brown mud residue is trapped on the filter paper.";
            explanation := "Filtration separates insoluble solid particles from a liquid. The filter paper acts as a barrier - it allows water molecules to pass through but traps the larger mud particles.";
            success := true |}) ];
     Experiment.conclusion := "Filtration is used to separate insoluble solids from liquids. The filter paper traps solid particles while allowing the liquid to pass through. This method is used to purify drinking water and in many industrial processes.";
     Experiment.procedureSteps :=
       Some [ "Place a beaker on the lab bench";
          "Place the funnel on the lab bench";
          "Place the filter paper in the funnel";
          "Add muddy water to the beaker";
          "Pour the muddy water through the funnel";
          "Observe the transparent water collected below" ] |}.

Definition exp_evaporation : Experiment.t :=
  {| Experiment.id := "evaporation";
     Experiment.title := "Separation by Evaporation";
     Experiment.chapter := "Separation of Substances";
     Experiment.classLevel := 6;
     Experiment.aim := "To obtain salt from salt solution by evaporation.";
     Experiment.apparatus := ["tripod-stand"; "burner"; "china-dish"];
     Experiment.chemicals :=
       [ ExperimentChemical.mk "salt-solution" "Salt Solution" "#e8f4ff" ];
     Experiment.reactions :=
       [ ("salt-solution",
         {| observation := "Clear salt solution is in the china dish. The solution looks like plain water but contains dissolved salt.";
            explanation := "Salt solution is a homogeneous mixture where salt is completely dissolved in water. To recover the salt, you need to evaporate the water.";
            success := false |});
       ("salt-solution+heat",
         {| observation := "As you heat the solution, you can see steam rising. The water level is decreasing gradually.";
            explanation := "Heat provides energy for water molecules to escape as water vapor (steam). Keep heating to evaporate all the water.";
            success := false |});
       ("salt-solution+heat+evaporate",
         {| observation := "All the water has evaporated! White salt crystals are left behind at the bottom of the china dish.";
            explanation := "When water evaporates, the dissolved salt cannot escape with it because salt has a much higher boiling point. The salt crystallizes and remains in the dish. This is how sea salt is obtained from sea water!";
            success := true |}) ];
     Experiment.conclusion := "Evaporation is used to separate a dissolved solid from a liquid. When the liquid evaporates, the solid is left behind. This method is used to obtain salt from sea water and in sugar production.";
     Experiment.procedureSteps :=
       Some [ "Place the tripod stand on the lab bench";
          "Place the burner under the tripod stand";
          "Place the china dish on the tripod stand";
          "Add salt solution to the china dish";
          "Heat the solution and observe evaporation";
          "Observe the salt crystals left behind" ] |}.

Definition exp_physical_chemical : Experiment.t :=
  {| Experiment.id := "physical-chemical";
     Experiment.title := "Physical vs Chemical Change";
     Experiment.chapter := "Changes Around Us";
     Experiment.classLevel := 6;
     Experiment.aim := "To distinguish between physical and chemical changes.";
     Experiment.apparatus := ["burner"; "tripod-stand"; "beaker"; "tongs"];
     Experiment.chemicals :=
       [ ExperimentChemical.mk "ice" "Ice Cubes" "#e0f4ff";
       ExperimentChemical.mk "paper" "Paper Strip" "#f5f5dc";
       ExperimentChemical.mk "magnesium" "Magnesium Ribbon" "#d4d4d4" ];
     Experiment.reactions :=
       [ ("ice+heat",
         {| observation := "The ice is melting! It is turning into liquid water. If you cool it again, it will become ice.";
            explanation := "Melting of ice is a PHYSICAL CHANGE. Only the state changes (solid to liquid), but the substance remains water (Hâ‚‚O). This change is reversible.";
            success := true |});
       ("paper+heat",
         {| observation := "The paper catches fire and burns! It turns into ash and smoke. You cannot get the paper back from ash.";
            explanation := "Burning of paper is a CHEMICAL CHANGE. The paper reacts with oxygen to form new substances (ash, carbon dioxide, water vapor). This change is irreversible.";
            success := true |});
       ("magnesium+heat",
         {| observation := "The magnesium ribbon burns with a bright white flame! A white powder (magnesium oxide) is formed.";
            explanation := "Burning of magnesium is a CHEMICAL CHANGE. Magnesium reacts with oxygen: 2Mg + Oâ‚‚ â†’ 2MgO. The white powder formed is magnesium oxide, a completely new substance.";
            success := true |}) ];
     Experiment.conclusion := "Physical changes are reversible and do not form new substances (melting, freezing, dissolving). Chemical changes are usually irreversible and form new substances (burning, rusting, cooking).";
     Experiment.procedureSteps :=
       Some [ "Click 'Tripod Stand' to place it on the bench";
          "Click 'Burner' to place it under the stand";
          "Click 'Beaker' to place it on the stand";
          "Click 'Ice Cubes' to add them to the beaker";
          "Click the Burner to turn it ON (Observe Melting)";
          "Click the 'Reset' button to clear the workspace";
          "Click 'Burner' to place it on the bench";
          "Click 'Tongs' to place them";
          "Click 'Paper Strip' to hold it with tongs";
          "Click the Burner to turn it ON (Observe Burning)";
          "Click the 'Reset' button to clear the workspace";
          "Click 'Burner' to place it on the bench";
          "Click 'Tongs' to place them";
          "Click 'Magnesium Ribbon' to hold it";
          "Click the Burner to turn it ON (Observe White Flash)" ] |}.

Definition class6Experiments : list Experiment.t := [exp_salt_dissolution; exp_filtration; exp_evaporation; exp_physical_chemical].

Definition exp_acids_bases : Experiment.t :=
  {| Experiment.id := "acids-bases";
     Experiment.title := "Testing Acids and Bases";
     Experiment.chapter := "Acids, Bases and Salts";
     Experiment.classLevel := 7;
     Experiment.aim := "To test the nature of substances using litmus indicators and observe color changes.";
     Experiment.apparatus := ["test-tube-stand"; "test-tube"; "dropper"];
     Experiment.chemicals :=
       [ ExperimentChemical.mk "vinegar" "Vinegar (Acid)" "#fff8e0";
       ExperimentChemical.mk "lemon-juice" "Lemon Juice (Acid)" "#fffacd";
       ExperimentChemical.mk "soap-solution" "Soap Solution (Base)" "#e8f0ff";
       ExperimentChemical.mk "baking-soda" "Baking Soda Soln (Base)" "#f8f8ff";
       ExperimentChemical.mk "blue-litmus" "Blue Litmus" "#4169e1";
       ExperimentChemical.mk "red-litmus" "Red Litmus" "#dc143c" ];
     Experiment.reactions :=
       [ ("vinegar+blue-litmus",
         {| observation := "ðŸ”´ The BLUE litmus turned RED! This confirms vinegar is an ACID.";
            explanation := "Acids turn blue litmus paper/solution RED. Vinegar contains acetic acid which releases Hâº ions in water.";
            success := true |});
       ("vinegar+red-litmus",
         {| observation := "The red litmus remains RED. No color change with red litmus in acid.";
            explanation := "Red litmus does not change color in acidic solutions. To identify an acid, test with blue litmus.";
            success := true |});
       ("lemon-juice+blue-litmus",
         {| observation := "ðŸ”´ The BLUE litmus turned RED! This confirms lemon juice is an ACID.";
            explanation := "Lemon juice contains citric acid. Like all acids, it releases Hâº ions which turn blue litmus red.";
            success := true |});
       ("lemon-juice+red-litmus",
         {| observation := "The red litmus remains RED. No color change with red litmus in acid.";
            explanation := "Red litmus does not change color in acidic solutions.";
            success := true |});
       ("soap-solution+blue-litmus",
         {| observation := "The blue litmus remains BLUE. No color change with blue litmus in base.";
            explanation := "Blue litmus does not change color in basic solutions.";
            success := true |});
       ("soap-solution+red-litmus",
         {| observation := "ðŸ”µ The RED litmus turned BLUE! This confirms soap solution is a BASE.";
            explanation := "Bases turn red litmus paper/solution BLUE. Soap solution releases OHâ» ions in water.";
            success := true |});
       ("baking-soda+blue-litmus",
         {| observation := "The blue litmus remains BLUE. No color change with blue litmus in base.";
            explanation := "Blue litmus does not change color in basic solutions.";
            success := true |});
       ("baking-soda+red-litmus",
         {| observation := "ðŸ”µ The RED litmus turned BLUE! This confirms baking soda solution is a BASE.";
            explanation := "Baking soda (NaHCOâ‚ƒ) is a weak base that releases OHâ» ions in water.";
            success := true |}) ];
     Experiment.conclusion := "Acids turn blue litmus red (due to Hâº ions). Bases turn red litmus blue (due to OHâ» ions). Common acids: vinegar, lemon juice. Common bases: soap, baking soda.";
     Experiment.procedureSteps :=
       Some [ "Add vinegar to test tube";
          "Add blue litmus using dropper - observe color change";
          "Reset & add red litmus - observe";
          "Repeat for other substances" ] |}.

Definition class7Experiments : list Experiment.t := [exp_acids_bases].

Definition exp_neutralization : Experiment.t :=
  {| Experiment.id := "neutralization";
     Experiment.title := "Neutralization Reaction";
     Experiment.chapter := "Acids, Bases and Salts";
     Experiment.classLevel := 8;
     Experiment.aim := "To study the reaction between an acid and a base using phenolphthalein indicator.";
     Experiment.apparatus := ["beaker"; "dropper"];
     Experiment.chemicals :=
       [ ExperimentChemical.mk "naoh" "NaOH Solution" "#e0e0ff";
       ExperimentChemical.mk "phenolphthalein" "Phenolphthalein" "#ffb6c1";
       ExperimentChemical.mk "hcl" "Dilute HCl" "#ffe0e0" ];
     Experiment.reactions :=
       [ ("naoh",
         {| observation := "Sodium hydroxide (NaOH) solution is in the beaker. It is a clear, colorless basic solution.";
            explanation := "NaOH is a strong base that completely dissociates in water to form Naâº and OHâ» ions.";
            success := false |});
       ("naoh+phenolphthalein",
         {| observation := "ðŸ’— The solution turned PINK! Phenolphthalein indicates the presence of a base. Now add HCl to neutralize.";
            explanation := "Phenolphthalein is colorless in acidic/neutral solutions but turns pink/magenta in basic solutions (pH > 8.2).";
            success := false |});
       ("naoh+phenolphthalein+hcl",
         {| observation := "âšª NEUTRALIZATION COMPLETE! The solution is now colorless - the acid has neutralized the base!";
            explanation := "Complete neutralization: HCl + NaOH â†’ NaCl + Hâ‚‚O. The phenolphthalein turned colorless because the solution is no longer basic.";
            success := true |}) ];
     Experiment.conclusion := "When an acid (HCl) reacts with a base (NaOH), they neutralize each other to form salt (NaCl) and water. Reaction: HCl + NaOH â†’ NaCl + Hâ‚‚O";
     Experiment.procedureSteps :=
       Some [ "Place the beaker on the lab bench";
          "Add NaOH solution to the beaker";
          "Add Phenolphthalein indicator";
          "Select the dropper from apparatus shelf";
          "Slowly add 5 drops of HCl to neutralize" ] |}.

Definition class8Experiments : list Experiment.t := [exp_neutralization].
(** [experimentsData], in ascending order of the class level, which is the
    order of [for (const classLevel in experimentsData)]. *)
Definition experimentsData : list (Z * list Experiment.t) :=
  [ (6%Z, class6Experiments); (7%Z, class7Experiments); (8%Z, class8Experiments) ].

Fixpoint getExperimentById_in (id : string) (data : list (Z * list Experiment.t))
  : option Experiment.t :=
  match data with
  | [] => None
  | (_, exps) :: tl =>
      match List.find (fun exp => String.eqb (Experiment.id exp) id) exps with
      | Some e => Some e
      | None => getExperimentById_in id tl
      end
  end.

Definition getExperimentById (id : string) : option Experiment.t :=
  getExperimentById_in id experimentsData.

(* ===================================================================== *)
(** ** store/labStore.ts: state *)
(* ===================================================================== *)

Module ActiveEffect.
Record t := mk {
  id : string;
  type : ReactionEffect;
  vesselId : string;
  startTime : Z;
  duration : Z
}.
End ActiveEffect.

Module ReactionNotification.
Record t := mk {
  reaction : Reaction.t;
  products : list Chemical.t;
  vesselId : string;
  timestamp : Z
}.
End ReactionNotification.

Inductive ExperimentMode := sandbox | guided.

(** What a [setTimeout] callback of the store does; the delay is given by
    [timer_delay]. *)
Inductive Timer :=
  | ApplyReactionLater (vesselId : string) (reaction : Reaction.t)
  | AutoEvaporate
  | StirFinished
  | ShowCompletionPopup.

Definition timer_delay (t : Timer) : Z :=
  match t with
  | ApplyReactionLater _ _ => 100
  | AutoEvaporate => 5000
  | StirFinished => 4000
  | ShowCompletionPopup => 3000
  end.

Record LabStore := mkLabStore {
  vessels : gmap string LabVessel.t;
  selectedVesselId : option string;
  isPouringActive : bool;
  pouringSourceId : option string;
  pouringTargetId : option string;
  pendingFiltrationVolume : Q;
  isAutoPouring : bool;
  activeEffects : list ActiveEffect.t;
  reactionNotification : option ReactionNotification.t;
  safetyWarning : option (string * string);
  bunsenBurnerOn : bool;
  heatingVesselId : option string;
  experimentMode : ExperimentMode;
  showLab : bool;
  currentExperiment : option Experiment.t;
  placedApparatus : list string;
  addedChemicals : list string;
  experimentActions : list string;
  currentObservation : string;
  currentExplanation : string;
  showExplanation : bool;
  experimentHeatLevel : Q;
  experimentStirCount : Z;
  isStirring : bool;
  completedExperiments : list string;
  saltTested : bool;
  sandTested : bool;
  resetAfterSaltTest : bool;
  showResetPrompt : bool;
  resetPromptMessage : string;
  showCompletionPopup : bool;
  dishCracked : bool;
  iceTested : bool;
  paperTested : bool;
  magnesiumTested : bool;
  neutralizationAnimating : bool;
  neutralizationDropCount : Z;
  neutralizationComplete : bool
}.

(** One setter per field: [set({ f: x })]. *)
Definition set_vessels (x : gmap string LabVessel.t) (s : LabStore) : LabStore :=
  mkLabStore
    x (selectedVesselId s) (isPouringActive s) (pouringSourceId s) (pouringTargetId s)
    (pendingFiltrationVolume s) (isAutoPouring s) (activeEffects s) (reactionNotification s)
    (safetyWarning s) (bunsenBurnerOn s) (heatingVesselId s) (experimentMode s) (showLab s)
    (currentExperiment s) (placedApparatus s) (addedChemicals s) (experimentActions s)
    (currentObservation s) (currentExplanation s) (showExplanation s)
    (experimentHeatLevel s) (experimentStirCount s) (isStirring s) (completedExperiments s)
    (saltTested s) (sandTested s) (resetAfterSaltTest s) (showResetPrompt s)
    (resetPromptMessage s) (showCompletionPopup s) (dishCracked s) (iceTested s)
    (paperTested s) (magnesiumTested s) (neutralizationAnimating s)
    (neutralizationDropCount s) (neutralizationComplete s).

Definition set_selectedVesselId (x : option string) (s : LabStore) : LabStore :=
  mkLabStore
    (vessels s) x (isPouringActive s) (pouringSourceId s) (pouringTargetId s)
    (pendingFiltrationVolume s) (isAutoPouring s) (activeEffects s) (reactionNotification s)
    (safetyWarning s) (bunsenBurnerOn s) (heatingVesselId s) (experimentMode s) (showLab s)
    (currentExperiment s) (placedApparatus s) (addedChemicals s) (experimentActions s)
    (currentObservation s) (currentExplanation s) (showExplanation s)
    (experimentHeatLevel s) (experimentStirCount s) (isStirring s) (completedExperiments s)
    (saltTested s) (sandTested s) (resetAfterSaltTest s) (showResetPrompt s)
    (resetPromptMessage s) (showCompletionPopup s) (dishCracked s) (iceTested s)
    (paperTested s) (magnesiumTested s) (neutralizationAnimating s)
    (neutralizationDropCount s) (neutralizationComplete s).

Definition set_pendingFiltrationVolume (x : Q) (s : LabStore) : LabStore :=
  mkLabStore
    (vessels s) (selectedVesselId s) (isPouringActive s) (pouringSourceId s)
    (pouringTargetId s) x (isAutoPouring s) (activeEffects s) (reactionNotification s)
    (safetyWarning s) (bunsenBurnerOn s) (heatingVesselId s) (experimentMode s) (showLab s)
    (currentExperiment s) (placedApparatus s) (addedChemicals s) (experimentActions s)
    (currentObservation s) (currentExplanation s) (showExplanation s)
    (experimentHeatLevel s) (experimentStirCount s) (isStirring s) (completedExperiments s)
    (saltTested s) (sandTested s) (resetAfterSaltTest s) (showResetPrompt s)
    (resetPromptMessage s) (showCompletionPopup s) (dishCracked s) (iceTested s)
    (paperTested s) (magnesiumTested s) (neutralizationAnimating s)
    (neutralizationDropCount s) (neutralizationComplete s).

Definition set_activeEffects (x : list ActiveEffect.t) (s : LabStore) : LabStore :=
  mkLabStore
    (vessels s) (selectedVesselId s) (isPouringActive s) (pouringSourceId s)
    (pouringTargetId s) (pendingFiltrationVolume s) (isAutoPouring s) x
    (reactionNotification s) (safetyWarning s) (bunsenBurnerOn s) (heatingVesselId s)
    (experimentMode s) (showLab s) (currentExperiment s) (placedApparatus s)
    (addedChemicals s) (experimentActions s) (currentObservation s) (currentExplanation s)
    (showExplanation s) (experimentHeatLevel s) (experimentStirCount s) (isStirring s)
    (completedExperiments s) (saltTested s) (sandTested s) (resetAfterSaltTest s)
    (showResetPrompt s) (resetPromptMessage s) (showCompletionPopup s) (dishCracked s)
    (iceTested s) (paperTested s) (magnesiumTested s) (neutralizationAnimating s)
    (neutralizationDropCount s) (neutralizationComplete s).

Definition set_reactionNotification (x : option ReactionNotification.t) (s : LabStore) : LabStore :=
  mkLabStore
    (vessels s) (selectedVesselId s) (isPouringActive s) (pouringSourceId s)
    (pouringTargetId s) (pendingFiltrationVolume s) (isAutoPouring s) (activeEffects s) x
    (safetyWarning s) (bunsenBurnerOn s) (heatingVesselId s) (experimentMode s) (showLab s)
    (currentExperiment s) (placedApparatus s) (addedChemicals s) (experimentActions s)
    (currentObservation s) (currentExplanation s) (showExplanation s)
    (experimentHeatLevel s) (experimentStirCount s) (isStirring s) (completedExperiments s)
    (saltTested s) (sandTested s) (resetAfterSaltTest s) (showResetPrompt s)
    (resetPromptMessage s) (showCompletionPopup s) (dishCracked s) (iceTested s)
    (paperTested s) (magnesiumTested s) (neutralizationAnimating s)
    (neutralizationDropCount s) (neutralizationComplete s).

Definition set_safetyWarning (x : option (string * string)) (s : LabStore) : LabStore :=
  mkLabStore
    (vessels s) (selectedVesselId s) (isPouringActive s) (pouringSourceId s)
    (pouringTargetId s) (pendingFiltrationVolume s) (isAutoPouring s) (activeEffects s)
    (reactionNotification s) x (bunsenBurnerOn s) (heatingVesselId s) (experimentMode s)
    (showLab s) (currentExperiment s) (placedApparatus s) (addedChemicals s)
    (experimentActions s) (currentObservation s) (currentExplanation s) (showExplanation s)
    (experimentHeatLevel s) (experimentStirCount s) (isStirring s) (completedExperiments s)
    (saltTested s) (sandTested s) (resetAfterSaltTest s) (showResetPrompt s)
    (resetPromptMessage s) (showCompletionPopup s) (dishCracked s) (iceTested s)
    (paperTested s) (magnesiumTested s) (neutralizationAnimating s)
    (neutralizationDropCount s) (neutralizationComplete s).

Definition set_bunsenBurnerOn (x : bool) (s : LabStore) : LabStore :=
  mkLabStore
    (vessels s) (selectedVesselId s) (isPouringActive s) (pouringSourceId s)
    (pouringTargetId s) (pendingFiltrationVolume s) (isAutoPouring s) (activeEffects s)
    (reactionNotification s) (safetyWarning s) x (heatingVesselId s) (experimentMode s)
    (showLab s) (currentExperiment s) (placedApparatus s) (addedChemicals s)
    (experimentActions s) (currentObservation s) (currentExplanation s) (showExplanation s)
    (experimentHeatLevel s) (experimentStirCount s) (isStirring s) (completedExperiments s)
    (saltTested s) (sandTested s) (resetAfterSaltTest s) (showResetPrompt s)
    (resetPromptMessage s) (showCompletionPopup s) (dishCracked s) (iceTested s)
    (paperTested s) (magnesiumTested s) (neutralizationAnimating s)
    (neutralizationDropCount s) (neutralizationComplete s).

Definition set_experimentMode (x : ExperimentMode) (s : LabStore) : LabStore :=
  mkLabStore
    (vessels s) (selectedVesselId s) (isPouringActive s) (pouringSourceId s)
    (pouringTargetId s) (pendingFiltrationVolume s) (isAutoPouring s) (activeEffects s)
    (reactionNotification s) (safetyWarning s) (bunsenBurnerOn s) (heatingVesselId s) x
    (showLab s) (currentExperiment s) (placedApparatus s) (addedChemicals s)
    (experimentActions s) (currentObservation s) (currentExplanation s) (showExplanation s)
    (experimentHeatLevel s) (experimentStirCount s) (isStirring s) (completedExperiments s)
    (saltTested s) (sandTested s) (resetAfterSaltTest s) (showResetPrompt s)
    (resetPromptMessage s) (showCompletionPopup s) (dishCracked s) (iceTested s)
    (paperTested s) (magnesiumTested s) (neutralizationAnimating s)
    (neutralizationDropCount s) (neutralizationComplete s).

Definition set_showLab (x : bool) (s : LabStore) : LabStore :=
  mkLabStore
    (vessels s) (selectedVesselId s) (isPouringActive s) (pouringSourceId s)
    (pouringTargetId s) (pendingFiltrationVolume s) (isAutoPouring s) (activeEffects s)
    (reactionNotification s) (safetyWarning s) (bunsenBurnerOn s) (heatingVesselId s)
    (experimentMode s) x (currentExperiment s) (placedApparatus s) (addedChemicals s)
    (experimentActions s) (currentObservation s) (currentExplanation s) (showExplanation s)
    (experimentHeatLevel s) (experimentStirCount s) (isStirring s) (completedExperiments s)
    (saltTested s) (sandTested s) (resetAfterSaltTest s) (showResetPrompt s)
    (resetPromptMessage s) (showCompletionPopup s) (dishCracked s) (iceTested s)
    (paperTested s) (magnesiumTested s) (neutralizationAnimating s)
    (neutralizationDropCount s) (neutralizationComplete s).

Definition set_currentExperiment (x : option Experiment.t) (s : LabStore) : LabStore :=
  mkLabStore
    (vessels s) (selectedVesselId s) (isPouringActive s) (pouringSourceId s)
    (pouringTargetId s) (pendingFiltrationVolume s) (isAutoPouring s) (activeEffects s)
    (reactionNotification s) (safetyWarning s) (bunsenBurnerOn s) (heatingVesselId s)
    (experimentMode s) (showLab s) x (placedApparatus s) (addedChemicals s)
    (experimentActions s) (currentObservation s) (currentExplanation s) (showExplanation s)
    (experimentHeatLevel s) (experimentStirCount s) (isStirring s) (completedExperiments s)
    (saltTested s) (sandTested s) (resetAfterSaltTest s) (showResetPrompt s)
    (resetPromptMessage s) (showCompletionPopup s) (dishCracked s) (iceTested s)
    (paperTested s) (magnesiumTested s) (neutralizationAnimating s)
    (neutralizationDropCount s) (neutralizationComplete s).

Definition set_placedApparatus (x : list string) (s : LabStore) : LabStore :=
  mkLabStore
    (vessels s) (selectedVesselId s) (isPouringActive s) (pouringSourceId s)
    (pouringTargetId s) (pendingFiltrationVolume s) (isAutoPouring s) (activeEffects s)
    (reactionNotification s) (safetyWarning s) (bunsenBurnerOn s) (heatingVesselId s)
    (experimentMode s) (showLab s) (currentExperiment s) x (addedChemicals s)
    (experimentActions s) (currentObservation s) (currentExplanation s) (showExplanation s)
    (experimentHeatLevel s) (experimentStirCount s) (isStirring s) (completedExperiments s)
    (saltTested s) (sandTested s) (resetAfterSaltTest s) (showResetPrompt s)
    (resetPromptMessage s) (showCompletionPopup s) (dishCracked s) (iceTested s)
    (paperTested s) (magnesiumTested s) (neutralizationAnimating s)
    (neutralizationDropCount s) (neutralizationComplete s).

Definition set_addedChemicals (x : list string) (s : LabStore) : LabStore :=
  mkLabStore
    (vessels s) (selectedVesselId s) (isPouringActive s) (pouringSourceId s)
    (pouringTargetId s) (pendingFiltrationVolume s) (isAutoPouring s) (activeEffects s)
    (reactionNotification s) (safetyWarning s) (bunsenBurnerOn s) (heatingVesselId s)
    (experimentMode s) (showLab s) (currentExperiment s) (placedApparatus s) x
    (experimentActions s) (currentObservation s) (currentExplanation s) (showExplanation s)
    (experimentHeatLevel s) (experimentStirCount s) (isStirring s) (completedExperiments s)
    (saltTested s) (sandTested s) (resetAfterSaltTest s) (showResetPrompt s)
    (resetPromptMessage s) (showCompletionPopup s) (dishCracked s) (iceTested s)
    (paperTested s) (magnesiumTested s) (neutralizationAnimating s)
    (neutralizationDropCount s) (neutralizationComplete s).

Definition set_experimentActions (x : list string) (s : LabStore) : LabStore :=
  mkLabStore
    (vessels s) (selectedVesselId s) (isPouringActive s) (pouringSourceId s)
    (pouringTargetId s) (pendingFiltrationVolume s) (isAutoPouring s) (activeEffects s)
    (reactionNotification s) (safetyWarning s) (bunsenBurnerOn s) (heatingVesselId s)
    (experimentMode s) (showLab s) (currentExperiment s) (placedApparatus s)
    (addedChemicals s) x (currentObservation s) (currentExplanation s) (showExplanation s)
    (experimentHeatLevel s) (experimentStirCount s) (isStirring s) (completedExperiments s)
    (saltTested s) (sandTested s) (resetAfterSaltTest s) (showResetPrompt s)
    (resetPromptMessage s) (showCompletionPopup s) (dishCracked s) (iceTested s)
    (paperTested s) (magnesiumTested s) (neutralizationAnimating s)
    (neutralizationDropCount s) (neutralizationComplete s).

Definition set_currentObservation (x : string) (s : LabStore) : LabStore :=
  mkLabStore
    (vessels s) (selectedVesselId s) (isPouringActive s) (pouringSourceId s)
    (pouringTargetId s) (pendingFiltrationVolume s) (isAutoPouring s) (activeEffects s)
    (reactionNotification s) (safetyWarning s) (bunsenBurnerOn s) (heatingVesselId s)
    (experimentMode s) (showLab s) (currentExperiment s) (placedApparatus s)
    (addedChemicals s) (experimentActions s) x (currentExplanation s) (showExplanation s)
    (experimentHeatLevel s) (experimentStirCount s) (isStirring s) (completedExperiments s)
    (saltTested s) (sandTested s) (resetAfterSaltTest s) (showResetPrompt s)
    (resetPromptMessage s) (showCompletionPopup s) (dishCracked s) (iceTested s)
    (paperTested s) (magnesiumTested s) (neutralizationAnimating s)
    (neutralizationDropCount s) (neutralizationComplete s).

Definition set_currentExplanation (x : string) (s : LabStore) : LabStore :=
  mkLabStore
    (vessels s) (selectedVesselId s) (isPouringActive s) (pouringSourceId s)
    (pouringTargetId s) (pendingFiltrationVolume s) (isAutoPouring s) (activeEffects s)
    (reactionNotification s) (safetyWarning s) (bunsenBurnerOn s) (heatingVesselId s)
    (experimentMode s) (showLab s) (currentExperiment s) (placedApparatus s)
    (addedChemicals s) (experimentActions s) (currentObservation s) x (showExplanation s)
    (experimentHeatLevel s) (experimentStirCount s) (isStirring s) (completedExperiments s)
    (saltTested s) (sandTested s) (resetAfterSaltTest s) (showResetPrompt s)
    (resetPromptMessage s) (showCompletionPopup s) (dishCracked s) (iceTested s)
    (paperTested s) (magnesiumTested s) (neutralizationAnimating s)
    (neutralizationDropCount s) (neutralizationComplete s).

Definition set_showExplanation (x : bool) (s : LabStore) : LabStore :=
  mkLabStore
    (vessels s) (selectedVesselId s) (isPouringActive s) (pouringSourceId s)
    (pouringTargetId s) (pendingFiltrationVolume s) (isAutoPouring s) (activeEffects s)
    (reactionNotification s) (safetyWarning s) (bunsenBurnerOn s) (heatingVesselId s)
    (experimentMode s) (showLab s) (currentExperiment s) (placedApparatus s)
    (addedChemicals s) (experimentActions s) (currentObservation s) (currentExplanation s) x
    (experimentHeatLevel s) (experimentStirCount s) (isStirring s) (completedExperiments s)
    (saltTested s) (sandTested s) (resetAfterSaltTest s) (showResetPrompt s)
    (resetPromptMessage s) (showCompletionPopup s) (dishCracked s) (iceTested s)
    (paperTested s) (magnesiumTested s) (neutralizationAnimating s)
    (neutralizationDropCount s) (neutralizationComplete s).

Definition set_experimentHeatLevel (x : Q) (s : LabStore) : LabStore :=
  mkLabStore
    (vessels s) (selectedVesselId s) (isPouringActive s) (pouringSourceId s)
    (pouringTargetId s) (pendingFiltrationVolume s) (isAutoPouring s) (activeEffects s)
    (reactionNotification s) (safetyWarning s) (bunsenBurnerOn s) (heatingVesselId s)
    (experimentMode s) (showLab s) (currentExperiment s) (placedApparatus s)
    (addedChemicals s) (experimentActions s) (currentObservation s) (currentExplanation s)
    (showExplanation s) x (experimentStirCount s) (isStirring s) (completedExperiments s)
    (saltTested s) (sandTested s) (resetAfterSaltTest s) (showResetPrompt s)
    (resetPromptMessage s) (showCompletionPopup s) (dishCracked s) (iceTested s)
    (paperTested s) (magnesiumTested s) (neutralizationAnimating s)
    (neutralizationDropCount s) (neutralizationComplete s).

Definition set_experimentStirCount (x : Z) (s : LabStore) : LabStore :=
  mkLabStore
    (vessels s) (selectedVesselId s) (isPouringActive s) (pouringSourceId s)
    (pouringTargetId s) (pendingFiltrationVolume s) (isAutoPouring s) (activeEffects s)
    (reactionNotification s) (safetyWarning s) (bunsenBurnerOn s) (heatingVesselId s)
    (experimentMode s) (showLab s) (currentExperiment s) (placedApparatus s)
    (addedChemicals s) (experimentActions s) (currentObservation s) (currentExplanation s)
    (showExplanation s) (experimentHeatLevel s) x (isStirring s) (completedExperiments s)
    (saltTested s) (sandTested s) (resetAfterSaltTest s) (showResetPrompt s)
    (resetPromptMessage s) (showCompletionPopup s) (dishCracked s) (iceTested s)
    (paperTested s) (magnesiumTested s) (neutralizationAnimating s)
    (neutralizationDropCount s) (neutralizationComplete s).

Definition set_isStirring (x : bool) (s : LabStore) : LabStore :=
  mkLabStore
    (vessels s) (selectedVesselId s) (isPouringActive s) (pouringSourceId s)
    (pouringTargetId s) (pendingFiltrationVolume s) (isAutoPouring s) (activeEffects s)
    (reactionNotification s) (safetyWarning s) (bunsenBurnerOn s) (heatingVesselId s)
    (experimentMode s) (showLab s) (currentExperiment s) (placedApparatus s)
    (addedChemicals s) (experimentActions s) (currentObservation s) (currentExplanation s)
    (showExplanation s) (experimentHeatLevel s) (experimentStirCount s) x
    (completedExperiments s) (saltTested s) (sandTested s) (resetAfterSaltTest s)
    (showResetPrompt s) (resetPromptMessage s) (showCompletionPopup s) (dishCracked s)
    (iceTested s) (paperTested s) (magnesiumTested s) (neutralizationAnimating s)
    (neutralizationDropCount s) (neutralizationComplete s).

Definition set_completedExperiments (x : list string) (s : LabStore) : LabStore :=
  mkLabStore
    (vessels s) (selectedVesselId s) (isPouringActive s) (pouringSourceId s)
    (pouringTargetId s) (pendingFiltrationVolume s) (isAutoPouring s) (activeEffects s)
    (reactionNotification s) (safetyWarning s) (bunsenBurnerOn s) (heatingVesselId s)
    (experimentMode s) (showLab s) (currentExperiment s) (placedApparatus s)
    (addedChemicals s) (experimentActions s) (currentObservation s) (currentExplanation s)
    (showExplanation s) (experimentHeatLevel s) (experimentStirCount s) (isStirring s) x
    (saltTested s) (sandTested s) (resetAfterSaltTest s) (showResetPrompt s)
    (resetPromptMessage s) (showCompletionPopup s) (dishCracked s) (iceTested s)
    (paperTested s) (magnesiumTested s) (neutralizationAnimating s)
    (neutralizationDropCount s) (neutralizationComplete s).

Definition set_saltTested (x : bool) (s : LabStore) : LabStore :=
  mkLabStore
    (vessels s) (selectedVesselId s) (isPouringActive s) (pouringSourceId s)
    (pouringTargetId s) (pendingFiltrationVolume s) (isAutoPouring s) (activeEffects s)
    (reactionNotification s) (safetyWarning s) (bunsenBurnerOn s) (heatingVesselId s)
    (experimentMode s) (showLab s) (currentExperiment s) (placedApparatus s)
    (addedChemicals s) (experimentActions s) (currentObservation s) (currentExplanation s)
    (showExplanation s) (experimentHeatLevel s) (experimentStirCount s) (isStirring s)
    (completedExperiments s) x (sandTested s) (resetAfterSaltTest s) (showResetPrompt s)
    (resetPromptMessage s) (showCompletionPopup s) (dishCracked s) (iceTested s)
    (paperTested s) (magnesiumTested s) (neutralizationAnimating s)
    (neutralizationDropCount s) (neutralizationComplete s).

Definition set_sandTested (x : bool) (s : LabStore) : LabStore :=
  mkLabStore
    (vessels s) (selectedVesselId s) (isPouringActive s) (pouringSourceId s)
    (pouringTargetId s) (pendingFiltrationVolume s) (isAutoPouring s) (activeEffects s)
    (reactionNotification s) (safetyWarning s) (bunsenBurnerOn s) (heatingVesselId s)
    (experimentMode s) (showLab s) (currentExperiment s) (placedApparatus s)
    (addedChemicals s) (experimentActions s) (currentObservation s) (currentExplanation s)
    (showExplanation s) (experimentHeatLevel s) (experimentStirCount s) (isStirring s)
    (completedExperiments s) (saltTested s) x (resetAfterSaltTest s) (showResetPrompt s)
    (resetPromptMessage s) (showCompletionPopup s) (dishCracked s) (iceTested s)
    (paperTested s) (magnesiumTested s) (neutralizationAnimating s)
    (neutralizationDropCount s) (neutralizationComplete s).

Definition set_resetAfterSaltTest (x : bool) (s : LabStore) : LabStore :=
  mkLabStore
    (vessels s) (selectedVesselId s) (isPouringActive s) (pouringSourceId s)
    (pouringTargetId s) (pendingFiltrationVolume s) (isAutoPouring s) (activeEffects s)
    (reactionNotification s) (safetyWarning s) (bunsenBurnerOn s) (heatingVesselId s)
    (experimentMode s) (showLab s) (currentExperiment s) (placedApparatus s)
    (addedChemicals s) (experimentActions s) (currentObservation s) (currentExplanation s)
    (showExplanation s) (experimentHeatLevel s) (experimentStirCount s) (isStirring s)
    (completedExperiments s) (saltTested s) (sandTested s) x (showResetPrompt s)
    (resetPromptMessage s) (showCompletionPopup s) (dishCracked s) (iceTested s)
    (paperTested s) (magnesiumTested s) (neutralizationAnimating s)
    (neutralizationDropCount s) (neutralizationComplete s).

Definition set_showResetPrompt (x : bool) (s : LabStore) : LabStore :=
  mkLabStore
    (vessels s) (selectedVesselId s) (isPouringActive s) (pouringSourceId s)
    (pouringTargetId s) (pendingFiltrationVolume s) (isAutoPouring s) (activeEffects s)
    (reactionNotification s) (safetyWarning s) (bunsenBurnerOn s) (heatingVesselId s)
    (experimentMode s) (showLab s) (currentExperiment s) (placedApparatus s)
    (addedChemicals s) (experimentActions s) (currentObservation s) (currentExplanation s)
    (showExplanation s) (experimentHeatLevel s) (experimentStirCount s) (isStirring s)
    (completedExperiments s) (saltTested s) (sandTested s) (resetAfterSaltTest s) x
    (resetPromptMessage s) (showCompletionPopup s) (dishCracked s) (iceTested s)
    (paperTested s) (magnesiumTested s) (neutralizationAnimating s)
    (neutralizationDropCount s) (neutralizationComplete s).

Definition set_resetPromptMessage (x : string) (s : LabStore) : LabStore :=
  mkLabStore
    (vessels s) (selectedVesselId s) (isPouringActive s) (pouringSourceId s)
    (pouringTargetId s) (pendingFiltrationVolume s) (isAutoPouring s) (activeEffects s)
    (reactionNotification s) (safetyWarning s) (bunsenBurnerOn s) (heatingVesselId s)
    (experimentMode s) (showLab s) (currentExperiment s) (placedApparatus s)
    (addedChemicals s) (experimentActions s) (currentObservation s) (currentExplanation s)
    (showExplanation s) (experimentHeatLevel s) (experimentStirCount s) (isStirring s)
    (completedExperiments s) (saltTested s) (sandTested s) (resetAfterSaltTest s)
    (showResetPrompt s) x (showCompletionPopup s) (dishCracked s) (iceTested s)
    (paperTested s) (magnesiumTested s) (neutralizationAnimating s)
    (neutralizationDropCount s) (neutralizationComplete s).

Definition set_showCompletionPopup (x : bool) (s : LabStore) : LabStore :=
  mkLabStore
    (vessels s) (selectedVesselId s) (isPouringActive s) (pouringSourceId s)
    (pouringTargetId s) (pendingFiltrationVolume s) (isAutoPouring s) (activeEffects s)
    (reactionNotification s) (safetyWarning s) (bunsenBurnerOn s) (heatingVesselId s)
    (experimentMode s) (showLab s) (currentExperiment s) (placedApparatus s)
    (addedChemicals s) (experimentActions s) (currentObservation s) (currentExplanation s)
    (showExplanation s) (experimentHeatLevel s) (experimentStirCount s) (isStirring s)
    (completedExperiments s) (saltTested s) (sandTested s) (resetAfterSaltTest s)
    (showResetPrompt s) (resetPromptMessage s) x (dishCracked s) (iceTested s)
    (paperTested s) (magnesiumTested s) (neutralizationAnimating s)
    (neutralizationDropCount s) (neutralizationComplete s).

Definition set_dishCracked (x : bool) (s : LabStore) : LabStore :=
  mkLabStore
    (vessels s) (selectedVesselId s) (isPouringActive s) (pouringSourceId s)
    (pouringTargetId s) (pendingFiltrationVolume s) (isAutoPouring s) (activeEffects s)
    (reactionNotification s) (safetyWarning s) (bunsenBurnerOn s) (heatingVesselId s)
    (experimentMode s) (showLab s) (currentExperiment s) (placedApparatus s)
    (addedChemicals s) (experimentActions s) (currentObservation s) (currentExplanation s)
    (showExplanation s) (experimentHeatLevel s) (experimentStirCount s) (isStirring s)
    (completedExperiments s) (saltTested s) (sandTested s) (resetAfterSaltTest s)
    (showResetPrompt s) (resetPromptMessage s) (showCompletionPopup s) x (iceTested s)
    (paperTested s) (magnesiumTested s) (neutralizationAnimating s)
    (neutralizationDropCount s) (neutralizationComplete s).

Definition set_iceTested (x : bool) (s : LabStore) : LabStore :=
  mkLabStore
    (vessels s) (selectedVesselId s) (isPouringActive s) (pouringSourceId s)
    (pouringTargetId s) (pendingFiltrationVolume s) (isAutoPouring s) (activeEffects s)
    (reactionNotification s) (safetyWarning s) (bunsenBurnerOn s) (heatingVesselId s)
    (experimentMode s) (showLab s) (currentExperiment s) (placedApparatus s)
    (addedChemicals s) (experimentActions s) (currentObservation s) (currentExplanation s)
    (showExplanation s) (experimentHeatLevel s) (experimentStirCount s) (isStirring s)
    (completedExperiments s) (saltTested s) (sandTested s) (resetAfterSaltTest s)
    (showResetPrompt s) (resetPromptMessage s) (showCompletionPopup s) (dishCracked s) x
    (paperTested s) (magnesiumTested s) (neutralizationAnimating s)
    (neutralizationDropCount s) (neutralizationComplete s).

Definition set_paperTested (x : bool) (s : LabStore) : LabStore :=
  mkLabStore
    (vessels s) (selectedVesselId s) (isPouringActive s) (pouringSourceId s)
    (pouringTargetId s) (pendingFiltrationVolume s) (isAutoPouring s) (activeEffects s)
    (reactionNotification s) (safetyWarning s) (bunsenBurnerOn s) (heatingVesselId s)
    (experimentMode s) (showLab s) (currentExperiment s) (placedApparatus s)
    (addedChemicals s) (experimentActions s) (currentObservation s) (currentExplanation s)
    (showExplanation s) (experimentHeatLevel s) (experimentStirCount s) (isStirring s)
    (completedExperiments s) (saltTested s) (sandTested s) (resetAfterSaltTest s)
    (showResetPrompt s) (resetPromptMessage s) (showCompletionPopup s) (dishCracked s)
    (iceTested s) x (magnesiumTested s) (neutralizationAnimating s)
    (neutralizationDropCount s) (neutralizationComplete s).

Definition set_magnesiumTested (x : bool) (s : LabStore) : LabStore :=
  mkLabStore
    (vessels s) (selectedVesselId s) (isPouringActive s) (pouringSourceId s)
    (pouringTargetId s) (pendingFiltrationVolume s) (isAutoPouring s) (activeEffects s)
    (reactionNotification s) (safetyWarning s) (bunsenBurnerOn s) (heatingVesselId s)
    (experimentMode s) (showLab s) (currentExperiment s) (placedApparatus s)
    (addedChemicals s) (experimentActions s) (currentObservation s) (currentExplanation s)
    (showExplanation s) (experimentHeatLevel s) (experimentStirCount s) (isStirring s)
    (completedExperiments s) (saltTested s) (sandTested s) (resetAfterSaltTest s)
    (showResetPrompt s) (resetPromptMessage s) (showCompletionPopup s) (dishCracked s)
    (iceTested s) (paperTested s) x (neutralizationAnimating s) (neutralizationDropCount s)
    (neutralizationComplete s).

Definition set_neutralizationAnimating (x : bool) (s : LabStore) : LabStore :=
  mkLabStore
    (vessels s) (selectedVesselId s) (isPouringActive s) (pouringSourceId s)
    (pouringTargetId s) (pendingFiltrationVolume s) (isAutoPouring s) (activeEffects s)
    (reactionNotification s) (safetyWarning s) (bunsenBurnerOn s) (heatingVesselId s)
    (experimentMode s) (showLab s) (currentExperiment s) (placedApparatus s)
    (addedChemicals s) (experimentActions s) (currentObservation s) (currentExplanation s)
    (showExplanation s) (experimentHeatLevel s) (experimentStirCount s) (isStirring s)
    (completedExperiments s) (saltTested s) (sandTested s) (resetAfterSaltTest s)
    (showResetPrompt s) (resetPromptMessage s) (showCompletionPopup s) (dishCracked s)
    (iceTested s) (paperTested s) (magnesiumTested s) x (neutralizationDropCount s)
    (neutralizationComplete s).

Definition set_neutralizationDropCount (x : Z) (s : LabStore) : LabStore :=
  mkLabStore
    (vessels s) (selectedVesselId s) (isPouringActive s) (pouringSourceId s)
    (pouringTargetId s) (pendingFiltrationVolume s) (isAutoPouring s) (activeEffects s)
    (reactionNotification s) (safetyWarning s) (bunsenBurnerOn s) (heatingVesselId s)
    (experimentMode s) (showLab s) (currentExperiment s) (placedApparatus s)
    (addedChemicals s) (experimentActions s) (currentObservation s) (currentExplanation s)
    (showExplanation s) (experimentHeatLevel s) (experimentStirCount s) (isStirring s)
    (completedExperiments s) (saltTested s) (sandTested s) (resetAfterSaltTest s)
    (showResetPrompt s) (resetPromptMessage s) (showCompletionPopup s) (dishCracked s)
    (iceTested s) (paperTested s) (magnesiumTested s) (neutralizationAnimating s) x
    (neutralizationComplete s).

Definition set_neutralizationComplete (x : bool) (s : LabStore) : LabStore :=
  mkLabStore
    (vessels s) (selectedVesselId s) (isPouringActive s) (pouringSourceId s)
    (pouringTargetId s) (pendingFiltrationVolume s) (isAutoPouring s) (activeEffects s)
    (reactionNotification s) (safetyWarning s) (bunsenBurnerOn s) (heatingVesselId s)
    (experimentMode s) (showLab s) (currentExperiment s) (placedApparatus s)
    (addedChemicals s) (experimentActions s) (currentObservation s) (currentExplanation s)
    (showExplanation s) (experimentHeatLevel s) (experimentStirCount s) (isStirring s)
    (completedExperiments s) (saltTested s) (sandTested s) (resetAfterSaltTest s)
    (showResetPrompt s) (resetPromptMessage s) (showCompletionPopup s) (dishCracked s)
    (iceTested s) (paperTested s) (magnesiumTested s) (neutralizationAnimating s)
    (neutralizationDropCount s) x.

(* ===================================================================== *)
(** ** store/labStore.ts: vessels *)
(* ===================================================================== *)

Open Scope list_scope.
Open Scope Q_scope.

(** A [[number, number, number]] tuple. *)
Definition vec3 (x y z : Q) : Q * Q * Q := (x, y, z).

Definition emptyVessel (id : string) (type : VesselType) (capacity : Q)
    (position : Q * Q * Q) : LabVessel.t :=
  LabVessel.mk id None type capacity 0 0 25 [] position.

(** The store as [create] builds it; [storedCompleted] is the list parsed
    from [localStorage]. *)
Definition initialStore (storedCompleted : list string) : LabStore :=
  {| vessels :=
       <["beaker_1" := emptyVessel "beaker_1" beaker 500 (vec3 (-1.2) 0 0)]>
       (<["beaker_2" := emptyVessel "beaker_2" beaker 500 (vec3 1.2 0 0)]>
       (<["tube_1" := emptyVessel "tube_1" test_tube 50 (vec3 (-2.5) 0 (-1))]>
       (<["tube_2" := emptyVessel "tube_2" test_tube 50 (vec3 (-2.1) 0 (-1))]>
       (<["tube_3" := emptyVessel "tube_3" test_tube 50 (vec3 (-1.7) 0 (-1))]>
       (<["tube_4" := emptyVessel "tube_4" test_tube 50 (vec3 (-1.3) 0 (-1))]>
       (<["flask_1" := emptyVessel "flask_1" flask 250 (vec3 2.8 0 0.5)]> ∅))))));
     selectedVesselId := Some "beaker_1";
     isPouringActive := false;
     pouringSourceId := None;
     pouringTargetId := None;
     pendingFiltrationVolume := 0;
     isAutoPouring := false;
     activeEffects := [];
     reactionNotification := None;
     safetyWarning := None;
     bunsenBurnerOn := false;
     heatingVesselId := None;
     experimentMode := sandbox;
     showLab := false;
     currentExperiment := None;
     placedApparatus := [];
     addedChemicals := [];
     experimentActions := [];
     currentObservation :=
       "Welcome to the Virtual Chemistry Lab! Select an experiment to begin.";
     currentExplanation := "";
     showExplanation := false;
     experimentHeatLevel := 0;
     experimentStirCount := 0;
     isStirring := false;
     completedExperiments := storedCompleted;
     saltTested := false;
     sandTested := false;
     resetAfterSaltTest := false;
     showResetPrompt := false;
     resetPromptMessage := "";
     showCompletionPopup := false;
     dishCracked := false;
     iceTested := false;
     paperTested := false;
     magnesiumTested := false;
     neutralizationAnimating := false;
     neutralizationDropCount := 0;
     neutralizationComplete := false |}.

Definition same_chemical (id : string) (c : VesselContents) : bool :=
  String.eqb (Chemical.id (chemical c)) id.

Definition add_volume (dv : Q) (c : VesselContents) : VesselContents :=
  mkContents (chemical c) (volume c + dv).

(** [getVessel]. *)
Definition getVessel (id : string) (state : LabStore) : option LabVessel.t :=
  vessels state !! id.

(** The timer a reaction check leaves behind: [applyReaction] after 100 ms
    when a rule matched. *)
Definition reaction_timer (vesselId : string) (contents : list VesselContents)
  : list Timer :=
  let reactionResult := reactionManager_checkReaction contents in
  match reaction reactionResult with
  | Some r => if occurred reactionResult then [ApplyReactionLater vesselId r] else []
  | None => []
  end.

Definition fillVessel (vesselId : string) (chemical : Chemical.t) (volume : Q)
    (state : LabStore) : LabStore * list Timer :=
  match vessels state !! vesselId with
  | None => (state, [])
  | Some vessel =>
      let newVolume :=
        Qmin (LabVessel.currentVolume vessel + volume) (LabVessel.capacity vessel) in
      let actualVolumeAdded := newVolume - LabVessel.currentVolume vessel in
      if Qleb actualVolumeAdded 0 then (state, [])
      else
        let newContents :=
          match findIndex (same_chemical (Chemical.id chemical))
                  (LabVessel.contents vessel) with
          | Some existingContentIndex =>
              alter (add_volume actualVolumeAdded) existingContentIndex
                (LabVessel.contents vessel)
          | None => LabVessel.contents vessel ++ [mkContents chemical actualVolumeAdded]
          end in
        let updatedVessel :=
          LabVessel.with_contents newContents
            (LabVessel.with_currentVolume newVolume vessel) in
        let newVessels := <[vesselId := updatedVessel]> (vessels state) in
        (set_vessels newVessels state,
         reaction_timer vesselId (LabVessel.contents updatedVessel))
  end.

Definition clearVessel (vesselId : string) (state : LabStore) : LabStore :=
  match vessels state !! vesselId with
  | None => state
  | Some vessel =>
      set_vessels
        (<[vesselId :=
             LabVessel.with_tiltAngle 0
               (LabVessel.with_contents []
                  (LabVessel.with_currentVolume 0 vessel))]> (vessels state))
        state
  end.

(** [transferLiquid], line 420: the amount that is really moved. *)
Definition actualTransfer (volume : Q) (source target : LabVessel.t) : Q :=
  let availableVolume := LabVessel.currentVolume source in
  let targetSpace := LabVessel.capacity target - LabVessel.currentVolume target in
  min3 volume availableVolume targetSpace.

(** The [forEach] over the source contents: what stays, entry by entry. *)
Definition newSourceContents (transferRatio : Q) (contents : list VesselContents)
  : list VesselContents :=
  flat_map (fun content =>
    let transferAmount := volume content * transferRatio in
    let remainingAmount := volume content - transferAmount in
    if Qgtb remainingAmount 0.01
    then [mkContents (chemical content) remainingAmount] else []) contents.

(** The same [forEach]: what leaves, entry by entry. *)
Definition transferredContents (transferRatio : Q) (contents : list VesselContents)
  : list VesselContents :=
  flat_map (fun content =>
    let transferAmount := volume content * transferRatio in
    if Qgtb transferAmount 0.01
    then [mkContents (chemical content) transferAmount] else []) contents.

(** One round of the merge loop: add to the entry with the same chemical id,
    or push a new entry. *)
Definition merge_one (newTargetContents : list VesselContents)
    (transferred : VesselContents) : list VesselContents :=
  match findIndex (same_chemical (Chemical.id (chemical transferred)))
          newTargetContents with
  | Some existingIndex =>
      alter (add_volume (volume transferred)) existingIndex newTargetContents
  | None => newTargetContents ++ [transferred]
  end.

Definition merge_contents (target transferred : list VesselContents)
  : list VesselContents :=
  fold_left merge_one transferred target.

(** The object written back for the source: [{ ...source, currentVolume,
    contents }]. *)
Definition pouredSource (actual : Q) (source : LabVessel.t) : LabVessel.t :=
  let transferRatio := actual / LabVessel.currentVolume source in
  LabVessel.with_contents
    (newSourceContents transferRatio (LabVessel.contents source))
    (LabVessel.with_currentVolume (LabVessel.currentVolume source - actual) source).

(** The object written for the target: [{ ...target, currentVolume,
    contents }]. *)
Definition pouredTarget (actual : Q) (source target : LabVessel.t) : LabVessel.t :=
  let transferRatio := actual / LabVessel.currentVolume source in
  LabVessel.with_contents
    (merge_contents (LabVessel.contents target)
       (transferredContents transferRatio (LabVessel.contents source)))
    (LabVessel.with_currentVolume (LabVessel.currentVolume target + actual) target).

Definition transferLiquid (sourceId targetId : string) (volume : Q)
    (state : LabStore) : LabStore * list Timer :=
  match vessels state !! sourceId, vessels state !! targetId with
  | Some source, Some target =>
      if Qleb (LabVessel.currentVolume source) 0 then (state, [])
      else
        let actual := actualTransfer volume source target in
        if Qleb actual 0 then (state, [])
        else
          let newSource := pouredSource actual source in
          let newTarget := pouredTarget actual source target in
          let newVessels :=
            <[targetId := newTarget]> (<[sourceId := newSource]> (vessels state)) in
          let timers := reaction_timer targetId (LabVessel.contents newTarget) in
          if String.eqb targetId "collection_beaker" then
            let newExperimentActions :=
              if Qgtb actual 0 && negb (includes (experimentActions state) "pour")
              then experimentActions state ++ ["pour"]
              else experimentActions state in
            let pendingVolume := pendingFiltrationVolume state + actual in
            (set_vessels (<[targetId := target]> newVessels)
               (set_experimentActions newExperimentActions
                  (set_pendingFiltrationVolume pendingVolume state)),
             timers)
          else
            (set_vessels newVessels state, timers)
  | _, _ => (state, [])
  end.

Definition clearWater : Chemical.t :=
  Chemical.mk "water" "Water" None "#c8e0ff" water None.

Definition addFiltrate (volume : Q) (state : LabStore) : LabStore :=
  match vessels state !! "collection_beaker" with
  | None => state
  | Some beaker_ =>
      if Qleb (pendingFiltrationVolume state) 0 then state
      else
        let finalVolume := Qmin volume (pendingFiltrationVolume state) in
        if Qleb finalVolume 0 then state
        else
          let newContents :=
            match List.find (same_chemical "water") (LabVessel.contents beaker_) with
            | Some _ =>
                List.map (fun c => if same_chemical "water" c
                                   then add_volume finalVolume c else c)
                  (LabVessel.contents beaker_)
            | None => LabVessel.contents beaker_ ++ [mkContents clearWater finalVolume]
            end in
          set_vessels
            (<["collection_beaker" :=
                 LabVessel.with_contents newContents
                   (LabVessel.with_currentVolume
                      (LabVessel.currentVolume beaker_ + finalVolume) beaker_)]>
               (vessels state))
            (set_pendingFiltrationVolume
               (pendingFiltrationVolume state - finalVolume) state)
  end.

(** The effects of a reaction, numbered from the module counter
    [effectIdCounter]. *)
Fixpoint newEffects (now : Z) (effectIdCounter : nat) (vesselId : string)
    (effects : list ReactionEffect) : list ActiveEffect.t :=
  match effects with
  | [] => []
  | effectType :: tl =>
      let duration := match effectType with bubbles => 4000%Z | _ => 3000%Z end in
      ActiveEffect.mk ("effect_" ++ nat_to_string (S effectIdCounter))%string
        effectType vesselId now duration
      :: newEffects now (S effectIdCounter) vesselId tl
  end.

(** [applyReaction]; [now] is [Date.now()], the second component is the
    counter after the call. *)
Definition applyReaction (now : Z) (effectIdCounter : nat) (vesselId : string)
    (reaction : Reaction.t) (state : LabStore) : LabStore * nat :=
  match vessels state !! vesselId with
  | None => (state, effectIdCounter)
  | Some vessel =>
      let newContents :=
        List.map (fun product =>
          mkContents product
            (LabVessel.currentVolume vessel
               / inject_Z (Z.of_nat (length (Reaction.products reaction)))))
          (Reaction.products reaction) in
      let newVessels :=
        <[vesselId := LabVessel.with_contents newContents vessel]> (vessels state) in
      let notification :=
        ReactionNotification.mk reaction (Reaction.products reaction) vesselId now in
      (set_vessels newVessels
         (set_activeEffects
            (activeEffects state
               ++ newEffects now effectIdCounter vesselId (Reaction.effects reaction))
            (set_reactionNotification (Some notification) state)),
       (effectIdCounter + length (Reaction.effects reaction))%nat)
  end.

Definition toggleBunsenBurner (state : LabStore) : LabStore :=
  let newState := negb (bunsenBurnerOn state) in
  let newActions :=
    if newState && negb (includes (experimentActions state) "heat")
    then experimentActions state ++ ["heat"]
    else experimentActions state in
  set_bunsenBurnerOn newState (set_experimentActions newActions state).

Definition updateVesselTemperature (vesselId : string) (temperature : Q)
    (state : LabStore) : LabStore :=
  match vessels state !! vesselId with
  | None => state
  | Some vessel =>
      set_vessels
        (<[vesselId := LabVessel.with_temperature temperature vessel]> (vessels state))
        state
  end.

(* ===================================================================== *)
(** ** store/labStore.ts: guided experiments *)
(* ===================================================================== *)

Definition loadExperiment (experimentId : string) (state : LabStore) : LabStore :=
  match getExperimentById experimentId with
  | None => state
  | Some experiment =>
      set_experimentMode guided
        (set_showLab true
        (set_currentExperiment (Some experiment)
        (set_vessels ∅
        (set_selectedVesselId (Some "beaker_1")
        (set_placedApparatus []
        (set_addedChemicals []
        (set_experimentActions []
        (set_currentObservation (String.append "📋 " (Experiment.aim experiment))
        (set_currentExplanation ""
        (set_showExplanation false
        (set_experimentHeatLevel 0
        (set_experimentStirCount 0%Z state))))))))))))
  end.

Definition addApparatusToExperiment (apparatusId : string) (state : LabStore)
  : LabStore :=
  if includes (placedApparatus state) apparatusId then state
  else
    let newPlacedApparatus := placedApparatus state ++ [apparatusId] in
    set_placedApparatus newPlacedApparatus
      (set_currentObservation
         (String.append "Added "
            (String.append (replace_dashes apparatusId) " to the lab bench."))
         state).

Definition addChemicalToExperiment (chemicalId : string) (state : LabStore)
  : LabStore :=
  if includes (addedChemicals state) chemicalId then state
  else
    let newAddedChemicals := addedChemicals state ++ [chemicalId] in
    let chemical :=
      match currentExperiment state with
      | Some e =>
          List.find (fun c => String.eqb (ExperimentChemical.id c) chemicalId)
            (Experiment.chemicals e)
      | None => None
      end in
    let chemicalName :=
      match chemical with
      | Some c =>
          if String.eqb (ExperimentChemical.name c) ""
          then replace_dashes chemicalId else ExperimentChemical.name c
      | None => replace_dashes chemicalId
      end in
    set_addedChemicals newAddedChemicals
      (set_currentObservation
         (String.append "Added " (String.append chemicalName " to the apparatus."))
         state).

Definition current_experiment_is (id : string) (state : LabStore) : bool :=
  match currentExperiment state with
  | Some e => String.eqb (Experiment.id e) id
  | None => false
  end.

Definition collectionBeaker : LabVessel.t :=
  LabVessel.mk "collection_beaker" (Some "Collection Beaker") beaker 250 0 0 25 []
    (vec3 3.5 0 0).

(** [addVessel]; in the filtration experiment a placed beaker brings the
    collection beaker with it. *)
Definition addVessel (vessel : LabVessel.t) (state : LabStore) : LabStore :=
  let newVessels := <[LabVessel.id vessel := vessel]> (vessels state) in
  if current_experiment_is "filtration" state
     && VesselType_eqb (LabVessel.type vessel) beaker
  then
    let unnamed :=
      match LabVessel.name vessel with
      | None => true
      | Some n => String.eqb n ""
      end in
    let newVessels :=
      if unnamed
      then <[LabVessel.id vessel :=
               LabVessel.with_name (Some "Muddy Water Beaker") vessel]> newVessels
      else newVessels in
    let newVessels :=
      match newVessels !! "collection_beaker" with
      | Some _ => newVessels
      | None => <["collection_beaker" := collectionBeaker]> newVessels
      end in
    let newPlacedApparatus :=
      if includes (placedApparatus state) "beaker" then placedApparatus state
      else placedApparatus state ++ ["beaker"] in
    set_vessels newVessels (set_placedApparatus newPlacedApparatus state)
  else
    set_vessels newVessels (set_placedApparatus (placedApparatus state) state).

Definition performExperimentAction (action : string) (state : LabStore)
  : LabStore * list Timer :=
  if includes (experimentActions state) action then (state, [])
  else
    let newActions := experimentActions state ++ [action] in
    if String.eqb action "heat" then
      let newHeatLevel := Qmin 100 (experimentHeatLevel state + 30) in
      (set_experimentActions newActions
         (set_experimentHeatLevel newHeatLevel
         (set_experimentStirCount (experimentStirCount state)
         (set_isStirring (isStirring state) state))),
       if current_experiment_is "evaporation" state then [AutoEvaporate] else [])
    else if String.eqb action "stir" then
      let newStirCount := (experimentStirCount state + 1)%Z in
      (set_experimentActions newActions
         (set_experimentHeatLevel (experimentHeatLevel state)
         (set_experimentStirCount newStirCount
         (set_isStirring true state))),
       [StirFinished])
    else
      (set_experimentActions newActions
         (set_experimentHeatLevel (experimentHeatLevel state)
         (set_experimentStirCount (experimentStirCount state)
         (set_isStirring (isStirring state) state))),
       []).

(** The closure [generateKeys] of [checkExperimentReaction]. *)
Definition generateKeys (chemicals actions : list string) : list string :=
  let keys := [] in
  let keys :=
    if (0 <? length actions)%nat
    then keys ++ [ join "+" (chemicals ++ actions);
                   join "+" (sort chemicals ++ sort actions) ]
    else keys in
  let keys :=
    fold_left (fun keys action =>
      keys ++ [ join "+" (chemicals ++ [action]);
                join "+" (sort chemicals ++ [action]) ]) actions keys in
  let keys :=
    if (0 <? length chemicals)%nat
    then keys ++ [ join "+" chemicals; join "+" (sort chemicals) ]
    else keys in
  keys.

(** First loop: the generated keys, in order, against the table; an entry
    of the table is an object, hence truthy. *)
Fixpoint exactMatch (table : list (string * ExperimentReaction))
    (possibleKeys : list string) : option (string * ExperimentReaction) :=
  match possibleKeys with
  | [] => None
  | key :: tl =>
      match lookup_key key table with
      | Some r => Some (key, r)
      | None => exactMatch table tl
      end
  end.

Definition actionWords : list string := ["stir"; "heat"; "filter"; "evaporate"; "pour"].

(** Second loop: the defined keys, in order, against the current state. *)
Fixpoint supersetMatch (table : list (string * ExperimentReaction))
    (chemicals actions definedReactionKeys : list string)
  : option (string * ExperimentReaction) :=
  match definedReactionKeys with
  | [] => None
  | definedKey :: tl =>
      let parts := split_on "+" definedKey in
      let requiredChemicals := List.filter (fun p => negb (includes actionWords p)) parts in
      let requiredActions := List.filter (fun p => includes actionWords p) parts in
      let hasAllChemicals := forallb (fun c => includes chemicals c) requiredChemicals in
      let hasAllActions := forallb (fun a => includes actions a) requiredActions in
      if hasAllChemicals && hasAllActions
      then option_map (fun r => (definedKey, r)) (lookup_key definedKey table)
      else supersetMatch table chemicals actions tl
  end.

(** [matchedKey] and [matchedReaction] after both loops. *)
Definition matchReaction (experiment : Experiment.t) (chemicals actions : list string)
  : option (string * ExperimentReaction) :=
  let possibleKeys := generateKeys chemicals actions in
  let definedReactionKeys := object_keys (Experiment.reactions experiment) in
  match exactMatch (Experiment.reactions experiment) possibleKeys with
  | Some m => Some m
  | None =>
      supersetMatch (Experiment.reactions experiment) chemicals actions
        definedReactionKeys
  end.

(** The salt-dissolution branch of [checkExperimentReaction]. *)
Definition checkSaltDissolution (experiment : Experiment.t) (matchedKey : string)
    (matchedReaction : ExperimentReaction) (state : LabStore)
  : LabStore * list Timer :=
  let saltPhase :=
    str_includes matchedKey "salt" && str_includes matchedKey "stir"
    && negb (saltTested state) in
  let sandPhase :=
    negb saltPhase && str_includes matchedKey "sand" && str_includes matchedKey "stir"
    && negb (sandTested state) in
  let newSaltTested := if saltPhase then true else saltTested state in
  let newSandTested := if sandPhase then true else sandTested state in
  let showResetPrompt := saltPhase in
  let resetPromptMessage :=
    if saltPhase then "✅ Salt test complete! Click RESET to test with Sand."
    else "" in
  let experimentId := Experiment.id experiment in
  if newSaltTested && newSandTested
     && negb (includes (completedExperiments state) experimentId)
  then
    let newCompleted := completedExperiments state ++ [experimentId] in
    (set_currentObservation "🎉 Experiment Complete! You tested both salt and sand."
       (set_currentExplanation (Experiment.conclusion experiment)
       (set_showExplanation true
       (set_saltTested newSaltTested
       (set_sandTested newSandTested
       (set_showResetPrompt false
       (set_resetPromptMessage ""
       (set_completedExperiments newCompleted state))))))),
     [ShowCompletionPopup])
  else
    (set_currentObservation (observation matchedReaction)
       (set_currentExplanation (explanation matchedReaction)
       (set_showExplanation true
       (set_saltTested newSaltTested
       (set_sandTested newSandTested
       (set_showResetPrompt
          (if newSaltTested && newSandTested then false else showResetPrompt)
       (set_resetPromptMessage resetPromptMessage state)))))),
     []).

Definition has_chemical (id : string) (vessel : LabVessel.t) : bool :=
  existsb (same_chemical id) (LabVessel.contents vessel).

(** Ice melts: the vessel that holds ice holds water afterwards. *)
Definition meltIce (experiment : Experiment.t) (vessel : LabVessel.t) : LabVessel.t :=
  match List.find (same_chemical "ice") (LabVessel.contents vessel) with
  | None => vessel
  | Some iceContent =>
      let expWater :=
        List.find (fun c => String.eqb (ExperimentChemical.id c) "water")
          (Experiment.chemicals experiment) in
      let waterChem :=
        match expWater with
        | Some w =>
            Chemical.mk (ExperimentChemical.id w) (ExperimentChemical.name w) None
              (ExperimentChemical.color w) water None
        | None => Chemical.mk "water" "Water" None "#a8d4ff" water None
        end in
      let visualIceRatio := 0.4 in
      let waterVolume := volume iceContent * visualIceRatio in
      LabVessel.with_currentVolume waterVolume
        (LabVessel.with_contents [mkContents waterChem waterVolume] vessel)
  end.

(** Paper or magnesium held by the tongs burns to [ashChem]. *)
Definition burnInTongs (id : string) (ashChem : Chemical.t) (vessel : LabVessel.t)
  : LabVessel.t :=
  if VesselType_eqb (LabVessel.type vessel) tongs && has_chemical id vessel
  then LabVessel.with_contents [mkContents ashChem 1] vessel
  else vessel.

Definition paperAsh : Chemical.t :=
  Chemical.mk "ash" "Ash" None "#333" neutral None.
Definition magnesiumAsh : Chemical.t :=
  Chemical.mk "magnesium-oxide" "Magnesium Oxide" None "#fff" base None.

(** The physical-chemical branch of [checkExperimentReaction]. *)
Definition checkPhysicalChemical (experiment : Experiment.t) (matchedKey : string)
    (matchedReaction : ExperimentReaction) (state : LabStore)
  : LabStore * list Timer :=
  let shown (s : LabStore) :=
    set_currentObservation (observation matchedReaction)
      (set_currentExplanation (explanation matchedReaction)
      (set_showExplanation true s)) in
  if String.eqb matchedKey "ice+heat" then
    (set_vessels (meltIce experiment <$> vessels state)
       (shown
       (set_showResetPrompt true
       (set_resetPromptMessage "✅ Ice melted! Click RESET to test with Paper."
       (set_iceTested true state)))),
     [])
  else if String.eqb matchedKey "paper+heat" then
    (set_vessels (burnInTongs "paper" paperAsh <$> vessels state)
       (shown
       (set_showResetPrompt true
       (set_resetPromptMessage "✅ Paper burnt! Click RESET to test with Magnesium."
       (set_paperTested true
       (set_bunsenBurnerOn false state))))),
     [])
  else if String.eqb matchedKey "magnesium+heat" then
    let newVessels := burnInTongs "magnesium" magnesiumAsh <$> vessels state in
    if negb (includes (completedExperiments state) (Experiment.id experiment)) then
      let newCompleted := completedExperiments state ++ [Experiment.id experiment] in
      (set_vessels newVessels
         (shown
         (set_completedExperiments newCompleted
         (set_magnesiumTested true
         (set_bunsenBurnerOn false state)))),
       [ShowCompletionPopup])
    else
      (set_vessels newVessels
         (shown
         (set_magnesiumTested true
         (set_bunsenBurnerOn false state))),
       [])
  else
    (set_vessels (vessels state)
       (shown
       (set_showResetPrompt false
       (set_resetPromptMessage "" state))),
     []).

(** [a || b] on strings: the empty string is falsy. *)
Definition string_or (a b : string) : string :=
  if String.eqb a "" then b else a.

Definition checkExperimentReaction (state : LabStore) : LabStore * list Timer :=
  match currentExperiment state with
  | None => (state, [])
  | Some experiment =>
      let chemicals := addedChemicals state in
      let actions := experimentActions state in
      match matchReaction experiment chemicals actions with
      | None => (state, [])
      | Some (matchedKey, matchedReaction) =>
          if String.eqb (Experiment.id experiment) "salt-dissolution"
             && success matchedReaction
          then checkSaltDissolution experiment matchedKey matchedReaction state
          else if String.eqb (Experiment.id experiment) "physical-chemical"
          then checkPhysicalChemical experiment matchedKey matchedReaction state
          else if success matchedReaction
                  && negb (includes (completedExperiments state)
                             (Experiment.id experiment))
          then
            let experimentId := Experiment.id experiment in
            let newCompleted := completedExperiments state ++ [experimentId] in
            (set_currentObservation
               (string_or (observation matchedReaction) "Experiment Complete!")
               (set_currentExplanation
                  (string_or (explanation matchedReaction)
                     (Experiment.conclusion experiment))
               (set_showExplanation true
               (set_completedExperiments newCompleted state))),
             [ShowCompletionPopup])
          else
            (set_currentObservation (observation matchedReaction)
               (set_currentExplanation (explanation matchedReaction)
               (set_showExplanation
                  (success matchedReaction
                   || negb (String.eqb (explanation matchedReaction) ""))
                  state)),
             [])
      end
  end.

Definition saltPreviousSteps : list string :=
  [ "Add water to the beaker"; "Add salt to the water"; "Stir the mixture";
    "Observe: Salt disappears" ].

(** [resetExperiment].  The keys [experimentRunning] and [timer] that the
    updater also writes are not fields of the store and are left out. *)
Definition resetExperiment (state : LabStore) : LabStore :=
  match currentExperiment state with
  | None => state
  | Some experiment =>
      let aimLine := String.append "📋 " (Experiment.aim experiment) in
      let isSalt := String.eqb (Experiment.id experiment) "salt-dissolution" in
      let saltOnly := isSalt && saltTested state && negb (sandTested state) in
      let saltBoth := isSalt && negb saltOnly && saltTested state && sandTested state in
      let newResetAfterSaltTest :=
        if saltOnly then true
        else if saltBoth then false
        else resetAfterSaltTest state in
      let previousSteps := if saltOnly then saltPreviousSteps else [] in
      let observation :=
        if saltOnly
        then "👉 Now test with SAND. Add water, then add sand, and stir."
        else aimLine in
      let isPhysical := String.eqb (Experiment.id experiment) "physical-chemical" in
      let afterIce := isPhysical && iceTested state && negb (paperTested state) in
      let afterPaper :=
        isPhysical && negb afterIce && iceTested state && paperTested state
        && negb (magnesiumTested state) in
      let afterAll :=
        isPhysical && negb afterIce && negb afterPaper && iceTested state
        && paperTested state && magnesiumTested state in
      let observation :=
        if afterIce then
          "👉 Round 2: Now test with PAPER. Place burner and tongs, then add paper strip and heat."
        else if afterPaper then
          "👉 Round 3: Now test with MAGNESIUM. Place burner and tongs, then add magnesium ribbon and heat."
        else if afterAll then aimLine
        else observation in
      let newIceTested := if afterAll then false else iceTested state in
      let newPaperTested := if afterAll then false else paperTested state in
      let newMagnesiumTested := if afterAll then false else magnesiumTested state in
      let bothTested := saltTested state && sandTested state in
      set_currentExperiment
        (Some (Experiment.with_procedureSteps
                 (if (0 <? length previousSteps)%nat then Some previousSteps
                  else Experiment.procedureSteps experiment)
                 experiment))
        (set_vessels ∅
        (set_placedApparatus []
        (set_addedChemicals []
        (set_experimentActions []
        (set_currentObservation observation
        (set_currentExplanation ""
        (set_showExplanation false
        (set_experimentHeatLevel 0
        (set_experimentStirCount 0%Z
        (set_isStirring false
        (set_resetAfterSaltTest newResetAfterSaltTest
        (set_saltTested (if bothTested then false else saltTested state)
        (set_sandTested (if bothTested then false else sandTested state)
        (set_iceTested newIceTested
        (set_paperTested newPaperTested
        (set_magnesiumTested newMagnesiumTested
        (set_showResetPrompt false
        (set_resetPromptMessage ""
        (set_showCompletionPopup false
        (set_dishCracked false
        (set_safetyWarning None
        (set_bunsenBurnerOn false state))))))))))))))))))))))
  end.

Definition markExperimentComplete (experimentId : string) (state : LabStore)
  : LabStore :=
  if includes (completedExperiments state) experimentId then state
  else set_completedExperiments (completedExperiments state ++ [experimentId]) state.

(* ===================================================================== *)
(** ** store/labStore.ts: neutralization *)
(* ===================================================================== *)

Definition startNeutralizationAnimation (state : LabStore) : LabStore :=
  set_neutralizationAnimating true
    (set_neutralizationDropCount 0%Z
    (set_showResetPrompt false state)).

Definition completeNeutralization (state : LabStore) : LabStore * list Timer :=
  checkExperimentReaction
    (set_neutralizationAnimating false
    (set_neutralizationComplete true
    (set_addedChemicals
       (List.filter (fun c => negb (String.eqb c "hcl")) (addedChemicals state)
          ++ ["hcl"])
       state))).

Definition incrementNeutralizationDrops (state : LabStore) : LabStore * list Timer :=
  let newCount := (neutralizationDropCount state + 1)%Z in
  let state' := set_neutralizationDropCount newCount state in
  if (5 <=? newCount)%Z then completeNeutralization state' else (state', []).

Definition resetNeutralizationState (state : LabStore) : LabStore :=
  set_neutralizationAnimating false
    (set_neutralizationDropCount 0%Z
    (set_neutralizationComplete false state)).

(* ===================================================================== *)
(** ** Timers *)
(* ===================================================================== *)

(** The callback of the stir timer. *)
Definition stirFinished (state : LabStore) : LabStore * list Timer :=
  checkExperimentReaction (set_isStirring false state).


(* ===================================================================== *)
(** ** components/Beaker.tsx: the colour of the liquid *)
(* ===================================================================== *)

Module Beaker.

(** The value of the [liquidColor] memo: a colour string of the source, or
    [Lerp base target alpha], which stands for the string
    ['#' + new Color(base).clone().lerp(new Color(target), alpha).getHexString()]
    that the three.js library returns.  The library is not part of the
    repository: its result is kept as it is called and never evaluated. *)
Inductive ColorValue :=
  | Hex (s : string)
  | Lerp (baseColor targetColor : string) (alpha : Q).

Definition lower_ascii (c : ascii) : ascii :=
  let n := nat_of_ascii c in
  if ((65 <=? n) && (n <=? 90))%nat then ascii_of_nat (n + 32) else c.

Fixpoint toLowerCase (s : string) : string :=
  match s with
  | EmptyString => EmptyString
  | String c tl => String (lower_ascii c) (toLowerCase tl)
  end.

Definition originalIceVolume (contents : list VesselContents) : Q :=
  fold_left (fun acc curr =>
    if same_chemical "ice" curr then acc + volume curr else acc) contents 0.

(** The abrupt transition: a slight fade for the first drops, the full
    shift from the fifth on. *)
Definition displayProgress (neutralizationDropCount : Z) : Q :=
  if (5 <=? neutralizationDropCount)%Z then 1
  else inject_Z neutralizationDropCount * 0.08.

(** [contents.reduce((prev, curr) => curr.volume > prev.volume ? curr : prev)]. *)
Definition primaryContent (first : VesselContents) (rest : list VesselContents)
  : VesselContents :=
  fold_left (fun prev curr => if Qgtb (volume curr) (volume prev) then curr else prev)
    rest first.

Definition hasSaltContent (contents : list VesselContents) : bool :=
  existsb (fun c =>
    (str_includes (toLowerCase (Chemical.name (chemical c))) "salt"
     || String.eqb (Chemical.id (chemical c)) "salt")
    && negb (str_includes (toLowerCase (Chemical.name (chemical c))) "solution"))
    contents.

(** The [liquidColor] memo of the beaker [vesselId]; [iceMeltProgress] is
    the melt progress kept by the component. *)
Definition liquidColor (vesselId : string) (iceMeltProgress : Q) (state : LabStore)
  : ColorValue :=
  let contents :=
    match vessels state !! vesselId with
    | Some v => LabVessel.contents v
    | None => []
    end in
  if Qgtb (originalIceVolume contents) 0 && Qgtb iceMeltProgress 0 then Hex "#a8e4ff"
  else
    match contents with
    | [] => Hex "#4fc3f7"
    | first :: rest =>
        let generic :=
          let isDissolved :=
            includes (experimentActions state) "stir" && negb (isStirring state)
            && hasSaltContent contents in
          if isDissolved then Hex "#e0f0ff"
          else Hex (Chemical.color (chemical (primaryContent first rest))) in
        if current_experiment_is "neutralization" state then
          if neutralizationComplete state then Hex "#f5f5f5"
          else
            let hasNaOH := existsb (same_chemical "naoh") contents in
            let hasPhenol := existsb (same_chemical "phenolphthalein") contents in
            if hasNaOH && hasPhenol
            then Lerp "#ff69b4" "#f5f5f5"
                   (displayProgress (neutralizationDropCount state))
            else generic
        else generic
    end.

End Beaker.

(* ===================================================================== *)
(** ** The scene component: the heating loop ([HeatingSystem]) *)
(* ===================================================================== *)

(** [Math.sqrt] has no rational model, so this component reads the numbers
    of a vessel as real numbers.  The boiling effect of the same loop is an
    effect for the rendering and is left out. *)
Module HeatingSystem.
Local Open Scope R_scope.

Definition heatingZone : R * R * R := (0, 0, 2).
Definition heatingDistance : R := 7 / 10.

(** Distance of a vessel from the heating zone, in the bench plane. *)
Definition distance (position : R * R * R) : R :=
  let '(x, _, z) := position in
  let '(zx, _, zz) := heatingZone in
  let dx := x - zx in
  let dz := z - zz in
  sqrt (dx * dx + dz * dz).

Definition heatingRate (d : R) : R := 15 * (1 - d / heatingDistance).

(** One frame for one vessel: the temperature the callback sends to
    [updateVesselTemperature], or [None] when it sends nothing.  [delta] is
    the frame time in seconds. *)
Definition useFrame (bunsenBurnerOn : bool) (delta : R) (position : R * R * R)
    (temperature : R) : option R :=
  if negb bunsenBurnerOn then
    if Rlt_dec 25 temperature
    then Some (Rmax 25 (temperature - delta * 5))
    else None
  else
    if Rlt_dec (distance position) heatingDistance
    then Some (Rmin 120 (temperature + delta * heatingRate (distance position)))
    else
      if Rlt_dec 25 temperature
      then Some (Rmax 25 (temperature - delta * 3))
      else None.

(** The temperature of the vessel after the frame. *)
Definition temperatureAfter (bunsenBurnerOn : bool) (delta : R)
    (position : R * R * R) (temperature : R) : R :=
  match useFrame bunsenBurnerOn delta position temperature with
  | Some newTemp => newTemp
  | None => temperature
  end.

(** The position and the temperature of a vessel of the store, as reals. *)
Definition realPosition (v : LabVessel.t) : R * R * R :=
  let '(x, y, z) := LabVessel.position v in (Q2R x, Q2R y, Q2R z).

Definition realTemperature (v : LabVessel.t) : R := Q2R (LabVessel.temperature v).

(** One frame of the loop [vessels.forEach]: the temperature of every vessel
    of the store after it. *)
Definition tick (delta : R) (state : LabStore) : gmap string R :=
  (fun v => temperatureAfter (bunsenBurnerOn state) delta (realPosition v)
              (realTemperature v)) <$> vessels state.

End HeatingSystem.

(* ===================================================================== *)
(** ** Benches and measures used by the statements *)
(* ===================================================================== *)

Abbreviation cv := LabVessel.currentVolume.

Definition muddyWater : Chemical.t :=
  Chemical.mk "muddy-water" "Muddy Water" None "#8b7355" neutral None.

Definition filtrationBench : LabStore :=
  fst (fillVessel "beaker_1" muddyWater 112.5
         (addVessel (emptyVessel "beaker_1" beaker 250 (vec3 0 0 1))
            (loadExperiment "filtration" (initialStore [])))).

Definition two_vessel_sum (sourceId targetId : string) (state : LabStore) : option Q :=
  match vessels state !! sourceId, vessels state !! targetId with
  | Some src, Some tgt => Some (LabVessel.currentVolume src + LabVessel.currentVolume tgt)
  | _, _ => None
  end.

(** Total volume that a content list holds of the chemical [id]. *)
Definition amountOf (id : string) (contents : list VesselContents) : Q :=
  fold_right (fun c acc => (if same_chemical id c then volume c else 0) + acc) 0 contents.

(** The chemical ids of a content list, in order. *)
Definition chemicalIds (contents : list VesselContents) : list string :=
  List.map (fun c => Chemical.id (chemical c)) contents.

(** A sandbox bench: 100 of water in the first beaker. *)
Definition waterBench : LabStore :=
  fst (fillVessel "beaker_1" CHEMICALS.water 100 (initialStore [])).

(** A sandbox bench: 30 of water in the first beaker. *)
Definition thirtyBench : LabStore :=
  fst (fillVessel "beaker_1" CHEMICALS.water 30 (initialStore [])).

(** What stays of an entry, and what leaves it, at a transfer ratio. *)
Definition residual (ratio : Q) (c : VesselContents) : Q := volume c - volume c * ratio.
Definition subAmount (ratio : Q) (c : VesselContents) : Q := volume c * ratio.

(** The ranking of the signature keys in the words of the specification:
    all chemicals with all actions, then the chemicals with each single
    action, then the chemicals alone; each time in as-added order first and
    in sorted order second. *)
Definition allActionsKeys (chemicals actions : list string) : list string :=
  match actions with
  | [] => []
  | _ :: _ => [ join "+" (chemicals ++ actions);
                join "+" (sort chemicals ++ sort actions) ]
  end.

Definition singleActionKeys (chemicals : list string) (action : string) : list string :=
  [ join "+" (chemicals ++ [action]); join "+" (sort chemicals ++ [action]) ].

Definition chemicalsOnlyKeys (chemicals : list string) : list string :=
  match chemicals with
  | [] => []
  | _ :: _ => [ join "+" chemicals; join "+" (sort chemicals) ]
  end.

Definition rankedKeys (chemicals actions : list string) : list string :=
  allActionsKeys chemicals actions
  ++ flat_map (singleActionKeys chemicals) actions
  ++ chemicalsOnlyKeys chemicals.

(** One round of the salt-dissolution experiment as the learner plays it:
    beaker, water, the substance, glass rod, stir, and the stir timer runs
    out. *)
Definition testSubstance (substance : string) (state : LabStore)
  : LabStore * list Timer :=
  let s1 := addApparatusToExperiment "beaker" state in
  let s2 := addChemicalToExperiment "water" s1 in
  let s3 := addChemicalToExperiment substance s2 in
  let s4 := addApparatusToExperiment "glass-rod" s3 in
  let s5 := fst (performExperimentAction "stir" s4) in
  stirFinished s5.

(** What one attempt has gathered, and what survives from phase to phase. *)
Definition attempt (s : LabStore) : list string * list string * list string :=
  (placedApparatus s, addedChemicals s, experimentActions s).

Definition phaseContext (s : LabStore)
  : option Experiment.t * bool * bool * bool * list string :=
  (currentExperiment s, saltTested s, sandTested s, resetAfterSaltTest s,
   completedExperiments s).

(** The chemicals of the neutralization experiment as the shelf builds
    them. *)
Definition naohSolution : Chemical.t :=
  Chemical.mk "naoh" "NaOH Solution" None "#e0e0ff" base None.
Definition phenolphthaleinDrops : Chemical.t :=
  Chemical.mk "phenolphthalein" "Phenolphthalein" None "#ffb6c1" indicator None.

(** A neutralization bench: both reactants in the beaker, four drops of acid
    fallen.  The timers of the two fills are dropped, so the rule that the
    second fill schedules has not been applied; [titrationBench] below is the
    run with the timers. *)
Definition fourDropsBench : LabStore :=
  let s := loadExperiment "neutralization" (initialStore []) in
  let s := addVessel (emptyVessel "beaker_1" beaker 250 (vec3 0 0 1)) s in
  let s := addChemicalToExperiment "naoh" (fst (fillVessel "beaker_1" naohSolution 100 s)) in
  let s :=
    addChemicalToExperiment "phenolphthalein"
      (fst (fillVessel "beaker_1" phenolphthaleinDrops 100 s)) in
  let s := startNeutralizationAnimation s in
  let s := fst (incrementNeutralizationDrops s) in
  let s := fst (incrementNeutralizationDrops s) in
  let s := fst (incrementNeutralizationDrops s) in
  fst (incrementNeutralizationDrops s).

(** A sandbox bench on which an acid meets a base in the first beaker. *)
Definition acidBaseBench : LabStore :=
  fst (fillVessel "beaker_1" CHEMICALS.sodium_hydroxide 100
         (fst (fillVessel "beaker_1" CHEMICALS.hydrochloric_acid 100 (initialStore [])))).

(** A table with both keys of the scenario. *)
Definition rankingExperiment : Experiment.t :=
  Experiment.mk "ranking" "" "" 8 "" [] []
    [ ("naoh+phenolphthalein", mkExperimentReaction "loose" "" false);
      ("naoh+phenolphthalein+heat", mkExperimentReaction "specific" "" true) ]
    "" None.

(** A bench with the burner lit under a beaker that stands on the tripod. *)
Definition heatedBench : LabStore :=
  toggleBunsenBurner
    (addVessel (emptyVessel "beaker_1" beaker 250 (vec3 0 1 2))
       (loadExperiment "physical-chemical" (initialStore []))).

(** The experiment of the store is the salt-dissolution experiment, whatever
    its procedure steps have become. *)
Definition isSaltDissolution (e : Experiment.t) : Prop :=
  Experiment.id e = "salt-dissolution" /\
  Experiment.reactions e = Experiment.reactions exp_salt_dissolution.

(** Projections of a chain of field setters. *)
Ltac store_fields :=
  cbn [fst snd
       vessels selectedVesselId isPouringActive pouringSourceId pouringTargetId
       pendingFiltrationVolume isAutoPouring activeEffects reactionNotification
       safetyWarning bunsenBurnerOn heatingVesselId experimentMode showLab
       currentExperiment placedApparatus addedChemicals experimentActions
       currentObservation currentExplanation showExplanation experimentHeatLevel
       experimentStirCount isStirring completedExperiments saltTested sandTested
       resetAfterSaltTest showResetPrompt resetPromptMessage showCompletionPopup
       dishCracked iceTested paperTested magnesiumTested neutralizationAnimating
       neutralizationDropCount neutralizationComplete set_vessels set_selectedVesselId
       set_pendingFiltrationVolume set_activeEffects set_reactionNotification
       set_safetyWarning set_bunsenBurnerOn set_experimentMode set_showLab
       set_currentExperiment set_placedApparatus set_addedChemicals
       set_experimentActions set_currentObservation set_currentExplanation
       set_showExplanation set_experimentHeatLevel set_experimentStirCount
       set_isStirring set_completedExperiments set_saltTested set_sandTested
       set_resetAfterSaltTest set_showResetPrompt set_resetPromptMessage
       set_showCompletionPopup set_dishCracked set_iceTested set_paperTested
       set_magnesiumTested set_neutralizationAnimating set_neutralizationDropCount
       set_neutralizationComplete].

Ltac store_fields_in H :=
  cbn [fst snd
       vessels selectedVesselId isPouringActive pouringSourceId pouringTargetId
       pendingFiltrationVolume isAutoPouring activeEffects reactionNotification
       safetyWarning bunsenBurnerOn heatingVesselId experimentMode showLab
       currentExperiment placedApparatus addedChemicals experimentActions
       currentObservation currentExplanation showExplanation experimentHeatLevel
       experimentStirCount isStirring completedExperiments saltTested sandTested
       resetAfterSaltTest showResetPrompt resetPromptMessage showCompletionPopup
       dishCracked iceTested paperTested magnesiumTested neutralizationAnimating
       neutralizationDropCount neutralizationComplete set_vessels set_selectedVesselId
       set_pendingFiltrationVolume set_activeEffects set_reactionNotification
       set_safetyWarning set_bunsenBurnerOn set_experimentMode set_showLab
       set_currentExperiment set_placedApparatus set_addedChemicals
       set_experimentActions set_currentObservation set_currentExplanation
       set_showExplanation set_experimentHeatLevel set_experimentStirCount
       set_isStirring set_completedExperiments set_saltTested set_sandTested
       set_resetAfterSaltTest set_showResetPrompt set_resetPromptMessage
       set_showCompletionPopup set_dishCracked set_iceTested set_paperTested
       set_magnesiumTested set_neutralizationAnimating set_neutralizationDropCount
       set_neutralizationComplete] in H.

(* ===================================================================== *)
(** ** store/labStore.ts: the remaining actions *)
(* ===================================================================== *)

(** [addEffect]; [now] is [Date.now()], the second component is the module
    counter after the call. *)
Definition addEffect (now : Z) (effectIdCounter : nat) (type : ReactionEffect)
    (vesselId : string) (duration : Z) (state : LabStore) : LabStore * nat :=
  (set_activeEffects
     (activeEffects state
        ++ [ActiveEffect.mk ("effect_" ++ nat_to_string (S effectIdCounter))%string
              type vesselId now duration])
     state,
   S effectIdCounter).

Definition removeEffect (effectId : string) (state : LabStore) : LabStore :=
  set_activeEffects
    (List.filter (fun e => negb (String.eqb (ActiveEffect.id e) effectId))
       (activeEffects state))
    state.

Definition clearExpiredEffects (now : Z) (state : LabStore) : LabStore :=
  set_activeEffects
    (List.filter (fun e => (now - ActiveEffect.startTime e <? ActiveEffect.duration e)%Z)
       (activeEffects state))
    state.

Definition goToHomeScreen (state : LabStore) : LabStore :=
  set_experimentMode sandbox
    (set_showLab false
    (set_currentExperiment None
    (set_placedApparatus []
    (set_addedChemicals []
    (set_experimentActions []
    (set_currentObservation
       "Welcome to the Virtual Chemistry Lab! Select an experiment to begin."
    (set_currentExplanation ""
    (set_showExplanation false
    (set_experimentHeatLevel 0
    (set_experimentStirCount 0%Z state)))))))))).

(* ===================================================================== *)
(** ** core/experiments.ts: the other queries *)
(* ===================================================================== *)

(** [experimentsData[classLevel] || []]. *)
Definition getExperimentsByClass (classLevel : Z) : list Experiment.t :=
  match List.find (fun entry => Z.eqb (fst entry) classLevel) experimentsData with
  | Some entry => snd entry
  | None => []
  end.

(** [Object.values(experimentsData).flat()]. *)
Definition getAllExperiments : list Experiment.t :=
  List.concat (List.map snd experimentsData).

Definition getTotalExperimentCount : nat := length getAllExperiments.

(* ===================================================================== *)
(** ** components/ChemicalShelf.tsx: which chemical can be added *)
(* ===================================================================== *)

Module ChemicalShelf.

Definition isGuidedMode (state : LabStore) : bool :=
  match experimentMode state, currentExperiment state with
  | guided, Some _ => true
  | _, _ => false
  end.

Definition isChemicalDisabledForPhysicalChemical (chemId : string) (state : LabStore)
  : bool :=
  if negb (isGuidedMode state) || negb (current_experiment_is "physical-chemical" state)
  then false
  else
    let hasBeaker := includes (placedApparatus state) "beaker" in
    let hasTongs := includes (placedApparatus state) "tongs" in
    let hasIceInSession := includes (addedChemicals state) "ice" in
    let hasPaperInSession := includes (addedChemicals state) "paper" in
    let hasMagnesiumInSession := includes (addedChemicals state) "magnesium" in
    if String.eqb chemId "ice" then
      if iceTested state then true
      else if negb hasBeaker then true
      else if hasIceInSession then true
      else false
    else if String.eqb chemId "paper" then
      if negb (iceTested state) then true
      else if paperTested state then true
      else if hasIceInSession then true
      else if negb hasTongs then true
      else if hasPaperInSession then true
      else false
    else if String.eqb chemId "magnesium" then
      if negb (iceTested state) || negb (paperTested state) then true
      else if magnesiumTested state then true
      else if hasPaperInSession then true
      else if negb hasTongs then true
      else if hasMagnesiumInSession then true
      else false
    else false.

Definition isChemicalDisabledForNeutralization (chemId : string) (state : LabStore)
  : bool :=
  if negb (isGuidedMode state) || negb (current_experiment_is "neutralization" state)
  then false
  else if neutralizationAnimating state || neutralizationComplete state then true
  else
    let hasNaOH := includes (addedChemicals state) "naoh" in
    let hasPhenol := includes (addedChemicals state) "phenolphthalein" in
    if String.eqb chemId "phenolphthalein" && negb hasNaOH then true
    else
      let hasDropper := includes (placedApparatus state) "dropper" in
      if String.eqb chemId "hcl" && (negb hasPhenol || negb hasDropper) then true
      else false.




End ChemicalShelf.

(* ===================================================================== *)
(** ** The filter funnel and the neutralization dropper: frame callbacks *)
(* ===================================================================== *)

(** The sum of [currentVolume] over the beakers other than the collection
    beaker.  The loop adds in the order of the map; the sum is the same in
    any order. *)
Definition totalSourceVolume (state : LabStore) : Q :=
  map_fold (fun _ b acc =>
      if VesselType_eqb (LabVessel.type b) beaker
         && negb (String.eqb (LabVessel.id b) "collection_beaker")
      then acc + LabVessel.currentVolume b else acc)
    0 (vessels state).

(** One frame of the filter funnel, as far as the store is concerned.  The
    boolean is the component's [wasFilteringRef], before and after. *)
Definition filterFrame (delta : Q) (wasFiltering : bool) (state : LabStore)
  : bool * (LabStore * list Timer) :=
  let pendingVolume := pendingFiltrationVolume state in
  if Qgtb pendingVolume 0.1 then
    let effectiveRate := if isPouringActive state then 12 else 20 in
    let transferAmount := effectiveRate * delta in
    (true, (addFiltrate transferAmount state, []))
  else if wasFiltering then
    if Qgtb 5 (totalSourceVolume state) then
      let '(s1, t1) := performExperimentAction "filter" state in
      let '(s2, t2) := checkExperimentReaction s1 in
      (false, (s2, t1 ++ t2))
    else (false, (state, []))
  else (false, (state, [])).

(** The impact of a drop in the frame callback of the neutralization
    dropper: nothing happens unless the animation runs and fewer than
    [TOTAL_DROPS] drops have fallen. *)
Definition TOTAL_DROPS : Z := 5.

Definition dropImpact (state : LabStore) : LabStore * list Timer :=
  if negb (neutralizationAnimating state)
     || (TOTAL_DROPS <=? neutralizationDropCount state)%Z
  then (state, [])
  else incrementNeutralizationDrops state.

(* ===================================================================== *)
(** ** Measures for the statements about vessels *)
(* ===================================================================== *)

(** The sum of the volumes of a content list. *)
Definition totalVolume (contents : list VesselContents) : Q :=
  fold_right (fun c acc => volume c + acc) 0 contents.

(** No vessel of the store holds more than its capacity or less than
    nothing. *)
Definition withinCapacity (state : LabStore) : Prop :=
  forall id v, vessels state !! id = Some v ->
    0 <= LabVessel.currentVolume v /\ LabVessel.currentVolume v <= LabVessel.capacity v.

(** The frames of the heating loop for one vessel that stays in place: each
    frame has its frame time and the state of the burner during it. *)
Fixpoint frames (steps : list (bool * R)) (position : R * R * R) (temperature : R)
  : R :=
  match steps with
  | [] => temperature
  | (bunsenBurnerOn, delta) :: tl =>
      frames tl position
        (HeatingSystem.temperatureAfter bunsenBurnerOn delta position temperature)
  end.

(** The time that a list of frames takes. *)
Definition elapsed (deltas : list R) : R := fold_right Rplus 0%R deltas.

(* ===================================================================== *)
(** ** Runs and measures for the further statements *)
(* ===================================================================== *)

(** The sum of a list of frame times. *)
Definition sumQ (l : list Q) : Q := fold_right Qplus 0 l.

(** The frames of the filter funnel, one after the other, for the given
    frame times; the timers are dropped. *)
Fixpoint filterFrames (deltas : list Q) (wasFiltering : bool) (state : LabStore)
  : bool * LabStore :=
  match deltas with
  | [] => (wasFiltering, state)
  | delta :: tl =>
      let '(w, (s, _)) := filterFrame delta wasFiltering state in
      filterFrames tl w s
  end.

(** What [addFiltrate] moves: [min(volume, pending)] when both the buffer
    and that minimum are positive, nothing otherwise. *)
Definition filtrateMoved (requested pending : Q) : Q :=
  Qmax 0 (Qmin requested pending).

(** The map of [addFiltrate] over the contents. *)
Definition addToWater (finalVolume : Q) (c : VesselContents) : VesselContents :=
  if same_chemical "water" c then add_volume finalVolume c else c.

(** The test of the second loop of [checkExperimentReaction] for one
    defined key. *)
Definition keyCovered (chemicals actions : list string) (definedKey : string) : bool :=
  let parts := split_on "+" definedKey in
  let requiredChemicals := List.filter (fun p => negb (includes actionWords p)) parts in
  let requiredActions := List.filter (fun p => includes actionWords p) parts in
  let hasAllChemicals := forallb (fun c => includes chemicals c) requiredChemicals in
  let hasAllActions := forallb (fun a => includes actions a) requiredActions in
  hasAllChemicals && hasAllActions.

(** [n] impacts of a drop, one after the other; the timers are dropped. *)
Fixpoint impacts (n : nat) (state : LabStore) : LabStore :=
  match n with
  | O => state
  | S k => impacts k (fst (dropImpact state))
  end.

(** The callback that the china dish runs once the solution has fully
    evaporated, followed by the reaction check it schedules. *)
Definition dishEvaporated (state : LabStore) : LabStore * list Timer :=
  let '(s1, t1) := performExperimentAction "heat" state in
  let '(s2, t2) := performExperimentAction "evaporate" s1 in
  let s3 := if bunsenBurnerOn s2 then toggleBunsenBurner s2 else s2 in
  let '(s4, t4) := checkExperimentReaction s3 in
  (s4, t1 ++ t2 ++ t4).

(** The ids of the active effects are distinct, and each is the id made
    from a value of the module counter up to [effectIdCounter]. *)
Definition effectIdsBelow (effectIdCounter : nat) (state : LabStore) : Prop :=
  List.NoDup (List.map ActiveEffect.id (activeEffects state)) /\
  forall e, In e (activeEffects state) ->
    exists k, (1 <= k <= effectIdCounter)%nat /\
              ActiveEffect.id e = ("effect_" ++ nat_to_string k)%string.

(** No entry of a content list has a negative volume, and the entries sum
    to at most [currentVolume]. *)
Definition contentsWithin (vessel : LabVessel.t) : Prop :=
  Forall (fun c => 0 <= volume c) (LabVessel.contents vessel) /\
  totalVolume (LabVessel.contents vessel) <= LabVessel.currentVolume vessel.

(* ===================================================================== *)
(** ** components/ChemicalShelf.tsx: adding a chemical in guided mode *)
(* ===================================================================== *)











(* ===================================================================== *)
(** ** Worked inputs *)
(* ===================================================================== *)

Example split_signature :
  split_on "+" "water+salt+stir" = ["water"; "salt"; "stir"].
Proof. reflexivity. Qed.

Example sort_chemicals :
  sort ["phenolphthalein"; "naoh"; "hcl"] = ["hcl"; "naoh"; "phenolphthalein"].
Proof. reflexivity. Qed.

Example keys_of_two_chemicals_one_action :
  generateKeys ["salt"; "water"] ["stir"]
  = [ "salt+water+stir"; "salt+water+stir"; "salt+water+stir"; "salt+water+stir";
      "salt+water"; "salt+water" ].
Proof. reflexivity. Qed.

(** No generated key is defined here; the superset pass finds the first
    defined key whose parts are all present. *)
Example superset_pass_on_other_order :
  option_map fst (matchReaction exp_salt_dissolution ["salt"; "water"] ["stir"])
  = Some "water+salt+stir".
Proof. reflexivity. Qed.

(** Filling 1000 into an empty vessel of capacity 500 gives one entry of
    500. *)
Example fill_is_clamped :
  option_map (fun v => (cv v, LabVessel.contents v))
    (vessels (fst (fillVessel "beaker_1" CHEMICALS.water 1000 (initialStore [])))
       !! "beaker_1")
  = Some (500, [mkContents CHEMICALS.water 500]).
Proof. vm_compute. reflexivity. Qed.

(** An acid poured onto a base leaves the timer that applies the
    neutralization rule. *)
Example fill_schedules_reaction :
  List.map timer_delay
    (snd (fillVessel "beaker_1" CHEMICALS.sodium_hydroxide 100
            (fst (fillVessel "beaker_1" CHEMICALS.hydrochloric_acid 100
                    (initialStore [])))))
  = [100%Z].
Proof. vm_compute. reflexivity. Qed.

(* ===================================================================== *)
(** ** Facts about numbers and comparisons *)
(* ===================================================================== *)

Lemma Qleb_true (a b : Q) : Qleb a b = true <-> a <= b.
Proof. unfold Qleb. apply Qle_bool_iff. Qed.

Lemma Qleb_false (a b : Q) : Qleb a b = false <-> b < a.
Proof.
  unfold Qleb. split; intros H.
  - apply Qnot_le_lt. intros Hle. apply Qle_bool_iff in Hle. congruence.
  - destruct (Qle_bool a b) eqn:E; [|reflexivity].
    apply Qle_bool_iff in E. Lqa.lra.
Qed.

Lemma Qgtb_true (a b : Q) : Qgtb a b = true <-> b < a.
Proof.
  unfold Qgtb. rewrite negb_true_iff. apply Qleb_false.
Qed.

Lemma Qgtb_false (a b : Q) : Qgtb a b = false <-> a <= b.
Proof.
  unfold Qgtb. rewrite negb_false_iff. apply Qleb_true.
Qed.

Lemma min3_le_1 (a b c : Q) : min3 a b c <= a.
Proof. unfold min3. apply Qle_trans with (Qmin a b); apply Q.le_min_l. Qed.

Lemma min3_le_2 (a b c : Q) : min3 a b c <= b.
Proof.
  unfold min3. apply Qle_trans with (Qmin a b); [apply Q.le_min_l | apply Q.le_min_r].
Qed.

Lemma min3_le_3 (a b c : Q) : min3 a b c <= c.
Proof. unfold min3. apply Q.le_min_r. Qed.

Lemma min3_glb (a b c m : Q) : m <= a -> m <= b -> m <= c -> m <= min3 a b c.
Proof. intros. unfold min3. repeat apply Q.min_glb; assumption. Qed.

(* ===================================================================== *)
(** ** What a transfer writes *)
(* ===================================================================== *)


(** A call to [transferLiquid] either leaves the store as it is, or moves
    the positive amount [actualTransfer]. *)
Inductive transfer_outcome (sourceId targetId : string) (volume : Q)
    (state : LabStore) (src tgt : LabVessel.t) : Prop :=
  | transfer_none :
      (cv src <= 0 \/ actualTransfer volume src tgt <= 0) ->
      transferLiquid sourceId targetId volume state = (state, []) ->
      transfer_outcome sourceId targetId volume state src tgt
  | transfer_some :
      0 < cv src -> 0 < actualTransfer volume src tgt ->
      Qleb (cv src) 0 = false -> Qleb (actualTransfer volume src tgt) 0 = false ->
      transfer_outcome sourceId targetId volume state src tgt.

Lemma transferLiquid_outcome sourceId targetId volume state src tgt :
  vessels state !! sourceId = Some src ->
  vessels state !! targetId = Some tgt ->
  transfer_outcome sourceId targetId volume state src tgt.
Proof.
  intros HS HT.
  destruct (Qleb (cv src) 0) eqn:E1.
  - apply transfer_none.
    + left. now apply Qleb_true.
    + unfold transferLiquid. rewrite HS, HT, E1. reflexivity.
  - destruct (Qleb (actualTransfer volume src tgt) 0) eqn:E2.
    + apply transfer_none.
      * right. now apply Qleb_true.
      * unfold transferLiquid. rewrite HS, HT, E1, E2. reflexivity.
    + apply transfer_some; try assumption; now apply Qleb_false.
Qed.

(** The store after a transfer that moves something into an ordinary
    vessel. *)
Lemma transferLiquid_plain sourceId targetId volume state src tgt :
  vessels state !! sourceId = Some src ->
  vessels state !! targetId = Some tgt ->
  Qleb (cv src) 0 = false ->
  Qleb (actualTransfer volume src tgt) 0 = false ->
  targetId <> "collection_beaker" ->
  fst (transferLiquid sourceId targetId volume state)
  = set_vessels
      (<[targetId := pouredTarget (actualTransfer volume src tgt) src tgt]>
         (<[sourceId := pouredSource (actualTransfer volume src tgt) src]> (vessels state)))
      state.
Proof.
  intros HS HT E1 E2 Hne.
  unfold transferLiquid. rewrite HS, HT, E1, E2.
  apply String.eqb_neq in Hne. rewrite Hne. reflexivity.
Qed.

(** The store after a transfer that moves something towards the collection
    beaker. *)
Lemma transferLiquid_collection sourceId volume state src tgt :
  vessels state !! sourceId = Some src ->
  vessels state !! "collection_beaker" = Some tgt ->
  Qleb (cv src) 0 = false ->
  Qleb (actualTransfer volume src tgt) 0 = false ->
  fst (transferLiquid sourceId "collection_beaker" volume state)
  = set_vessels
      (<["collection_beaker" := tgt]>
         (<["collection_beaker" := pouredTarget (actualTransfer volume src tgt) src tgt]>
            (<[sourceId := pouredSource (actualTransfer volume src tgt) src]> (vessels state))))
      (set_experimentActions
         (if includes (experimentActions state) "pour"
          then experimentActions state else experimentActions state ++ ["pour"])
         (set_pendingFiltrationVolume
            (pendingFiltrationVolume state + actualTransfer volume src tgt) state)).
Proof.
  intros HS HT E1 E2.
  unfold transferLiquid. rewrite HS, HT, E1, E2. cbn [String.eqb Ascii.eqb Bool.eqb fst].
  assert (Hg : Qgtb (actualTransfer volume src tgt) 0 = true).
  { apply Qgtb_true. now apply Qleb_false. }
  rewrite Hg. cbn [andb].
  destruct (includes (experimentActions state) "pour"); reflexivity.
Qed.

(* ===================================================================== *)
(** ** Merging by chemical id *)
(* ===================================================================== *)

Lemma same_chemical_true id c : same_chemical id c = true <-> Chemical.id (chemical c) = id.
Proof. unfold same_chemical. apply String.eqb_eq. Qed.

Lemma same_chemical_false id c : same_chemical id c = false <-> Chemical.id (chemical c) <> id.
Proof. unfold same_chemical. apply String.eqb_neq. Qed.

Lemma merge_one_cons x l t :
  merge_one (x :: l) t
  = if same_chemical (Chemical.id (chemical t)) x
    then add_volume (volume t) x :: l
    else x :: merge_one l t.
Proof.
  unfold merge_one. cbn [findIndex].
  destruct (same_chemical (Chemical.id (chemical t)) x); [reflexivity|].
  destruct (findIndex _ l); reflexivity.
Qed.

Lemma amountOf_cons id c l :
  amountOf id (c :: l) = (if same_chemical id c then volume c else 0) + amountOf id l.
Proof. reflexivity. Qed.

Lemma amountOf_nil id : amountOf id [] = 0.
Proof. reflexivity. Qed.

Lemma amountOf_app id l1 l2 :
  amountOf id (l1 ++ l2) == amountOf id l1 + amountOf id l2.
Proof.
  induction l1 as [|c l1 IH].
  - cbn [app]. rewrite amountOf_nil. Lqa.lra.
  - cbn [app]. rewrite !amountOf_cons, IH. Lqa.lra.
Qed.

Lemma merge_one_amount id l t :
  amountOf id (merge_one l t)
  == amountOf id l + (if same_chemical id t then volume t else 0).
Proof.
  induction l as [|x l IH].
  - unfold merge_one. cbn [findIndex app]. rewrite amountOf_cons, !amountOf_nil. Lqa.lra.
  - rewrite merge_one_cons.
    destruct (same_chemical (Chemical.id (chemical t)) x) eqn:E.
    + rewrite !amountOf_cons. apply same_chemical_true in E.
      unfold add_volume, same_chemical in *. cbn [chemical volume].
      rewrite E. destruct (String.eqb _ id); Lqa.lra.
    + rewrite !amountOf_cons, IH. Lqa.lra.
Qed.

Lemma merge_contents_amount id ts l :
  amountOf id (merge_contents l ts) == amountOf id l + amountOf id ts.
Proof.
  unfold merge_contents. revert l.
  induction ts as [|t ts IH]; intros l.
  - cbn [fold_left]. rewrite amountOf_nil. Lqa.lra.
  - cbn [fold_left]. rewrite IH, merge_one_amount, amountOf_cons. Lqa.lra.
Qed.

Lemma chemicalIds_cons x l :
  chemicalIds (x :: l) = Chemical.id (chemical x) :: chemicalIds l.
Proof. reflexivity. Qed.

Lemma includes_cons (y x : string) (l : list string) :
  includes (y :: l) x = String.eqb x y || includes l x.
Proof. reflexivity. Qed.

Lemma chemicalIds_merge_one l t :
  chemicalIds (merge_one l t)
  = if includes (chemicalIds l) (Chemical.id (chemical t))
    then chemicalIds l
    else chemicalIds l ++ [Chemical.id (chemical t)].
Proof.
  induction l as [|x l IH].
  - reflexivity.
  - rewrite merge_one_cons, (chemicalIds_cons x l), includes_cons.
    unfold same_chemical. rewrite (String.eqb_sym (Chemical.id (chemical t))).
    destruct (String.eqb (Chemical.id (chemical x)) (Chemical.id (chemical t))).
    + reflexivity.
    + cbn [orb]. rewrite chemicalIds_cons, IH.
      destruct (includes (chemicalIds l) _); reflexivity.
Qed.

Lemma includes_In (l : list string) (x : string) : includes l x = true <-> In x l.
Proof.
  unfold includes. rewrite existsb_exists. split.
  - intros [y [Hy E]]. apply String.eqb_eq in E. now subst.
  - intros H. exists x. split; [assumption | apply String.eqb_refl].
Qed.

Lemma includes_not_In (l : list string) (x : string) : includes l x = false <-> ~ In x l.
Proof.
  rewrite <- includes_In. destruct (includes l x); split; congruence.
Qed.

Lemma merge_one_NoDup l t :
  List.NoDup (chemicalIds l) -> List.NoDup (chemicalIds (merge_one l t)).
Proof.
  intros H. rewrite chemicalIds_merge_one.
  destruct (includes (chemicalIds l) (Chemical.id (chemical t))) eqn:E; [assumption|].
  apply includes_not_In in E.
  apply List.NoDup_rev in H. rewrite <- (rev_involutive (_ ++ _)).
  apply List.NoDup_rev. rewrite rev_app_distr. cbn [rev app].
  constructor; [|assumption].
  rewrite <- List.in_rev. assumption.
Qed.

Lemma merge_contents_NoDup ts l :
  List.NoDup (chemicalIds l) -> List.NoDup (chemicalIds (merge_contents l ts)).
Proof.
  unfold merge_contents. revert l.
  induction ts as [|t ts IH]; intros l H; [assumption|].
  cbn [fold_left]. apply IH. now apply merge_one_NoDup.
Qed.

(* ===================================================================== *)
(** ** The transfer clamp *)
(* ===================================================================== *)

Lemma actualTransfer_le_volume volume src tgt : actualTransfer volume src tgt <= volume.
Proof. apply min3_le_1. Qed.

Lemma actualTransfer_le_available volume src tgt :
  actualTransfer volume src tgt <= cv src.
Proof. apply min3_le_2. Qed.

Lemma actualTransfer_le_space volume src tgt :
  actualTransfer volume src tgt <= LabVessel.capacity tgt - cv tgt.
Proof. apply min3_le_3. Qed.

Lemma actualTransfer_le_min volume src tgt :
  actualTransfer volume src tgt <= Qmin (cv src) (LabVessel.capacity tgt - cv tgt).
Proof.
  apply Q.min_glb; [apply actualTransfer_le_available | apply actualTransfer_le_space].
Qed.

(** Every call moves one amount [moved]: out of the source, into the target
    or, for the collection beaker, into the filtration buffer. *)
Lemma transferLiquid_moved state sourceId targetId volume src tgt :
  vessels state !! sourceId = Some src ->
  vessels state !! targetId = Some tgt ->
  sourceId <> targetId ->
  let state' := fst (transferLiquid sourceId targetId volume state) in
  exists moved src' tgt',
    vessels state' !! sourceId = Some src' /\
    vessels state' !! targetId = Some tgt' /\
    cv src' == cv src - moved /\
    (cv tgt' - cv tgt) + (pendingFiltrationVolume state' - pendingFiltrationVolume state)
      == moved /\
    (moved == 0 \/ (0 < moved /\ moved = actualTransfer volume src tgt)).
Proof.
  intros HS HT Hne state'.
  destruct (transferLiquid_outcome sourceId targetId volume state src tgt HS HT)
    as [_ Hsame | Hpos1 Hpos2 E1 E2].
  - exists 0, src, tgt. subst state'. rewrite Hsame. cbn [fst].
    repeat split; try assumption; try Lqa.lra.
  - destruct (decide (targetId = "collection_beaker")) as [-> | Hplain].
    + exists (actualTransfer volume src tgt),
             (pouredSource (actualTransfer volume src tgt) src), tgt.
      subst state'. rewrite (transferLiquid_collection _ _ _ _ _ HS HT E1 E2).
      cbn [vessels set_vessels pendingFiltrationVolume set_experimentActions
           set_pendingFiltrationVolume].
      split; [|split; [|split; [|split]]].
      * rewrite !lookup_insert_ne by congruence. apply lookup_insert_eq.
      * apply lookup_insert_eq.
      * cbn. Lqa.lra.
      * Lqa.lra.
      * right. split; [assumption | reflexivity].
    + exists (actualTransfer volume src tgt),
             (pouredSource (actualTransfer volume src tgt) src),
             (pouredTarget (actualTransfer volume src tgt) src tgt).
      subst state'. rewrite (transferLiquid_plain _ _ _ _ _ _ HS HT E1 E2 Hplain).
      cbn [vessels set_vessels pendingFiltrationVolume].
      split; [|split; [|split; [|split]]].
      * rewrite lookup_insert_ne by congruence. apply lookup_insert_eq.
      * apply lookup_insert_eq.
      * cbn. Lqa.lra.
      * cbn. Lqa.lra.
      * right. split; [assumption | reflexivity].
Qed.

(** The scenario: 50 requested, 30 of water available. *)
Lemma transfer_all_of_thirty state a b w v0 src tgt :
  vessels state !! a = Some src ->
  vessels state !! b = Some tgt ->
  a <> b ->
  b <> "collection_beaker" ->
  LabVessel.contents src = [mkContents w v0] ->
  v0 == 30 ->
  cv src == 30 ->
  30 <= LabVessel.capacity tgt - cv tgt ->
  let state' := fst (transferLiquid a b 50 state) in
  exists src' tgt' v,
    vessels state' !! a = Some src' /\
    vessels state' !! b = Some tgt' /\
    actualTransfer 50 src tgt == 30 /\
    LabVessel.contents src' = [] /\
    cv src' == 0 /\
    cv tgt' == cv tgt + 30 /\
    v == 30 /\
    LabVessel.contents tgt' = merge_one (LabVessel.contents tgt) (mkContents w v).
Proof.
  intros HS HT Hab Hb Hc Hv0 Hv Hroom state'.
  assert (Ha : actualTransfer 50 src tgt == 30).
  { apply Qle_antisym.
    - apply Qle_trans with (cv src); [apply actualTransfer_le_available|].
      rewrite Hv. apply Qle_refl.
    - unfold actualTransfer. apply min3_glb; [Lqa.lra | rewrite Hv; Lqa.lra | assumption]. }
  assert (E1 : Qleb (cv src) 0 = false) by (apply Qleb_false; rewrite Hv; reflexivity).
  assert (E2 : Qleb (actualTransfer 50 src tgt) 0 = false).
  { apply Qleb_false. rewrite Ha. reflexivity. }
  exists (pouredSource (actualTransfer 50 src tgt) src),
         (pouredTarget (actualTransfer 50 src tgt) src tgt),
         (v0 * (actualTransfer 50 src tgt / cv src)).
  subst state'. rewrite (transferLiquid_plain _ _ _ _ _ _ HS HT E1 E2 Hb).
  cbn [vessels set_vessels].
  assert (Hfull : v0 * (actualTransfer 50 src tgt / cv src) == 30).
  { rewrite Ha, Hv, Hv0. reflexivity. }
  split; [|split; [|split; [|split; [|split; [|split; [|split]]]]]].
  - rewrite lookup_insert_ne by congruence. apply lookup_insert_eq.
  - apply lookup_insert_eq.
  - exact Ha.
  - unfold pouredSource. cbn [LabVessel.contents LabVessel.with_contents].
    rewrite Hc. unfold newSourceContents. cbn [flat_map volume chemical app].
    assert (Hg : Qgtb (v0 - v0 * (actualTransfer 50 src tgt / cv src)) 0.01 = false).
    { apply Qgtb_false. rewrite Hfull, Hv0. discriminate. }
    rewrite Hg. reflexivity.
  - unfold pouredSource.
    cbn [LabVessel.currentVolume LabVessel.with_contents LabVessel.with_currentVolume].
    rewrite Hv, Ha. reflexivity.
  - unfold pouredTarget.
    cbn [LabVessel.currentVolume LabVessel.with_contents LabVessel.with_currentVolume].
    rewrite Ha. reflexivity.
  - exact Hfull.
  - unfold pouredTarget. cbn [LabVessel.contents LabVessel.with_contents].
    rewrite Hc. unfold transferredContents. cbn [flat_map volume chemical app].
    assert (Hg : Qgtb (v0 * (actualTransfer 50 src tgt / cv src)) 0.01 = true).
    { apply Qgtb_true. rewrite Hfull. reflexivity. }
    rewrite Hg. reflexivity.
Qed.

(* ===================================================================== *)
(** ** Proportional removal *)
(* ===================================================================== *)

Lemma newSourceContents_filter ratio l :
  newSourceContents ratio l
  = List.map (fun c => mkContents (chemical c) (residual ratio c))
      (List.filter (fun c => Qgtb (residual ratio c) 0.01) l).
Proof.
  unfold newSourceContents, residual.
  induction l as [|c l IH]; [reflexivity|].
  cbn [flat_map List.filter]. rewrite IH.
  destruct (Qgtb (volume c - volume c * ratio) 0.01); reflexivity.
Qed.

Lemma transferredContents_filter ratio l :
  transferredContents ratio l
  = List.map (fun c => mkContents (chemical c) (subAmount ratio c))
      (List.filter (fun c => Qgtb (subAmount ratio c) 0.01) l).
Proof.
  unfold transferredContents, subAmount.
  induction l as [|c l IH]; [reflexivity|].
  cbn [flat_map List.filter]. rewrite IH.
  destruct (Qgtb (volume c * ratio) 0.01); reflexivity.
Qed.

Lemma amountOf_subAmounts id ratio l :
  amountOf id (List.map (fun c => mkContents (chemical c) (subAmount ratio c)) l)
  == ratio * amountOf id l.
Proof.
  induction l as [|c l IH].
  - cbn [List.map]. rewrite amountOf_nil. Lqa.lra.
  - cbn [List.map]. rewrite !amountOf_cons, IH.
    unfold same_chemical, subAmount. cbn [chemical volume].
    destruct (String.eqb _ id); Lqa.lra.
Qed.

Lemma kept_entry ratio l c' :
  In c' (newSourceContents ratio l) ->
  exists c, In c l /\ chemical c' = chemical c /\
            volume c' == volume c * (1 - ratio) /\ 0.01 < volume c'.
Proof.
  rewrite newSourceContents_filter, in_map_iff.
  intros [c [<- Hin]]. apply filter_In in Hin as [Hin Hgt].
  exists c. cbn [chemical volume]. repeat split; try assumption.
  - unfold residual. Lqa.lra.
  - now apply Qgtb_true in Hgt.
Qed.

(* ===================================================================== *)
(** ** Transfers: conservation, clamp, composition, filtration *)
(* ===================================================================== *)

(** C1, as amended.  In every store, hence after any sequence of fills and
    transfers: for a transfer between two different vessels, the sum of the
    two [currentVolume] fields and of the filtration buffer is the same after
    the call as before it.  When the target is not the collection beaker the
    buffer does not change, so the two-vessel sum itself is kept. *)
Theorem transfer_conserves_with_buffer state sourceId targetId volume src tgt :
  vessels state !! sourceId = Some src ->
  vessels state !! targetId = Some tgt ->
  sourceId <> targetId ->
  let state' := fst (transferLiquid sourceId targetId volume state) in
  exists src' tgt',
    vessels state' !! sourceId = Some src' /\
    vessels state' !! targetId = Some tgt' /\
    cv src' + cv tgt' + pendingFiltrationVolume state'
      == cv src + cv tgt + pendingFiltrationVolume state /\
    (targetId <> "collection_beaker" ->
       pendingFiltrationVolume state' = pendingFiltrationVolume state /\
       cv src' + cv tgt' == cv src + cv tgt).
Proof.
  intros HS HT Hne state'.
  destruct (transferLiquid_outcome sourceId targetId volume state src tgt HS HT)
    as [_ Hsame | Hpos1 Hpos2 E1 E2].
  - exists src, tgt. subst state'. rewrite Hsame. cbn [fst].
    repeat split; try assumption; reflexivity.
  - destruct (decide (targetId = "collection_beaker")) as [-> | Hplain].
    + exists (pouredSource (actualTransfer volume src tgt) src), tgt.
      subst state'. rewrite (transferLiquid_collection _ _ _ _ _ HS HT E1 E2).
      cbn [vessels set_vessels pendingFiltrationVolume set_experimentActions
           set_pendingFiltrationVolume].
      split; [|split; [|split]].
      * rewrite !lookup_insert_ne by congruence. apply lookup_insert_eq.
      * apply lookup_insert_eq.
      * cbn. Lqa.lra.
      * intros Hc. congruence.
    + exists (pouredSource (actualTransfer volume src tgt) src),
             (pouredTarget (actualTransfer volume src tgt) src tgt).
      subst state'. rewrite (transferLiquid_plain _ _ _ _ _ _ HS HT E1 E2 Hplain).
      cbn [vessels set_vessels pendingFiltrationVolume].
      split; [|split; [|split]].
      * rewrite lookup_insert_ne by congruence. apply lookup_insert_eq.
      * apply lookup_insert_eq.
      * cbn. Lqa.lra.
      * intros _. split; [reflexivity|]. cbn. Lqa.lra.
Qed.

Lemma transfer_conserves_with_buffer_witness :
  exists src tgt,
    vessels waterBench !! "beaker_1" = Some src /\
    vessels waterBench !! "beaker_2" = Some tgt /\
    "beaker_1" <> "beaker_2" /\
    let state' := fst (transferLiquid "beaker_1" "beaker_2" 50 waterBench) in
    exists src' tgt',
      vessels state' !! "beaker_1" = Some src' /\
      vessels state' !! "beaker_2" = Some tgt' /\
      cv src' + cv tgt' + pendingFiltrationVolume state'
        == cv src + cv tgt + pendingFiltrationVolume waterBench /\
      ("beaker_2" <> "collection_beaker" ->
         pendingFiltrationVolume state' = pendingFiltrationVolume waterBench /\
         cv src' + cv tgt' == cv src + cv tgt).
Proof.
  eexists. eexists.
  split; [vm_compute; reflexivity|].
  split; [vm_compute; reflexivity|].
  split; [discriminate|].
  apply (transfer_conserves_with_buffer waterBench "beaker_1" "beaker_2" 50);
    [vm_compute; reflexivity | vm_compute; reflexivity | discriminate].
Defined.

(** C1 as stated fails: a pour of 50 towards the collection beaker takes 50
    out of the source and leaves the collection beaker as it was, so the sum
    of the two volumes drops from 112.5 to 62.5. *)
Lemma transfer_to_collection_loses_volume :
  let state' := fst (transferLiquid "beaker_1" "collection_beaker" 50 filtrationBench) in
  exists before after,
    two_vessel_sum "beaker_1" "collection_beaker" filtrationBench = Some before /\
    two_vessel_sum "beaker_1" "collection_beaker" state' = Some after /\
    ~ (after == before).
Proof.
  eexists. eexists.
  split; [vm_compute; reflexivity|].
  split; [vm_compute; reflexivity|].
  vm_compute. discriminate.
Qed.

(** C2.  A transfer between two different vessels moves one amount: it
    leaves the source and reaches the target (or the filtration buffer).
    That amount is never negative, and whenever something moves it is at most
    [min(source.currentVolume, target.capacity - target.currentVolume)]; for
    vessels that respect their capacity the bound holds for every call.
    Scenario: 50 requested from a vessel that holds a single water entry of
    30, into another ordinary vessel with room for 30: exactly 30 moves, the
    source contents become empty and the target contents are merged with a
    water entry of volume 30. *)
Theorem transfer_clamp :
  (forall state sourceId targetId volume src tgt,
     vessels state !! sourceId = Some src ->
     vessels state !! targetId = Some tgt ->
     sourceId <> targetId ->
     let state' := fst (transferLiquid sourceId targetId volume state) in
     let bound := Qmin (cv src) (LabVessel.capacity tgt - cv tgt) in
     exists moved src' tgt',
       vessels state' !! sourceId = Some src' /\
       vessels state' !! targetId = Some tgt' /\
       cv src' == cv src - moved /\
       (cv tgt' - cv tgt)
         + (pendingFiltrationVolume state' - pendingFiltrationVolume state) == moved /\
       0 <= moved /\
       (0 < moved -> moved <= volume /\ moved <= bound) /\
       (0 <= cv src -> cv tgt <= LabVessel.capacity tgt -> moved <= bound))
  /\
  (forall state a b w v0 src tgt,
     vessels state !! a = Some src ->
     vessels state !! b = Some tgt ->
     a <> b ->
     b <> "collection_beaker" ->
     Chemical.id w = "water" ->
     LabVessel.contents src = [mkContents w v0] ->
     v0 == 30 ->
     cv src == 30 ->
     30 <= LabVessel.capacity tgt - cv tgt ->
     let state' := fst (transferLiquid a b 50 state) in
     exists src' tgt' v,
       vessels state' !! a = Some src' /\
       vessels state' !! b = Some tgt' /\
       cv src - cv src' == 30 /\
       LabVessel.contents src' = [] /\
       cv tgt' == cv tgt + 30 /\
       v == 30 /\
       LabVessel.contents tgt' = merge_one (LabVessel.contents tgt) (mkContents w v) /\
       amountOf "water" (LabVessel.contents tgt')
         == amountOf "water" (LabVessel.contents tgt) + 30).
Proof.
  split.
  - intros state sourceId targetId volume src tgt HS HT Hne state' bound.
    destruct (transferLiquid_moved state sourceId targetId volume src tgt HS HT Hne)
      as [moved [src' [tgt' [H1 [H2 [H3 [H4 H5]]]]]]].
    exists moved, src', tgt'.
    pose proof (actualTransfer_le_min volume src tgt) as Hmin.
    pose proof (actualTransfer_le_volume volume src tgt) as Hvol.
    repeat split; try assumption.
    + destruct H5 as [H5 | [H5 _]]; Lqa.lra.
    + destruct H5 as [H5 | [_ ->]]; [Lqa.lra | assumption].
    + destruct H5 as [H5 | [_ ->]]; [Lqa.lra | assumption].
    + intros Hsrc Htgt. destruct H5 as [H5 | [_ ->]]; [|assumption].
      rewrite H5. subst bound. apply Q.min_glb; Lqa.lra.
  - intros state a b w v0 src tgt HS HT Hab Hb Hw Hc Hv0 Hv Hroom state'.
    destruct (transfer_all_of_thirty state a b w v0 src tgt HS HT Hab Hb Hc Hv0 Hv Hroom)
      as [src' [tgt' [v [H1 [H2 [H3 [H4 [H5 [H6 [H7 H8]]]]]]]]]].
    exists src', tgt', v. repeat split; try assumption.
    + rewrite H5, Hv. reflexivity.
    + rewrite H8, merge_one_amount. unfold same_chemical. cbn [chemical volume].
      rewrite Hw. cbn [String.eqb Ascii.eqb Bool.eqb]. rewrite H7. reflexivity.
Qed.

Lemma transfer_clamp_witness :
  exists src tgt,
    vessels thirtyBench !! "beaker_1" = Some src /\
    vessels thirtyBench !! "beaker_2" = Some tgt /\
    let state' := fst (transferLiquid "beaker_1" "beaker_2" 50 thirtyBench) in
    exists src' tgt' v,
      vessels state' !! "beaker_1" = Some src' /\
      vessels state' !! "beaker_2" = Some tgt' /\
      cv src - cv src' == 30 /\
      LabVessel.contents src' = [] /\
      cv tgt' == cv tgt + 30 /\
      v == 30 /\
      LabVessel.contents tgt'
        = merge_one (LabVessel.contents tgt) (mkContents CHEMICALS.water v) /\
      amountOf "water" (LabVessel.contents tgt')
        == amountOf "water" (LabVessel.contents tgt) + 30.
Proof.
  eexists. eexists.
  split; [vm_compute; reflexivity|].
  split; [vm_compute; reflexivity|].
  apply (proj2 transfer_clamp thirtyBench "beaker_1" "beaker_2" CHEMICALS.water 30);
    [ vm_compute; reflexivity | vm_compute; reflexivity | discriminate | discriminate
    | reflexivity | reflexivity | reflexivity | reflexivity | vm_compute; discriminate ].
Defined.

(** C3, as amended.  A transfer of a positive amount [a] between two
    different vessels, the target not being the collection beaker, works with
    the one ratio [a / source.currentVolume]: every source entry keeps its
    chemical and the volume [volume * (1 - ratio)], unless that residual is
    at most 0.01, in which case the entry is dropped; the target receives,
    chemical id by chemical id, the sub-amounts [volume * ratio] that exceed
    0.01 and no others, merged into its entries without creating a second
    entry for an id. *)
Theorem proportional_transfer state sourceId targetId requested src tgt :
  vessels state !! sourceId = Some src ->
  vessels state !! targetId = Some tgt ->
  sourceId <> targetId ->
  targetId <> "collection_beaker" ->
  0 < cv src ->
  0 < actualTransfer requested src tgt ->
  let ratio := actualTransfer requested src tgt / cv src in
  let state' := fst (transferLiquid sourceId targetId requested state) in
  exists src' tgt',
    vessels state' !! sourceId = Some src' /\
    vessels state' !! targetId = Some tgt' /\
    LabVessel.contents src'
      = List.map (fun c => mkContents (chemical c) (residual ratio c))
          (List.filter (fun c => Qgtb (residual ratio c) 0.01) (LabVessel.contents src)) /\
    (forall c', In c' (LabVessel.contents src') ->
       exists c, In c (LabVessel.contents src) /\ chemical c' = chemical c /\
                 volume c' == volume c * (1 - ratio) /\ 0.01 < volume c') /\
    (forall id,
       amountOf id (LabVessel.contents tgt')
       == amountOf id (LabVessel.contents tgt)
          + ratio * amountOf id
                      (List.filter (fun c => Qgtb (subAmount ratio c) 0.01)
                         (LabVessel.contents src))) /\
    (List.NoDup (chemicalIds (LabVessel.contents tgt)) ->
     List.NoDup (chemicalIds (LabVessel.contents tgt'))).
Proof.
  intros HS HT Hne Hplain Hsrc Hpos ratio state'.
  assert (E1 : Qleb (cv src) 0 = false) by now apply Qleb_false.
  assert (E2 : Qleb (actualTransfer requested src tgt) 0 = false) by now apply Qleb_false.
  exists (pouredSource (actualTransfer requested src tgt) src),
         (pouredTarget (actualTransfer requested src tgt) src tgt).
  subst state'. rewrite (transferLiquid_plain _ _ _ _ _ _ HS HT E1 E2 Hplain).
  cbn [vessels set_vessels].
  unfold pouredSource, pouredTarget.
  cbn [LabVessel.contents LabVessel.with_contents]. fold ratio.
  split; [|split; [|split; [|split; [|split]]]].
  - rewrite lookup_insert_ne by congruence. apply lookup_insert_eq.
  - apply lookup_insert_eq.
  - apply newSourceContents_filter.
  - intros c'. apply kept_entry.
  - intros id. rewrite merge_contents_amount, transferredContents_filter,
      amountOf_subAmounts. reflexivity.
  - apply merge_contents_NoDup.
Qed.

Lemma proportional_transfer_witness :
  exists src tgt,
    vessels waterBench !! "beaker_1" = Some src /\
    vessels waterBench !! "beaker_2" = Some tgt /\
    let ratio := actualTransfer 50 src tgt / cv src in
    let state' := fst (transferLiquid "beaker_1" "beaker_2" 50 waterBench) in
    exists src' tgt',
      vessels state' !! "beaker_1" = Some src' /\
      vessels state' !! "beaker_2" = Some tgt' /\
      LabVessel.contents src'
        = List.map (fun c => mkContents (chemical c) (residual ratio c))
            (List.filter (fun c => Qgtb (residual ratio c) 0.01)
               (LabVessel.contents src)) /\
      (forall c', In c' (LabVessel.contents src') ->
         exists c, In c (LabVessel.contents src) /\ chemical c' = chemical c /\
                   volume c' == volume c * (1 - ratio) /\ 0.01 < volume c') /\
      (forall id,
         amountOf id (LabVessel.contents tgt')
         == amountOf id (LabVessel.contents tgt)
            + ratio * amountOf id
                        (List.filter (fun c => Qgtb (subAmount ratio c) 0.01)
                           (LabVessel.contents src))) /\
      (List.NoDup (chemicalIds (LabVessel.contents tgt)) ->
       List.NoDup (chemicalIds (LabVessel.contents tgt'))).
Proof.
  eexists. eexists.
  split; [vm_compute; reflexivity|].
  split; [vm_compute; reflexivity|].
  apply (proportional_transfer waterBench "beaker_1" "beaker_2" 50);
    [ vm_compute; reflexivity | vm_compute; reflexivity | discriminate | discriminate
    | reflexivity | reflexivity ].
Defined.

(** C3 as stated fails: a pour of 0.005 out of 100 of water is a transfer of
    a positive amount, yet the sub-amount 0.005 of water is not added to the
    target, whose contents stay empty while its volume grows. *)
Lemma small_sub_amount_is_dropped :
  let state' := fst (transferLiquid "beaker_1" "beaker_2" 0.005 waterBench) in
  exists src tgt tgt',
    vessels waterBench !! "beaker_1" = Some src /\
    vessels waterBench !! "beaker_2" = Some tgt /\
    vessels state' !! "beaker_2" = Some tgt' /\
    0 < actualTransfer 0.005 src tgt /\
    0 < amountOf "water" (LabVessel.contents src)
          * (actualTransfer 0.005 src tgt / cv src) /\
    LabVessel.contents tgt' = [] /\
    0 < cv tgt' /\
    ~ (amountOf "water" (LabVessel.contents tgt')
       == amountOf "water" (LabVessel.contents tgt)
          + amountOf "water" (LabVessel.contents src)
              * (actualTransfer 0.005 src tgt / cv src)).
Proof.
  eexists. eexists. eexists.
  split; [vm_compute; reflexivity|].
  split; [vm_compute; reflexivity|].
  split; [vm_compute; reflexivity|].
  split; [reflexivity|].
  split; [reflexivity|].
  split; [reflexivity|].
  split; [reflexivity|].
  vm_compute. discriminate.
Qed.

(** C10, as amended.  A transfer towards the collection beaker never changes
    the collection beaker.  When it moves a positive amount out of another
    vessel, that amount, clamped by the request, by the source volume and by
    the free space of the collection beaker, goes to
    [pendingFiltrationVolume], the source volume drops by it, and ['pour'] is
    in [experimentActions] afterwards, appended only if it was missing. *)
Theorem pour_is_diverted_to_buffer state sourceId volume :
  let state' := fst (transferLiquid sourceId "collection_beaker" volume state) in
  vessels state' !! "collection_beaker" = vessels state !! "collection_beaker" /\
  (forall src col,
     vessels state !! sourceId = Some src ->
     vessels state !! "collection_beaker" = Some col ->
     sourceId <> "collection_beaker" ->
     0 < cv src ->
     0 < actualTransfer volume src col ->
     let moved := actualTransfer volume src col in
     moved <= volume /\ moved <= cv src /\ moved <= LabVessel.capacity col - cv col /\
     pendingFiltrationVolume state' == pendingFiltrationVolume state + moved /\
     (exists src', vessels state' !! sourceId = Some src' /\ cv src' == cv src - moved) /\
     experimentActions state'
     = (if includes (experimentActions state) "pour"
        then experimentActions state
        else experimentActions state ++ ["pour"]) /\
     includes (experimentActions state') "pour" = true).
Proof.
  intros state'. split.
  - subst state'. unfold transferLiquid.
    destruct (vessels state !! sourceId) as [src|] eqn:HS; [|reflexivity].
    destruct (vessels state !! "collection_beaker") as [col|] eqn:HT;
      [|cbn [fst]; exact HT].
    destruct (Qleb (cv src) 0); [cbn [fst]; exact HT|].
    destruct (Qleb (actualTransfer volume src col) 0); [cbn [fst]; exact HT|].
    cbn [String.eqb Ascii.eqb Bool.eqb fst vessels set_vessels].
    apply lookup_insert_eq.
  - intros src col HS HT Hne Hsrc Hpos moved.
    assert (E1 : Qleb (cv src) 0 = false) by now apply Qleb_false.
    assert (E2 : Qleb (actualTransfer volume src col) 0 = false) by now apply Qleb_false.
    subst state'. rewrite (transferLiquid_collection _ _ _ _ _ HS HT E1 E2).
    cbn [vessels set_vessels pendingFiltrationVolume set_experimentActions
         set_pendingFiltrationVolume experimentActions].
    split; [apply actualTransfer_le_volume|].
    split; [apply actualTransfer_le_available|].
    split; [apply actualTransfer_le_space|].
    split; [reflexivity|].
    split.
    + exists (pouredSource (actualTransfer volume src col) src). split.
      * rewrite !lookup_insert_ne by congruence. apply lookup_insert_eq.
      * reflexivity.
    + split; [reflexivity|].
      destruct (includes (experimentActions state) "pour") eqn:E; [assumption|].
      apply includes_In. apply in_or_app. right. left. reflexivity.
Qed.

Lemma pour_is_diverted_to_buffer_witness :
  exists src col,
    vessels filtrationBench !! "beaker_1" = Some src /\
    vessels filtrationBench !! "collection_beaker" = Some col /\
    let state' := fst (transferLiquid "beaker_1" "collection_beaker" 50 filtrationBench) in
    let moved := actualTransfer 50 src col in
    moved <= 50 /\ moved <= cv src /\ moved <= LabVessel.capacity col - cv col /\
    pendingFiltrationVolume state' == pendingFiltrationVolume filtrationBench + moved /\
    (exists src', vessels state' !! "beaker_1" = Some src' /\ cv src' == cv src - moved) /\
    experimentActions state'
    = (if includes (experimentActions filtrationBench) "pour"
       then experimentActions filtrationBench
       else experimentActions filtrationBench ++ ["pour"]) /\
    includes (experimentActions state') "pour" = true.
Proof.
  eexists. eexists.
  split; [vm_compute; reflexivity|].
  split; [vm_compute; reflexivity|].
  apply (proj2 (pour_is_diverted_to_buffer filtrationBench "beaker_1" 50));
    [ vm_compute; reflexivity | vm_compute; reflexivity | discriminate
    | reflexivity | reflexivity ].
Defined.

(** C10 as stated fails: a call that asks for the amount 0 (a beaker tilted
    exactly to the pouring threshold) targets the collection beaker, and
    ['pour'] is neither present before nor inserted by the call. *)
Lemma empty_pour_records_no_action :
  let state' := fst (transferLiquid "beaker_1" "collection_beaker" 0 filtrationBench) in
  includes (experimentActions filtrationBench) "pour" = false /\
  includes (experimentActions state') "pour" = false.
Proof. split; vm_compute; reflexivity. Qed.

(* ===================================================================== *)
(** ** The reaction matcher and [applyReaction] *)
(* ===================================================================== *)

Lemma ChemicalType_eqb_eq a b : ChemicalType_eqb a b = true <-> a = b.
Proof. destruct a, b; cbn; split; intros H; try reflexivity; discriminate. Qed.

Lemma matches_pair_spec t1 t2 r :
  matches_pair t1 t2 r = true <->
  (Reaction.chemicalType1 r = t1 /\ Reaction.chemicalType2 r = t2)
  \/ (Reaction.chemicalType1 r = t2 /\ Reaction.chemicalType2 r = t1).
Proof.
  unfold matches_pair. rewrite orb_true_iff, !andb_true_iff, !ChemicalType_eqb_eq.
  reflexivity.
Qed.

Lemma findReaction_Some rs t1 t2 r :
  findReaction rs t1 t2 = Some r -> In r rs /\ matches_pair t1 t2 r = true.
Proof. unfold findReaction. apply List.find_some. Qed.

Lemma checkReaction_inner_Some rs c1 rest r :
  checkReaction_inner rs c1 rest = Some r ->
  exists j c2, rest !! j = Some c2 /\
    findReaction rs (Chemical.type (chemical c1)) (Chemical.type (chemical c2)) = Some r.
Proof.
  induction rest as [|c2 rest IH]; [discriminate|].
  cbn [checkReaction_inner].
  destruct (findReaction rs _ _) as [r'|] eqn:E.
  - intros [= <-]. exists 0%nat, c2. split; [reflexivity | assumption].
  - intros H. destruct (IH H) as [j [c [Hj Hf]]].
    exists (S j), c. split; assumption.
Qed.

Lemma checkReaction_outer_Some rs contents r :
  checkReaction_outer rs contents = Some r ->
  exists i j c1 c2, (i < j)%nat /\ contents !! i = Some c1 /\ contents !! j = Some c2 /\
    findReaction rs (Chemical.type (chemical c1)) (Chemical.type (chemical c2)) = Some r.
Proof.
  induction contents as [|c1 contents IH]; [discriminate|].
  cbn [checkReaction_outer].
  destruct (checkReaction_inner rs c1 contents) as [r'|] eqn:E.
  - intros [= <-]. apply checkReaction_inner_Some in E as [j [c2 [Hj Hf]]].
    exists 0%nat, (S j), c1, c2. repeat split; try assumption. lia.
  - intros H. destruct (IH H) as [i [j [a [b [Hij [Hi [Hj Hf]]]]]]].
    exists (S i), (S j), a, b. repeat split; try assumption. lia.
Qed.

Lemma checkReaction_found rs contents r :
  reaction (checkReaction rs contents) = Some r ->
  occurred (checkReaction rs contents) = true /\
  checkReaction_outer rs contents = Some r.
Proof.
  unfold checkReaction.
  destruct (length contents <? 2)%nat; [discriminate|].
  destruct (checkReaction_outer rs contents) as [r'|]; [|discriminate].
  cbn [reaction occurred]. intros [= <-]. split; reflexivity.
Qed.

(** C4.  When the matcher reports the rule [r] for the contents of a vessel,
    [r] is a rule of the rule base whose category pair is the pair of two
    entries at different positions, in one order or the other; applying [r]
    to the vessel replaces the whole content list by one entry per product of
    [r], in the order of the products, each with the volume
    [currentVolume / (number of products)], and keeps [currentVolume]. *)
Theorem reaction_splits_volume_evenly now effectIdCounter state vesselId vessel r :
  vessels state !! vesselId = Some vessel ->
  reaction (reactionManager_checkReaction (LabVessel.contents vessel)) = Some r ->
  (exists i j c1 c2,
     (i < j)%nat /\
     LabVessel.contents vessel !! i = Some c1 /\
     LabVessel.contents vessel !! j = Some c2 /\
     In r REACTIONS /\
     ((Reaction.chemicalType1 r = Chemical.type (chemical c1)
       /\ Reaction.chemicalType2 r = Chemical.type (chemical c2))
      \/ (Reaction.chemicalType1 r = Chemical.type (chemical c2)
          /\ Reaction.chemicalType2 r = Chemical.type (chemical c1))))
  /\
  let state' := fst (applyReaction now effectIdCounter vesselId r state) in
  let share := cv vessel / inject_Z (Z.of_nat (length (Reaction.products r))) in
  exists vessel',
    vessels state' !! vesselId = Some vessel' /\
    cv vessel' = cv vessel /\
    LabVessel.contents vessel'
      = List.map (fun product => mkContents product share) (Reaction.products r) /\
    List.map chemical (LabVessel.contents vessel') = Reaction.products r /\
    (forall c, In c (LabVessel.contents vessel') -> volume c = share).
Proof.
  intros Hv Hr. split.
  - apply checkReaction_found in Hr as [_ Hr].
    apply checkReaction_outer_Some in Hr as [i [j [c1 [c2 [Hij [Hi [Hj Hf]]]]]]].
    apply findReaction_Some in Hf as [Hin Hm].
    exists i, j, c1, c2. repeat split; try assumption.
    now apply matches_pair_spec.
  - intros state' share. subst state'. unfold applyReaction. rewrite Hv.
    cbn [fst vessels set_vessels].
    eexists. split; [apply lookup_insert_eq|].
    cbn [LabVessel.contents LabVessel.currentVolume LabVessel.with_contents].
    fold share. repeat split.
    + rewrite List.map_map. cbn [chemical]. apply List.map_id.
    + intros c Hc. apply in_map_iff in Hc as [p [<- _]]. reflexivity.
Qed.

Lemma reaction_splits_volume_evenly_witness :
  exists vessel r,
    vessels acidBaseBench !! "beaker_1" = Some vessel /\
    reaction (reactionManager_checkReaction (LabVessel.contents vessel)) = Some r /\
    let state' := fst (applyReaction 0 0 "beaker_1" r acidBaseBench) in
    let share := cv vessel / inject_Z (Z.of_nat (length (Reaction.products r))) in
    exists vessel',
      vessels state' !! "beaker_1" = Some vessel' /\
      cv vessel' = cv vessel /\
      LabVessel.contents vessel'
        = List.map (fun product => mkContents product share) (Reaction.products r) /\
      List.map chemical (LabVessel.contents vessel') = Reaction.products r /\
      (forall c, In c (LabVessel.contents vessel') -> volume c = share).
Proof.
  eexists. eexists.
  split; [vm_compute; reflexivity|].
  split; [vm_compute; reflexivity|].
  apply (reaction_splits_volume_evenly 0 0 acidBaseBench "beaker_1");
    vm_compute; reflexivity.
Defined.

(* ===================================================================== *)
(** ** Signature keys *)
(* ===================================================================== *)

Lemma fold_left_push_keys chemicals actions keys :
  fold_left (fun keys action =>
      keys ++ [ join "+" (chemicals ++ [action]);
                join "+" (sort chemicals ++ [action]) ]) actions keys
  = keys ++ flat_map (singleActionKeys chemicals) actions.
Proof.
  revert keys. induction actions as [|a actions IH]; intros keys.
  - cbn [fold_left flat_map]. now rewrite app_nil_r.
  - cbn [fold_left flat_map]. rewrite IH. unfold singleActionKeys at 2.
    now rewrite <- app_assoc.
Qed.

Lemma generateKeys_ranked chemicals actions :
  generateKeys chemicals actions = rankedKeys chemicals actions.
Proof.
  unfold generateKeys, rankedKeys. rewrite fold_left_push_keys.
  destruct actions as [|a actions], chemicals as [|c chemicals];
    cbn [length Nat.ltb Nat.leb allActionsKeys chemicalsOnlyKeys app];
    rewrite ?app_nil_r, <- ?app_assoc; reflexivity.
Qed.

(** The first loop returns the first generated key that the table defines. *)
Lemma exactMatch_first table before key after r :
  Forall (fun k => lookup_key k table = None) before ->
  lookup_key key table = Some r ->
  exactMatch table (before ++ key :: after) = Some (key, r).
Proof.
  intros Hb Hk. induction Hb as [|k before Hk0 _ IH].
  - cbn [app exactMatch]. now rewrite Hk.
  - cbn [app exactMatch]. now rewrite Hk0.
Qed.

Lemma exactMatch_None table keys :
  exactMatch table keys = None <-> Forall (fun k => lookup_key k table = None) keys.
Proof.
  induction keys as [|k keys IH]; cbn [exactMatch].
  - split; [constructor | reflexivity].
  - destruct (lookup_key k table) eqn:E.
    + split; [discriminate|]. intros H. inversion H; congruence.
    + rewrite IH. split; [now constructor | now inversion 1].
Qed.

(** C5.  The generated keys are the ranked keys of the specification; the
    matcher returns the first of them that the table defines, whatever the
    table holds for later keys; it runs the superset pass exactly when none
    of them is defined; and with the chemicals naoh, phenolphthalein and the
    action heat, a table that defines "naoh+phenolphthalein+heat" yields that
    key, also when it defines "naoh+phenolphthalein"; with the two
    chemicals added in the other order the sorted key gives the same result
    unless the table defines the as-added key itself. *)
Theorem signature_ranking :
  (forall chemicals actions,
     generateKeys chemicals actions = rankedKeys chemicals actions) /\
  (forall experiment chemicals actions before key after r,
     rankedKeys chemicals actions = before ++ key :: after ->
     Forall (fun k => lookup_key k (Experiment.reactions experiment) = None) before ->
     lookup_key key (Experiment.reactions experiment) = Some r ->
     matchReaction experiment chemicals actions = Some (key, r)) /\
  (forall experiment chemicals actions,
     Forall (fun k => lookup_key k (Experiment.reactions experiment) = None)
       (rankedKeys chemicals actions) ->
     matchReaction experiment chemicals actions
     = supersetMatch (Experiment.reactions experiment) chemicals actions
         (object_keys (Experiment.reactions experiment))) /\
  (forall experiment specific loose,
     lookup_key "naoh+phenolphthalein+heat" (Experiment.reactions experiment)
       = Some specific ->
     lookup_key "naoh+phenolphthalein" (Experiment.reactions experiment)
       = Some loose ->
     matchReaction experiment ["naoh"; "phenolphthalein"] ["heat"]
     = Some ("naoh+phenolphthalein+heat", specific)) /\
  (forall experiment specific,
     lookup_key "phenolphthalein+naoh+heat" (Experiment.reactions experiment) = None ->
     lookup_key "naoh+phenolphthalein+heat" (Experiment.reactions experiment)
       = Some specific ->
     matchReaction experiment ["phenolphthalein"; "naoh"] ["heat"]
     = Some ("naoh+phenolphthalein+heat", specific)).
Proof.
  split; [exact generateKeys_ranked|].
  split; [|split; [|split]].
  - intros experiment chemicals actions before key after r Hkeys Hb Hk.
    unfold matchReaction. rewrite generateKeys_ranked, Hkeys.
    now rewrite (exactMatch_first _ before key after r Hb Hk).
  - intros experiment chemicals actions Hnone.
    unfold matchReaction. rewrite generateKeys_ranked.
    apply exactMatch_None in Hnone. now rewrite Hnone.
  - intros experiment specific loose Hs _.
    unfold matchReaction.
    change (generateKeys ["naoh"; "phenolphthalein"] ["heat"])
      with ([] ++ "naoh+phenolphthalein+heat"
               :: ["naoh+phenolphthalein+heat"; "naoh+phenolphthalein+heat";
                   "naoh+phenolphthalein+heat"; "naoh+phenolphthalein";
                   "naoh+phenolphthalein"]).
    now rewrite (exactMatch_first _ [] _ _ specific (Forall_nil _) Hs).
  - intros experiment specific Hnone Hs.
    unfold matchReaction.
    change (generateKeys ["phenolphthalein"; "naoh"] ["heat"])
      with (["phenolphthalein+naoh+heat"] ++ "naoh+phenolphthalein+heat"
               :: ["phenolphthalein+naoh+heat"; "naoh+phenolphthalein+heat";
                   "phenolphthalein+naoh"; "naoh+phenolphthalein"]).
    assert (Hb : Forall (fun k => lookup_key k (Experiment.reactions experiment) = None)
                   ["phenolphthalein+naoh+heat"])
      by (constructor; [exact Hnone | constructor]).
    now rewrite (exactMatch_first _ _ _ _ specific Hb Hs).
Qed.

Lemma signature_ranking_witness :
  matchReaction rankingExperiment ["naoh"; "phenolphthalein"] ["heat"]
  = Some ("naoh+phenolphthalein+heat", mkExperimentReaction "specific" "" true).
Proof.
  apply (proj1 (proj2 (proj2 (proj2 signature_ranking))) rankingExperiment
           (mkExperimentReaction "specific" "" true)
           (mkExperimentReaction "loose" "" false));
    reflexivity.
Defined.

(* ===================================================================== *)
(** ** Idempotent inserts *)
(* ===================================================================== *)

Lemma includes_app_last (l : list string) (x : string) : includes (l ++ [x]) x = true.
Proof. apply includes_In, in_or_app. right. now left. Qed.

(** C6.  Calling [addApparatusToExperiment], [addChemicalToExperiment] or
    [performExperimentAction] a second time with the same id leaves the
    store of the first call unchanged (and sets no timer). *)
Theorem add_twice_is_add_once (id : string) (state : LabStore) :
  addApparatusToExperiment id (addApparatusToExperiment id state)
    = addApparatusToExperiment id state /\
  addChemicalToExperiment id (addChemicalToExperiment id state)
    = addChemicalToExperiment id state /\
  performExperimentAction id (fst (performExperimentAction id state))
    = (fst (performExperimentAction id state), []).
Proof.
  split; [|split].
  - destruct (includes (placedApparatus state) id) eqn:E.
    + unfold addApparatusToExperiment. now rewrite !E.
    + unfold addApparatusToExperiment. rewrite E.
      cbn [placedApparatus set_placedApparatus].
      now rewrite includes_app_last.
  - destruct (includes (addedChemicals state) id) eqn:E.
    + unfold addChemicalToExperiment. now rewrite !E.
    + unfold addChemicalToExperiment. rewrite E.
      cbn [addedChemicals set_addedChemicals].
      now rewrite includes_app_last.
  - destruct (includes (experimentActions state) id) eqn:E.
    + unfold performExperimentAction. rewrite E. cbn [fst]. now rewrite E.
    + unfold performExperimentAction. rewrite E.
      destruct (String.eqb id "heat"); [|destruct (String.eqb id "stir")];
        cbn [fst experimentActions set_experimentActions];
        now rewrite includes_app_last.
Qed.

(* ===================================================================== *)
(** ** The two-phase experiment *)
(* ===================================================================== *)

Lemma getExperimentById_salt :
  getExperimentById "salt-dissolution" = Some exp_salt_dissolution.
Proof. reflexivity. Qed.

Lemma matchReaction_salt e :
  isSaltDissolution e ->
  exists rx, success rx = true /\
    matchReaction e ["water"; "salt"] ["stir"] = Some ("water+salt+stir", rx).
Proof.
  intros [_ Hr]. unfold matchReaction. rewrite Hr.
  eexists. split; [|vm_compute; reflexivity]. reflexivity.
Qed.

Lemma matchReaction_sand e :
  isSaltDissolution e ->
  exists rx, success rx = true /\
    matchReaction e ["water"; "sand"] ["stir"] = Some ("water+sand+stir", rx).
Proof.
  intros [_ Hr]. unfold matchReaction. rewrite Hr.
  eexists. split; [|vm_compute; reflexivity]. reflexivity.
Qed.

Lemma attempt_inv s p c a :
  attempt s = (p, c, a) ->
  placedApparatus s = p /\ addedChemicals s = c /\ experimentActions s = a.
Proof. unfold attempt. intros H. injection H as -> -> ->. repeat split. Qed.

Lemma phaseContext_inv s e st sd rs ce :
  phaseContext s = (e, st, sd, rs, ce) ->
  currentExperiment s = e /\ saltTested s = st /\ sandTested s = sd /\
  resetAfterSaltTest s = rs /\ completedExperiments s = ce.
Proof. unfold phaseContext. intros H. injection H as -> -> -> -> ->. repeat split. Qed.

Lemma addApparatus_attempt id s :
  includes (placedApparatus s) id = false ->
  attempt (addApparatusToExperiment id s)
  = (placedApparatus s ++ [id], addedChemicals s, experimentActions s).
Proof. intros H. unfold addApparatusToExperiment. now rewrite H. Qed.

Lemma addApparatus_context id s :
  phaseContext (addApparatusToExperiment id s) = phaseContext s.
Proof.
  unfold addApparatusToExperiment.
  destruct (includes (placedApparatus s) id); reflexivity.
Qed.

Lemma addChemical_attempt id s :
  includes (addedChemicals s) id = false ->
  attempt (addChemicalToExperiment id s)
  = (placedApparatus s, addedChemicals s ++ [id], experimentActions s).
Proof. intros H. unfold addChemicalToExperiment. now rewrite H. Qed.

Lemma addChemical_context id s :
  phaseContext (addChemicalToExperiment id s) = phaseContext s.
Proof.
  unfold addChemicalToExperiment.
  destruct (includes (addedChemicals s) id); reflexivity.
Qed.

Lemma performAction_attempt action s :
  includes (experimentActions s) action = false ->
  attempt (fst (performExperimentAction action s))
  = (placedApparatus s, addedChemicals s, experimentActions s ++ [action]).
Proof.
  intros H. unfold performExperimentAction. rewrite H.
  destruct (String.eqb action "heat"); [|destruct (String.eqb action "stir")];
    reflexivity.
Qed.

Lemma performAction_context action s :
  phaseContext (fst (performExperimentAction action s)) = phaseContext s.
Proof.
  unfold performExperimentAction.
  destruct (includes (experimentActions s) action); [reflexivity|].
  destruct (String.eqb action "heat"); [|destruct (String.eqb action "stir")];
    reflexivity.
Qed.

(** The state on which the stir timer runs its reaction check. *)
Lemma testSubstance_fields substance s :
  String.eqb substance "water" = false ->
  attempt s = ([], [], []) ->
  exists pre,
    testSubstance substance s = checkExperimentReaction pre /\
    attempt pre = (["beaker"; "glass-rod"], ["water"; substance], ["stir"]) /\
    phaseContext pre = phaseContext s.
Proof.
  intros Hsub Hs. apply attempt_inv in Hs as [Hp [Hc Ha]].
  eexists. split; [reflexivity|].
  set (s1 := addApparatusToExperiment "beaker" s).
  assert (A1 : attempt s1 = (["beaker"], [], [])).
  { subst s1. rewrite addApparatus_attempt; rewrite Hp; [|reflexivity].
    now rewrite Hc, Ha. }
  set (s2 := addChemicalToExperiment "water" s1).
  apply attempt_inv in A1 as [P1 [C1 X1]].
  assert (A2 : attempt s2 = (["beaker"], ["water"], [])).
  { subst s2. rewrite addChemical_attempt; rewrite C1; [|reflexivity].
    now rewrite P1, X1. }
  set (s3 := addChemicalToExperiment substance s2).
  apply attempt_inv in A2 as [P2 [C2 X2]].
  assert (A3 : attempt s3 = (["beaker"], ["water"; substance], [])).
  { subst s3. rewrite addChemical_attempt; rewrite C2.
    - now rewrite P2, X2.
    - unfold includes. cbn [existsb]. now rewrite Hsub. }
  set (s4 := addApparatusToExperiment "glass-rod" s3).
  apply attempt_inv in A3 as [P3 [C3 X3]].
  assert (A4 : attempt s4 = (["beaker"; "glass-rod"], ["water"; substance], [])).
  { subst s4. rewrite addApparatus_attempt; rewrite P3; [|reflexivity].
    now rewrite C3, X3. }
  set (s5 := fst (performExperimentAction "stir" s4)).
  apply attempt_inv in A4 as [P4 [C4 X4]].
  assert (A5 : attempt s5 = (["beaker"; "glass-rod"], ["water"; substance], ["stir"])).
  { subst s5. rewrite performAction_attempt; rewrite X4; [|reflexivity].
    now rewrite P4, C4. }
  split.
  - exact A5.
  - change (phaseContext s5 = phaseContext s). subst s5 s4 s3 s2 s1.
    now rewrite performAction_context, addApparatus_context, !addChemical_context,
      addApparatus_context.
Qed.

Lemma checkExperimentReaction_salt_branch s e key rx :
  currentExperiment s = Some e ->
  Experiment.id e = "salt-dissolution" ->
  matchReaction e (addedChemicals s) (experimentActions s) = Some (key, rx) ->
  success rx = true ->
  checkExperimentReaction s = checkSaltDissolution e key rx s.
Proof.
  intros He Hid Hm Hs. unfold checkExperimentReaction.
  now rewrite He, Hm, Hid, Hs.
Qed.

(** The reaction check that ends the salt round. *)
Lemma salt_round_check s e :
  currentExperiment s = Some e ->
  isSaltDissolution e ->
  addedChemicals s = ["water"; "salt"] ->
  experimentActions s = ["stir"] ->
  saltTested s = false ->
  sandTested s = false ->
  let s' := fst (checkExperimentReaction s) in
  attempt s' = attempt s /\
  phaseContext s' = (Some e, true, false, resetAfterSaltTest s, completedExperiments s) /\
  showResetPrompt s' = true.
Proof.
  intros He Hsalt Hc Ha Hst Hsd s'.
  destruct (matchReaction_salt e Hsalt) as [rx [Hrx Hm]].
  subst s'. rewrite (checkExperimentReaction_salt_branch s e "water+salt+stir" rx);
    try assumption; [|destruct Hsalt; assumption | now rewrite Hc, Ha].
  unfold checkSaltDissolution. rewrite Hst, Hsd.
  change (str_includes "water+salt+stir" "salt") with true.
  change (str_includes "water+salt+stir" "stir") with true.
  cbn [andb negb fst]. unfold attempt, phaseContext. store_fields.
  now rewrite He.
Qed.

(** The reaction check that ends the sand round, the salt round being
    done. *)
Lemma sand_round_check s e :
  currentExperiment s = Some e ->
  isSaltDissolution e ->
  addedChemicals s = ["water"; "sand"] ->
  experimentActions s = ["stir"] ->
  saltTested s = true ->
  sandTested s = false ->
  let s' := fst (checkExperimentReaction s) in
  attempt s' = attempt s /\
  phaseContext s'
  = (Some e, true, true, resetAfterSaltTest s,
     if includes (completedExperiments s) "salt-dissolution"
     then completedExperiments s
     else completedExperiments s ++ ["salt-dissolution"]) /\
  showResetPrompt s' = false.
Proof.
  intros He Hsalt Hc Ha Hst Hsd s'.
  destruct (matchReaction_sand e Hsalt) as [rx [Hrx Hm]].
  subst s'. rewrite (checkExperimentReaction_salt_branch s e "water+sand+stir" rx);
    try assumption; [|destruct Hsalt; assumption | now rewrite Hc, Ha].
  unfold checkSaltDissolution. rewrite Hst, Hsd.
  change (str_includes "water+sand+stir" "salt") with false.
  change (str_includes "water+sand+stir" "sand") with true.
  change (str_includes "water+sand+stir" "stir") with true.
  destruct Hsalt as [Hid _]. rewrite Hid.
  cbn [andb negb].
  destruct (includes (completedExperiments s) "salt-dissolution");
    cbn [negb fst]; unfold attempt, phaseContext; store_fields; now rewrite He.
Qed.

(** [resetExperiment] between the two rounds. *)
Lemma reset_after_salt_round s e :
  currentExperiment s = Some e ->
  isSaltDissolution e ->
  saltTested s = true ->
  sandTested s = false ->
  let r := resetExperiment s in
  attempt r = ([], [], []) /\
  (exists e', isSaltDissolution e' /\
     phaseContext r = (Some e', true, false, true, completedExperiments s)) /\
  showResetPrompt r = false.
Proof.
  intros He [Hid Hr] Hst Hsd r. subst r.
  unfold resetExperiment. rewrite He, Hid, Hst, Hsd.
  cbn [String.eqb Ascii.eqb Bool.eqb andb negb].
  unfold attempt, phaseContext. store_fields.
  split; [reflexivity|]. split; [|reflexivity].
  eexists. split; [|reflexivity].
  split; [exact Hid | exact Hr].
Qed.

Lemma loadExperiment_salt s0 :
  attempt (loadExperiment "salt-dissolution" s0) = ([], [], []) /\
  phaseContext (loadExperiment "salt-dissolution" s0)
  = (Some exp_salt_dissolution, saltTested s0, sandTested s0, resetAfterSaltTest s0,
     completedExperiments s0).
Proof.
  unfold loadExperiment. rewrite getExperimentById_salt. split; reflexivity.
Qed.

(** C7.  Salt-dissolution, started with neither phase done.  After the salt
    round the salt flag is set and the reset prompt is shown.
    [resetExperiment] then empties the three lists, keeps the salt flag and
    sets [resetAfterSaltTest].  After the sand round, played without another
    reset, both flags are set, no prompt is shown and the experiment id is in
    [completedExperiments]. *)
Theorem two_phase_salt_dissolution (s0 : LabStore) :
  saltTested s0 = false ->
  sandTested s0 = false ->
  let a := fst (testSubstance "salt" (loadExperiment "salt-dissolution" s0)) in
  let r := resetExperiment a in
  let b := fst (testSubstance "sand" r) in
  (saltTested a = true /\ sandTested a = false /\ showResetPrompt a = true /\
   attempt a = (["beaker"; "glass-rod"], ["water"; "salt"], ["stir"])) /\
  (placedApparatus r = [] /\ addedChemicals r = [] /\ experimentActions r = [] /\
   saltTested r = true /\ sandTested r = false /\ resetAfterSaltTest r = true /\
   showResetPrompt r = false) /\
  (saltTested b = true /\ sandTested b = true /\ showResetPrompt b = false /\
   resetAfterSaltTest b = true /\
   includes (completedExperiments b) "salt-dissolution" = true /\
   (includes (completedExperiments s0) "salt-dissolution" = false ->
    completedExperiments b = completedExperiments s0 ++ ["salt-dissolution"])).
Proof.
  intros Hsalt Hsand a r b.
  (* salt round *)
  destruct (loadExperiment_salt s0) as [L1 L2].
  destruct (testSubstance_fields "salt" _ eq_refl L1) as [preA [EA [AA CA]]].
  rewrite L2, Hsalt, Hsand in CA.
  apply attempt_inv in AA as [PA1 [PA2 PA3]].
  apply phaseContext_inv in CA as [CA1 [CA2 [CA3 [CA4 CA5]]]].
  destruct (salt_round_check preA exp_salt_dissolution CA1 (conj eq_refl eq_refl)
              PA2 PA3 CA2 CA3) as [RA1 [RA2 RA3]].
  fold (fst (checkExperimentReaction preA)) in RA1, RA2, RA3.
  rewrite <- EA in RA1, RA2, RA3. fold a in RA1, RA2, RA3. clearbody a.
  unfold attempt at 2 in RA1. rewrite PA1, PA2, PA3 in RA1.
  apply phaseContext_inv in RA2 as [A1 [A2 [A3 [A4 A5]]]].
  split; [repeat split; assumption|].
  (* reset *)
  destruct (reset_after_salt_round a exp_salt_dissolution A1 (conj eq_refl eq_refl) A2 A3)
    as [R1 [[e' [He' R2]] R3]].
  fold r in R1, R2, R3. clearbody r.
  pose proof R1 as Hr.
  apply attempt_inv in R1 as [P1 [P2 P3]].
  apply phaseContext_inv in R2 as [C1 [C2 [C3 [C4 C5]]]].
  split; [repeat split; assumption|].
  (* sand round *)
  destruct (testSubstance_fields "sand" r eq_refl Hr) as [preB [EB [AB CB]]].
  unfold phaseContext at 2 in CB. rewrite C1, C2, C3, C4, C5 in CB.
  apply attempt_inv in AB as [PB1 [PB2 PB3]].
  apply phaseContext_inv in CB as [CB1 [CB2 [CB3 [CB4 CB5]]]].
  destruct (sand_round_check preB e' CB1 He' PB2 PB3 CB2 CB3) as [RB1 [RB2 RB3]].
  fold (fst (checkExperimentReaction preB)) in RB1, RB2, RB3.
  rewrite <- EB in RB1, RB2, RB3. fold b in RB1, RB2, RB3. clearbody b.
  apply phaseContext_inv in RB2 as [B1 [B2 [B3 [B4 B5]]]].
  rewrite CB4 in B4. rewrite CB5, A5, CA5 in B5.
  repeat split; try assumption.
  - rewrite B5. destruct (includes (completedExperiments s0) "salt-dissolution") eqn:E;
      [assumption | apply includes_app_last].
  - intros E. now rewrite B5, E.
Qed.

Lemma two_phase_salt_dissolution_witness :
  let s0 := initialStore [] in
  let a := fst (testSubstance "salt" (loadExperiment "salt-dissolution" s0)) in
  let r := resetExperiment a in
  let b := fst (testSubstance "sand" r) in
  (saltTested a = true /\ sandTested a = false /\ showResetPrompt a = true /\
   attempt a = (["beaker"; "glass-rod"], ["water"; "salt"], ["stir"])) /\
  (placedApparatus r = [] /\ addedChemicals r = [] /\ experimentActions r = [] /\
   saltTested r = true /\ sandTested r = false /\ resetAfterSaltTest r = true /\
   showResetPrompt r = false) /\
  (saltTested b = true /\ sandTested b = true /\ showResetPrompt b = false /\
   resetAfterSaltTest b = true /\
   includes (completedExperiments b) "salt-dissolution" = true /\
   (includes (completedExperiments s0) "salt-dissolution" = false ->
    completedExperiments b = completedExperiments s0 ++ ["salt-dissolution"])).
Proof.
  apply (two_phase_salt_dissolution (initialStore [])); reflexivity.
Defined.

(* ===================================================================== *)
(** ** The neutralization drops *)
(* ===================================================================== *)

(** The reaction check never touches the drop counter, the completion flag
    or the current experiment, and outside the physical-chemical experiment
    it leaves the vessels alone. *)
Lemma checkExperimentReaction_frame s :
  let s' := fst (checkExperimentReaction s) in
  neutralizationDropCount s' = neutralizationDropCount s /\
  neutralizationComplete s' = neutralizationComplete s /\
  currentExperiment s' = currentExperiment s /\
  addedChemicals s' = addedChemicals s /\
  (current_experiment_is "physical-chemical" s = false -> vessels s' = vessels s).
Proof.
  unfold checkExperimentReaction, current_experiment_is.
  destruct (currentExperiment s) as [e|] eqn:He; [|cbn [fst]; now rewrite He].
  destruct (matchReaction e (addedChemicals s) (experimentActions s)) as [[key rx]|];
    [|cbn [fst]; now rewrite He].
  destruct (String.eqb (Experiment.id e) "salt-dissolution" && success rx).
  { unfold checkSaltDissolution.
    match goal with |- context [if ?c then (_, [ShowCompletionPopup]) else _] =>
      destruct c end; store_fields; now rewrite He. }
  destruct (String.eqb (Experiment.id e) "physical-chemical").
  { unfold checkPhysicalChemical.
    destruct (String.eqb key "ice+heat"); [store_fields; rewrite He; now repeat split|].
    destruct (String.eqb key "paper+heat"); [store_fields; rewrite He; now repeat split|].
    destruct (String.eqb key "magnesium+heat");
      [|store_fields; rewrite He; now repeat split].
    destruct (negb (includes (completedExperiments s) (Experiment.id e)));
      store_fields; rewrite He; now repeat split. }
  destruct (success rx && negb (includes (completedExperiments s) (Experiment.id e)));
    store_fields; now rewrite He.
Qed.

(* ===================================================================== *)
(** ** Heating *)
(* ===================================================================== *)

Module HeatingFacts.
Import HeatingSystem.
Local Open Scope R_scope.

Lemma distance_nonneg position : 0 <= distance position.
Proof. destruct position as [[x y] z]. unfold distance, heatingZone. apply sqrt_pos. Qed.

Lemma heatingRate_range d :
  0 <= d -> d < heatingDistance -> 0 < heatingRate d <= 15.
Proof.
  unfold heatingRate, heatingDistance. intros H0 H1.
  assert (Hq : d / (7 / 10) = d * (10 / 7)) by (field; lra).
  rewrite Hq. lra.
Qed.

Lemma heatingRate_linear d1 d2 :
  heatingRate d1 - heatingRate d2 = 15 / heatingDistance * (d2 - d1).
Proof. unfold heatingRate, heatingDistance. field. Qed.

Lemma cooling_step temperature delta rate :
  0 <= delta -> 0 <= rate -> 25 < temperature ->
  25 <= Rmax 25 (temperature - delta * rate) <= temperature.
Proof.
  intros Hd Hr Ht. split; [apply Rmax_l|].
  apply Rmax_lub; [lra|]. assert (0 <= delta * rate) by now apply Rmult_le_pos. lra.
Qed.

Lemma temperatureAfter_cases (delta : R) (position : R * R * R) (temperature : R) :
  0 <= delta ->
  let d := distance position in
  (d < heatingDistance ->
     temperatureAfter true delta position temperature
       = Rmin 120 (temperature + delta * heatingRate d) /\
     0 < heatingRate d <= 15 /\
     (forall d', heatingRate d - heatingRate d' = 15 / heatingDistance * (d' - d)) /\
     (temperature <= 120 ->
        temperature <= temperatureAfter true delta position temperature <= 120)) /\
  (heatingDistance <= d ->
     (25 < temperature ->
        temperatureAfter true delta position temperature
          = Rmax 25 (temperature - delta * 3) /\
        25 <= temperatureAfter true delta position temperature <= temperature) /\
     (temperature <= 25 ->
        temperatureAfter true delta position temperature = temperature)) /\
  ((25 < temperature ->
      temperatureAfter false delta position temperature
        = Rmax 25 (temperature - delta * 5) /\
      25 <= temperatureAfter false delta position temperature <= temperature) /\
   (temperature <= 25 ->
      temperatureAfter false delta position temperature = temperature)).
Proof.
  intros Hdelta d. subst d. unfold temperatureAfter, useFrame. cbn [negb].
  split; [|split].
  - intros Hd. destruct (Rlt_dec (distance position) heatingDistance); [|lra].
    pose proof (heatingRate_range _ (distance_nonneg position) Hd) as Hrate.
    split; [reflexivity|]. split; [exact Hrate|].
    split; [intros d'; apply heatingRate_linear|].
    intros Hcap.
    assert (0 <= delta * heatingRate (distance position))
      by (apply Rmult_le_pos; lra).
    split.
    + apply Rmin_glb; lra.
    + apply Rmin_l.
  - intros Hd. destruct (Rlt_dec (distance position) heatingDistance); [lra|].
    split.
    + intros Ht. destruct (Rlt_dec 25 temperature); [|lra].
      split; [reflexivity|]. apply cooling_step; lra.
    + intros Ht. destruct (Rlt_dec 25 temperature); [lra | reflexivity].
  - split.
    + intros Ht. destruct (Rlt_dec 25 temperature); [|lra].
      split; [reflexivity|]. apply cooling_step; lra.
    + intros Ht. destruct (Rlt_dec 25 temperature); [lra | reflexivity].
Qed.

(** C9.  One frame gives every vessel of the store a temperature [T'].
    With the burner on, a vessel closer to the heating zone than
    [heatingDistance] gets [min(120, temperature + delta * rate)], where the
    rate [15 * (1 - distance / heatingDistance)] is positive, at most 15
    and decreases linearly with the distance; so a temperature below the
    cap rises without passing the cap.  A vessel at or beyond the radius
    with the burner on, and any vessel with the burner off, gets
    [max(25, temperature - delta * k)] when it is warmer than 25 degrees,
    with the constant [k] = 3 and 5 in the two cases, and keeps its
    temperature otherwise. *)
Theorem heating_tick (delta : R) (state : LabStore) (id : string) (v : LabVessel.t) :
  0 <= delta ->
  vessels state !! id = Some v ->
  let d := distance (realPosition v) in
  let T := realTemperature v in
  exists T',
    tick delta state !! id = Some T' /\
    (bunsenBurnerOn state = true -> d < heatingDistance ->
       T' = Rmin 120 (T + delta * heatingRate d) /\
       0 < heatingRate d <= 15 /\
       (forall d', heatingRate d - heatingRate d' = 15 / heatingDistance * (d' - d)) /\
       (T <= 120 -> T <= T' <= 120)) /\
    (bunsenBurnerOn state = true -> heatingDistance <= d ->
       (25 < T -> T' = Rmax 25 (T - delta * 3) /\ 25 <= T' <= T) /\
       (T <= 25 -> T' = T)) /\
    (bunsenBurnerOn state = false ->
       (25 < T -> T' = Rmax 25 (T - delta * 5) /\ 25 <= T' <= T) /\
       (T <= 25 -> T' = T)).
Proof.
  intros Hdelta Hv d T.
  destruct (temperatureAfter_cases delta (realPosition v) T Hdelta) as [Hin [Hout Hoff]].
  eexists. split.
  - unfold tick. rewrite lookup_fmap, Hv. reflexivity.
  - fold T d. split; [|split].
    + intros -> Hd. exact (Hin Hd).
    + intros -> Hd. exact (Hout Hd).
    + intros ->. exact Hoff.
Qed.

Lemma Q2R_0 : Q2R 0 = 0.
Proof. unfold Q2R. cbn. lra. Qed.

Lemma Q2R_2 : Q2R 2 = 2.
Proof. unfold Q2R. cbn. lra. Qed.

Lemma Q2R_25 : Q2R 25 = 25.
Proof. unfold Q2R. cbn. lra. Qed.

Lemma distance_on_tripod y : distance (0, y, 2) = 0.
Proof.
  unfold distance, heatingZone.
  replace ((0 - 0) * (0 - 0) + (2 - 2) * (2 - 2)) with 0 by ring.
  apply sqrt_0.
Qed.

Lemma heating_tick_witness :
  exists v T',
    vessels heatedBench !! "beaker_1" = Some v /\
    tick 1 heatedBench !! "beaker_1" = Some T' /\
    T' = Rmin 120 (realTemperature v + 1 * heatingRate (distance (realPosition v))) /\
    realTemperature v <= T' <= 120.
Proof.
  eexists. 
  assert (Hv : vessels heatedBench !! "beaker_1"
               = Some (LabVessel.mk "beaker_1" None beaker 250 0 0 25 []
                         (vec3 0 1 2)))
    by (vm_compute; reflexivity).
  assert (H01 : 0 <= 1) by lra.
  destruct (heating_tick 1 heatedBench "beaker_1" _ H01 Hv) as [T' [Ht [Hin _]]].
  assert (Hd : distance (realPosition (LabVessel.mk "beaker_1" None beaker 250 0 0 25 []
                                         (vec3 0 1 2))) < heatingDistance).
  { unfold realPosition, vec3. cbn [LabVessel.position].
    rewrite Q2R_0, Q2R_2, distance_on_tripod. unfold heatingDistance. lra. }
  destruct (Hin eq_refl Hd) as [E [_ [_ Hrise]]].
  exists T'. split; [exact Hv|]. split; [exact Ht|]. split; [exact E|].
  apply Hrise. unfold realTemperature. cbn [LabVessel.temperature].
  rewrite Q2R_25. lra.
Defined.

End HeatingFacts.

(* ===================================================================== *)
(** ** Filling, clearing and the bounds of a vessel *)
(* ===================================================================== *)

Lemma totalVolume_cons c l : totalVolume (c :: l) = volume c + totalVolume l.
Proof. reflexivity. Qed.

Lemma totalVolume_nil : totalVolume [] = 0.
Proof. reflexivity. Qed.

Lemma totalVolume_app l1 l2 : totalVolume (l1 ++ l2) == totalVolume l1 + totalVolume l2.
Proof.
  induction l1 as [|c l1 IH].
  - cbn [app]. rewrite totalVolume_nil. Lqa.lra.
  - cbn [app]. rewrite !totalVolume_cons, IH. Lqa.lra.
Qed.

Lemma totalVolume_merge_one l t :
  totalVolume (merge_one l t) == totalVolume l + volume t.
Proof.
  induction l as [|x l IH].
  - unfold merge_one. cbn [findIndex app]. rewrite !totalVolume_cons, totalVolume_nil.
    Lqa.lra.
  - rewrite merge_one_cons.
    destruct (same_chemical (Chemical.id (chemical t)) x).
    + rewrite !totalVolume_cons. unfold add_volume. cbn [volume]. Lqa.lra.
    + rewrite !totalVolume_cons, IH. Lqa.lra.
Qed.

(** What [fillVessel] writes when it adds something. *)
Lemma fillVessel_adds vesselId chem requested state vessel :
  vessels state !! vesselId = Some vessel ->
  let newVolume := Qmin (cv vessel + requested) (LabVessel.capacity vessel) in
  0 < newVolume - cv vessel ->
  fst (fillVessel vesselId chem requested state)
  = set_vessels
      (<[vesselId :=
           LabVessel.with_contents
             (merge_one (LabVessel.contents vessel)
                (mkContents chem (newVolume - cv vessel)))
             (LabVessel.with_currentVolume newVolume vessel)]> (vessels state))
      state.
Proof.
  intros Hv newVolume Hpos. unfold fillVessel. rewrite Hv. fold newVolume.
  apply Qleb_false in Hpos. rewrite Hpos. reflexivity.
Qed.

Lemma fillVessel_missing vesselId chem requested state :
  vessels state !! vesselId = None ->
  fillVessel vesselId chem requested state = (state, []).
Proof. intros Hv. unfold fillVessel. now rewrite Hv. Qed.

Lemma fillVessel_nothing vesselId chem requested state vessel :
  vessels state !! vesselId = Some vessel ->
  Qmin (cv vessel + requested) (LabVessel.capacity vessel) - cv vessel <= 0 ->
  fillVessel vesselId chem requested state = (state, []).
Proof.
  intros Hv Hle. unfold fillVessel. rewrite Hv.
  apply Qleb_true in Hle. now rewrite Hle.
Qed.

(** X1.  [fillVessel] on a missing vessel, or when nothing fits or nothing
    positive is asked for, returns the store unchanged and sets no timer.
    Otherwise the vessel ends at [min(currentVolume + volume, capacity)],
    which is more than before and at most the capacity, and no other vessel
    changes. *)
Theorem fillVessel_clamps vesselId chem requested state :
  (vessels state !! vesselId = None ->
   fillVessel vesselId chem requested state = (state, [])) /\
  (forall vessel,
     vessels state !! vesselId = Some vessel ->
     let newVolume := Qmin (cv vessel + requested) (LabVessel.capacity vessel) in
     (newVolume - cv vessel <= 0 ->
      fillVessel vesselId chem requested state = (state, [])) /\
     (0 < newVolume - cv vessel ->
      let state' := fst (fillVessel vesselId chem requested state) in
      (exists vessel',
         vessels state' !! vesselId = Some vessel' /\
         cv vessel' = newVolume /\
         cv vessel < cv vessel' /\
         cv vessel' <= LabVessel.capacity vessel' /\
         cv vessel' - cv vessel <= requested /\
         LabVessel.capacity vessel' = LabVessel.capacity vessel) /\
      (forall other, other <> vesselId ->
         vessels state' !! other = vessels state !! other))).
Proof.
  split.
  - apply fillVessel_missing.
  - intros vessel Hv newVolume. split.
    + apply fillVessel_nothing. exact Hv.
    + intros Hpos state'. subst state'.
      rewrite (fillVessel_adds _ _ _ _ _ Hv Hpos). cbn [vessels set_vessels].
      split.
      * eexists. split; [apply lookup_insert_eq|].
        cbn [LabVessel.currentVolume LabVessel.capacity LabVessel.with_contents
             LabVessel.with_currentVolume].
        fold newVolume.
        pose proof (Q.le_min_r (cv vessel + requested) (LabVessel.capacity vessel)).
        pose proof (Q.le_min_l (cv vessel + requested) (LabVessel.capacity vessel)).
        fold newVolume in H, H0.
        repeat split; try assumption; try reflexivity; Lqa.lra.
      * intros other Hne. now rewrite lookup_insert_ne by congruence.
Qed.

Lemma fillVessel_clamps_witness :
  exists vessel',
    vessels (fst (fillVessel "beaker_1" CHEMICALS.water 1000 (initialStore [])))
      !! "beaker_1" = Some vessel' /\
    cv vessel' = Qmin (0 + 1000) 500 /\
    0 < cv vessel' /\
    cv vessel' <= LabVessel.capacity vessel' /\
    cv vessel' - 0 <= 1000 /\
    LabVessel.capacity vessel' = 500.
Proof.
  apply (proj2 (fillVessel_clamps "beaker_1" CHEMICALS.water 1000 (initialStore []))
           (emptyVessel "beaker_1" beaker 500 (vec3 (-1.2) 0 0)));
    reflexivity.
Defined.

(** X2.  A fill that adds the amount [added] merges one entry of that
    volume into the contents by chemical id: the amount of the filled
    chemical and the sum of all entries grow by [added], the amount of every
    other chemical stays, and no id gets a second entry. *)
Theorem fillVessel_merges vesselId chem requested state vessel :
  vessels state !! vesselId = Some vessel ->
  let added :=
    Qmin (cv vessel + requested) (LabVessel.capacity vessel) - cv vessel in
  0 < added ->
  exists vessel',
    vessels (fst (fillVessel vesselId chem requested state)) !! vesselId = Some vessel' /\
    amountOf (Chemical.id chem) (LabVessel.contents vessel')
      == amountOf (Chemical.id chem) (LabVessel.contents vessel) + added /\
    (forall id, id <> Chemical.id chem ->
       amountOf id (LabVessel.contents vessel')
       == amountOf id (LabVessel.contents vessel)) /\
    totalVolume (LabVessel.contents vessel')
      == totalVolume (LabVessel.contents vessel) + added /\
    (totalVolume (LabVessel.contents vessel) == cv vessel ->
     totalVolume (LabVessel.contents vessel') == cv vessel') /\
    (List.NoDup (chemicalIds (LabVessel.contents vessel)) ->
     List.NoDup (chemicalIds (LabVessel.contents vessel'))).
Proof.
  intros Hv added Hpos.
  rewrite (fillVessel_adds _ _ _ _ _ Hv Hpos). cbn [vessels set_vessels].
  eexists. split; [apply lookup_insert_eq|].
  cbn [LabVessel.contents LabVessel.currentVolume LabVessel.with_contents
       LabVessel.with_currentVolume].
  fold added.
  split; [|split; [|split; [|split]]].
  - rewrite merge_one_amount. unfold same_chemical. cbn [chemical volume].
    rewrite String.eqb_refl. reflexivity.
  - intros id Hne. rewrite merge_one_amount. unfold same_chemical. cbn [chemical volume].
    apply not_eq_sym, String.eqb_neq in Hne. rewrite Hne. Lqa.lra.
  - rewrite totalVolume_merge_one. reflexivity.
  - intros Hsum. rewrite totalVolume_merge_one, Hsum. cbn [volume]. unfold added.
    Lqa.lra.
  - apply merge_one_NoDup.
Qed.

Lemma fillVessel_merges_witness :
  exists vessel',
    vessels (fst (fillVessel "beaker_1" CHEMICALS.water 50 waterBench)) !! "beaker_1"
      = Some vessel' /\
    amountOf "water" (LabVessel.contents vessel') == 100 + 50 /\
    totalVolume (LabVessel.contents vessel') == cv vessel' /\
    List.NoDup (chemicalIds (LabVessel.contents vessel')).
Proof.
  assert (Hv : vessels waterBench !! "beaker_1"
               = Some (LabVessel.mk "beaker_1" None beaker 500 100 0 25
                         [mkContents CHEMICALS.water 100] (vec3 (-1.2) 0 0)))
    by (vm_compute; reflexivity).
  destruct (fillVessel_merges "beaker_1" CHEMICALS.water 50 waterBench _ Hv eq_refl)
    as [vessel' [H1 [H2 [_ [_ [H5 H6]]]]]].
  exists vessel'. split; [exact H1|]. split; [|split].
  - rewrite H2. reflexivity.
  - apply H5. reflexivity.
  - apply H6. cbn. repeat constructor. intros [].
Defined.

(* ===================================================================== *)
(** ** The store stays within the capacities *)
(* ===================================================================== *)

Lemma bounded_insert (m : gmap string LabVessel.t) (P : LabVessel.t -> Prop) id v :
  (forall i w, m !! i = Some w -> P w) -> P v ->
  forall i w, <[id := v]> m !! i = Some w -> P w.
Proof.
  intros Hm Hv i w H.
  destruct (decide (id = i)) as [->|Hne].
  - rewrite lookup_insert_eq in H. now inversion H; subst.
  - rewrite lookup_insert_ne in H by exact Hne. eauto.
Qed.

Lemma withinCapacity_initial storedCompleted : withinCapacity (initialStore storedCompleted).
Proof.
  intros id v H. cbn [vessels initialStore] in H.
  repeat (apply lookup_insert_Some in H; destruct H as [[_ <-]|[_ H]];
          [cbn; split; discriminate|]).
  now rewrite lookup_empty in H.
Qed.

Lemma withinCapacity_fill vesselId chem requested state :
  withinCapacity state -> withinCapacity (fst (fillVessel vesselId chem requested state)).
Proof.
  intros Hw.
  destruct (vessels state !! vesselId) as [vessel|] eqn:Hv.
  - destruct (Qlt_le_dec 0
                (Qmin (cv vessel + requested) (LabVessel.capacity vessel) - cv vessel))
      as [Hpos|Hle].
    + rewrite (fillVessel_adds _ _ _ _ _ Hv Hpos).
      unfold withinCapacity. cbn [vessels set_vessels].
      apply bounded_insert; [exact Hw|].
      cbn [LabVessel.currentVolume LabVessel.capacity LabVessel.with_contents
           LabVessel.with_currentVolume].
      destruct (Hw _ _ Hv) as [H0 H1].
      pose proof (Q.le_min_r (cv vessel + requested) (LabVessel.capacity vessel)).
      split; [Lqa.lra | assumption].
    + now rewrite (fillVessel_nothing _ _ _ _ _ Hv Hle).
  - rewrite (fillVessel_missing _ _ _ _ Hv). exact Hw.
Qed.

Lemma withinCapacity_transfer sourceId targetId requested state :
  withinCapacity state ->
  withinCapacity (fst (transferLiquid sourceId targetId requested state)).
Proof.
  intros Hw.
  destruct (vessels state !! sourceId) as [src|] eqn:HS;
    [|unfold transferLiquid; rewrite HS; exact Hw].
  destruct (vessels state !! targetId) as [tgt|] eqn:HT;
    [|unfold transferLiquid; rewrite HS, HT; exact Hw].
  destruct (transferLiquid_outcome sourceId targetId requested state src tgt HS HT)
    as [_ Heq | Hs Ha E1 E2].
  - rewrite Heq. exact Hw.
  - destruct (Hw _ _ HS) as [S0 S1]. destruct (Hw _ _ HT) as [T0 T1].
    pose proof (actualTransfer_le_available requested src tgt) as A1.
    pose proof (actualTransfer_le_space requested src tgt) as A2.
    assert (PS : 0 <= cv (pouredSource (actualTransfer requested src tgt) src)
                 /\ cv (pouredSource (actualTransfer requested src tgt) src)
                    <= LabVessel.capacity
                         (pouredSource (actualTransfer requested src tgt) src)).
    { unfold pouredSource.
      cbn [LabVessel.currentVolume LabVessel.capacity LabVessel.with_contents
           LabVessel.with_currentVolume]. split; Lqa.lra. }
    assert (PT : 0 <= cv (pouredTarget (actualTransfer requested src tgt) src tgt)
                 /\ cv (pouredTarget (actualTransfer requested src tgt) src tgt)
                    <= LabVessel.capacity
                         (pouredTarget (actualTransfer requested src tgt) src tgt)).
    { unfold pouredTarget.
      cbn [LabVessel.currentVolume LabVessel.capacity LabVessel.with_contents
           LabVessel.with_currentVolume]. split; Lqa.lra. }
    destruct (String.eqb targetId "collection_beaker") eqn:Ec.
    + apply String.eqb_eq in Ec. subst targetId.
      rewrite (transferLiquid_collection _ _ _ _ _ HS HT E1 E2).
      unfold withinCapacity. cbn [vessels set_vessels].
      apply bounded_insert; [|split; assumption].
      apply bounded_insert; [|exact PT].
      apply bounded_insert; [exact Hw|exact PS].
    + apply String.eqb_neq in Ec.
      rewrite (transferLiquid_plain _ _ _ _ _ _ HS HT E1 E2 Ec).
      unfold withinCapacity. cbn [vessels set_vessels].
      apply bounded_insert; [|exact PT].
      apply bounded_insert; [exact Hw|exact PS].
Qed.

(** X3.  No vessel ever holds less than nothing or more than its capacity:
    the initial store has this property, and [fillVessel], [transferLiquid]
    (any source, target and amount, also towards the collection beaker or
    onto itself), [clearVessel], [applyReaction] and
    [updateVesselTemperature] keep it. *)
Theorem capacity_is_respected state :
  withinCapacity state ->
  (forall vesselId chem requested,
     withinCapacity (fst (fillVessel vesselId chem requested state))) /\
  (forall sourceId targetId requested,
     withinCapacity (fst (transferLiquid sourceId targetId requested state))) /\
  (forall vesselId, withinCapacity (clearVessel vesselId state)) /\
  (forall now counter vesselId r,
     withinCapacity (fst (applyReaction now counter vesselId r state))) /\
  (forall vesselId temperature,
     withinCapacity (updateVesselTemperature vesselId temperature state)).
Proof.
  intros Hw. split; [|split; [|split; [|split]]].
  - intros. now apply withinCapacity_fill.
  - intros. now apply withinCapacity_transfer.
  - intros vesselId. unfold clearVessel.
    destruct (vessels state !! vesselId) as [vessel|] eqn:Hv; [|exact Hw].
    unfold withinCapacity. cbn [vessels set_vessels].
    apply bounded_insert; [exact Hw|].
    destruct (Hw _ _ Hv) as [H0 H1]. cbn. split; Lqa.lra.
  - intros now counter vesselId r. unfold applyReaction.
    destruct (vessels state !! vesselId) as [vessel|] eqn:Hv; [|exact Hw].
    unfold withinCapacity. store_fields.
    apply bounded_insert; [exact Hw|].
    destruct (Hw _ _ Hv) as [H0 H1]. cbn. split; assumption.
  - intros vesselId temperature. unfold updateVesselTemperature.
    destruct (vessels state !! vesselId) as [vessel|] eqn:Hv; [|exact Hw].
    unfold withinCapacity. cbn [vessels set_vessels].
    apply bounded_insert; [exact Hw|].
    destruct (Hw _ _ Hv) as [H0 H1]. cbn. split; assumption.
Qed.

Lemma capacity_is_respected_witness :
  withinCapacity (initialStore []) /\
  withinCapacity (fst (transferLiquid "beaker_1" "beaker_1" 600
                         (fst (fillVessel "beaker_1" CHEMICALS.water 300 (initialStore []))))).
Proof.
  split; [apply withinCapacity_initial|].
  apply (proj1 (proj2 (capacity_is_respected
                  (fst (fillVessel "beaker_1" CHEMICALS.water 300 (initialStore [])))
                  (proj1 (capacity_is_respected (initialStore [])
                            (withinCapacity_initial []))
                     "beaker_1" CHEMICALS.water 300)))).
Defined.

Lemma set_vessels_same state : set_vessels (vessels state) state = state.
Proof. now destruct state. Qed.

(** X4.  [transferLiquid] changes no vessel other than the two it names,
    and unless the target is the collection beaker it changes nothing of the
    store but the vessels. *)
Theorem transferLiquid_frame sourceId targetId requested state :
  let state' := fst (transferLiquid sourceId targetId requested state) in
  (forall other, other <> sourceId -> other <> targetId ->
     vessels state' !! other = vessels state !! other) /\
  (targetId <> "collection_beaker" -> state' = set_vessels (vessels state') state).
Proof.
  intros state'. subst state'.
  destruct (vessels state !! sourceId) as [src|] eqn:HS;
    [|unfold transferLiquid; rewrite HS; cbn [fst];
      split; [reflexivity | now rewrite set_vessels_same]].
  destruct (vessels state !! targetId) as [tgt|] eqn:HT;
    [|unfold transferLiquid; rewrite HS, HT; cbn [fst];
      split; [reflexivity | now rewrite set_vessels_same]].
  destruct (transferLiquid_outcome sourceId targetId requested state src tgt HS HT)
    as [_ Heq | Hs Ha E1 E2].
  - rewrite Heq. cbn [fst]. split; [reflexivity | now rewrite set_vessels_same].
  - split.
    + intros other H1 H2.
      destruct (String.eqb targetId "collection_beaker") eqn:Ec.
      * apply String.eqb_eq in Ec. subst targetId.
        rewrite (transferLiquid_collection _ _ _ _ _ HS HT E1 E2).
        cbn [vessels set_vessels].
        now rewrite !lookup_insert_ne by congruence.
      * apply String.eqb_neq in Ec.
        rewrite (transferLiquid_plain _ _ _ _ _ _ HS HT E1 E2 Ec).
        cbn [vessels set_vessels].
        now rewrite !lookup_insert_ne by congruence.
    + intros Hne.
      rewrite (transferLiquid_plain _ _ _ _ _ _ HS HT E1 E2 Hne).
      reflexivity.
Qed.

Lemma transferLiquid_frame_witness :
  fst (transferLiquid "beaker_1" "beaker_2" 40 waterBench)
  = set_vessels (vessels (fst (transferLiquid "beaker_1" "beaker_2" 40 waterBench)))
      waterBench.
Proof.
  apply (proj2 (transferLiquid_frame "beaker_1" "beaker_2" 40 waterBench)).
  discriminate.
Defined.

(** X5.  [clearVessel] leaves an unknown id alone; a cleared vessel is empty
    at volume 0 and upright, clearing it again changes nothing, and no later
    [transferLiquid] out of it moves anything, whatever the target and the
    amount. *)
Theorem cleared_vessel_gives_nothing vesselId state :
  (vessels state !! vesselId = None -> clearVessel vesselId state = state) /\
  (forall vessel, vessels state !! vesselId = Some vessel ->
     let state' := clearVessel vesselId state in
     (exists vessel',
        vessels state' !! vesselId = Some vessel' /\
        cv vessel' = 0 /\ LabVessel.contents vessel' = [] /\
        LabVessel.tiltAngle vessel' = 0 /\
        LabVessel.capacity vessel' = LabVessel.capacity vessel) /\
     clearVessel vesselId state' = state' /\
     (forall targetId requested,
        transferLiquid vesselId targetId requested state' = (state', []))).
Proof.
  split.
  - intros Hv. unfold clearVessel. now rewrite Hv.
  - intros vessel Hv state'.
    assert (Hs : state'
                 = set_vessels
                     (<[vesselId :=
                          LabVessel.with_tiltAngle 0
                            (LabVessel.with_contents []
                               (LabVessel.with_currentVolume 0 vessel))]> (vessels state))
                     state)
      by (unfold state', clearVessel; now rewrite Hv).
    assert (Hl : vessels state' !! vesselId
                 = Some (LabVessel.with_tiltAngle 0
                           (LabVessel.with_contents []
                              (LabVessel.with_currentVolume 0 vessel))))
      by (rewrite Hs; cbn [vessels set_vessels]; apply lookup_insert_eq).
    split; [|split].
    + eexists. split; [exact Hl|]. now destruct vessel.
    + unfold clearVessel at 1. rewrite Hl. rewrite Hs at 1 2.
      cbn [vessels set_vessels]. rewrite insert_insert_eq.
      rewrite Hs. now destruct vessel, state.
    + intros targetId requested. unfold transferLiquid. rewrite Hl.
      destruct (vessels state' !! targetId); [|reflexivity].
      now destruct vessel.
Qed.

Lemma cleared_vessel_gives_nothing_witness :
  transferLiquid "beaker_1" "beaker_2" 50 (clearVessel "beaker_1" waterBench)
  = (clearVessel "beaker_1" waterBench, []).
Proof.
  assert (Hv : vessels waterBench !! "beaker_1"
               = Some (LabVessel.mk "beaker_1" None beaker 500 100 0 25
                         [mkContents CHEMICALS.water 100] (vec3 (-1.2) 0 0)))
    by (vm_compute; reflexivity).
  apply (proj2 (proj2 (proj2 (cleared_vessel_gives_nothing "beaker_1" waterBench) _ Hv))).
Defined.

(* ===================================================================== *)
(** ** The filtration buffer *)
(* ===================================================================== *)

Lemma find_water_includes l :
  (exists c, List.find (same_chemical "water") l = Some c)
  <-> includes (chemicalIds l) "water" = true.
Proof.
  induction l as [|x l IH].
  - cbn. split; [intros [c H]; discriminate | discriminate].
  - rewrite chemicalIds_cons, includes_cons. cbn [List.find].
    unfold same_chemical at 1. rewrite (String.eqb_sym "water").
    destruct (String.eqb (Chemical.id (chemical x)) "water").
    + cbn. split; eauto.
    + cbn [orb]. exact IH.
Qed.

Lemma chemicalIds_addToWater f l :
  chemicalIds (List.map (addToWater f) l) = chemicalIds l.
Proof.
  unfold chemicalIds. rewrite List.map_map. apply List.map_ext.
  intros c. unfold addToWater. now destruct (same_chemical "water" c).
Qed.

Lemma amountOf_addToWater_other f id l :
  id <> "water" ->
  amountOf id (List.map (addToWater f) l) == amountOf id l.
Proof.
  intros Hne. induction l as [|x l IH]; [reflexivity|].
  cbn [List.map]. rewrite !amountOf_cons, IH.
  unfold addToWater, same_chemical.
  destruct (String.eqb (Chemical.id (chemical x)) "water") eqn:E.
  - apply String.eqb_eq in E. cbn [add_volume chemical volume]. rewrite E.
    apply not_eq_sym, String.eqb_neq in Hne. rewrite Hne. Lqa.lra.
  - reflexivity.
Qed.

Lemma addToWater_absent f l :
  includes (chemicalIds l) "water" = false ->
  List.map (addToWater f) l = l.
Proof.
  induction l as [|x l IH]; [reflexivity|].
  rewrite chemicalIds_cons, includes_cons. intros H.
  apply orb_false_iff in H. destruct H as [H1 H2].
  cbn [List.map]. rewrite (IH H2). unfold addToWater, same_chemical.
  rewrite String.eqb_sym, H1. reflexivity.
Qed.

Lemma addToWater_once f l :
  List.NoDup (chemicalIds l) ->
  includes (chemicalIds l) "water" = true ->
  amountOf "water" (List.map (addToWater f) l) == amountOf "water" l + f /\
  totalVolume (List.map (addToWater f) l) == totalVolume l + f.
Proof.
  induction l as [|x l IH]; [discriminate|].
  rewrite chemicalIds_cons, includes_cons. intros Hnd Hin.
  inversion Hnd as [|? ? Hx Hl]; subst.
  cbn [List.map]. rewrite !amountOf_cons, !totalVolume_cons.
  destruct (String.eqb "water" (Chemical.id (chemical x))) eqn:E.
  - apply String.eqb_eq in E.
    assert (Hab : includes (chemicalIds l) "water" = false).
    { destruct (includes (chemicalIds l) "water") eqn:Ei; [|reflexivity].
      exfalso. apply Hx. rewrite <- E. now apply includes_In. }
    rewrite (addToWater_absent f l Hab).
    assert (Hw : same_chemical "water" x = true)
      by (unfold same_chemical; rewrite <- E; reflexivity).
    unfold addToWater. rewrite Hw.
    assert (Hw' : same_chemical "water" (add_volume f x) = true) by exact Hw.
    rewrite Hw'. cbn [add_volume volume]. split; Lqa.lra.
  - cbn [orb] in Hin. destruct (IH Hl Hin) as [IH1 IH2]. rewrite IH1, IH2.
    assert (Hw : same_chemical "water" x = false)
      by (unfold same_chemical; now rewrite String.eqb_sym).
    unfold addToWater. rewrite Hw. cbv iota. rewrite ?Hw.
    split; Lqa.lra.
Qed.

(** The store after an [addFiltrate] that moves something. *)
Lemma addFiltrate_moves requested state col :
  vessels state !! "collection_beaker" = Some col ->
  0 < pendingFiltrationVolume state ->
  0 < Qmin requested (pendingFiltrationVolume state) ->
  addFiltrate requested state
  = set_vessels
      (<["collection_beaker" :=
           LabVessel.with_contents
             (match List.find (same_chemical "water") (LabVessel.contents col) with
              | Some _ =>
                  List.map (addToWater (Qmin requested (pendingFiltrationVolume state)))
                    (LabVessel.contents col)
              | None =>
                  LabVessel.contents col
                    ++ [mkContents clearWater
                          (Qmin requested (pendingFiltrationVolume state))]
              end)
             (LabVessel.with_currentVolume
                (cv col + Qmin requested (pendingFiltrationVolume state)) col)]>
         (vessels state))
      (set_pendingFiltrationVolume
         (pendingFiltrationVolume state - Qmin requested (pendingFiltrationVolume state))
         state).
Proof.
  intros Hc Hp Hm. unfold addFiltrate. rewrite Hc.
  apply Qleb_false in Hp. rewrite Hp. apply Qleb_false in Hm. rewrite Hm.
  reflexivity.
Qed.

Lemma addFiltrate_nothing requested state :
  (vessels state !! "collection_beaker" = None
   \/ pendingFiltrationVolume state <= 0
   \/ Qmin requested (pendingFiltrationVolume state) <= 0) ->
  addFiltrate requested state = state.
Proof.
  intros H. unfold addFiltrate.
  destruct (vessels state !! "collection_beaker") as [col|]; [|reflexivity].
  destruct H as [H|[H|H]]; [discriminate| |].
  - apply Qleb_true in H. now rewrite H.
  - destruct (Qleb (pendingFiltrationVolume state) 0); [reflexivity|].
    apply Qleb_true in H. now rewrite H.
Qed.

Lemma filtrateMoved_cases requested pending :
  (0 < pending /\ 0 < Qmin requested pending
   /\ filtrateMoved requested pending == Qmin requested pending)
  \/ ((pending <= 0 \/ Qmin requested pending <= 0)
      /\ filtrateMoved requested pending == 0).
Proof.
  unfold filtrateMoved.
  pose proof (Q.le_min_r requested pending) as Hr.
  destruct (Qlt_le_dec 0 (Qmin requested pending)) as [Hm|Hm].
  - left. split; [Lqa.lra|]. split; [exact Hm|].
    apply Q.max_r. Lqa.lra.
  - right. split; [now right|]. apply Q.max_l. exact Hm.
Qed.

(** What the funnel needs of [addFiltrate]: the buffer, and the volume and
    the water of the collection beaker. *)
Lemma addFiltrate_collection requested state col :
  vessels state !! "collection_beaker" = Some col ->
  pendingFiltrationVolume (addFiltrate requested state)
    == pendingFiltrationVolume state
       - filtrateMoved requested (pendingFiltrationVolume state) /\
  (0 <= pendingFiltrationVolume state ->
   0 <= pendingFiltrationVolume (addFiltrate requested state)) /\
  exists col',
    vessels (addFiltrate requested state) !! "collection_beaker" = Some col' /\
    cv col' == cv col + filtrateMoved requested (pendingFiltrationVolume state) /\
    (LabVessel.contents col = [] ->
     amountOf "water" (LabVessel.contents col')
       == filtrateMoved requested (pendingFiltrationVolume state)).
Proof.
  intros Hc.
  destruct (filtrateMoved_cases requested (pendingFiltrationVolume state))
    as [[Hp [Hm Heq]]|[Hno Heq]].
  - rewrite (addFiltrate_moves _ _ _ Hc Hp Hm). store_fields.
    rewrite lookup_insert_eq.
    pose proof (Q.le_min_r requested (pendingFiltrationVolume state)) as Hr.
    split; [rewrite Heq; reflexivity|]. split; [intros _; Lqa.lra|].
    eexists. split; [reflexivity|].
    cbn [LabVessel.currentVolume LabVessel.contents LabVessel.with_contents
         LabVessel.with_currentVolume].
    split; [rewrite Heq; reflexivity|].
    intros He. rewrite He. cbn [List.find app].
    rewrite amountOf_cons, amountOf_nil, Heq.
    unfold same_chemical. cbn [chemical volume clearWater Chemical.id String.eqb].
    cbn. Lqa.lra.
  - rewrite (addFiltrate_nothing requested state)
      by (destruct Hno as [H|H]; [right; left|right; right]; exact H).
    split; [rewrite Heq; Lqa.lra|]. split; [tauto|].
    exists col. split; [exact Hc|]. rewrite Heq. split; [Lqa.lra|].
    intros He. rewrite He, amountOf_nil. Lqa.lra.
Qed.

(** X6.  [addFiltrate] moves [max(0, min(volume, pending))] from the buffer
    into the collection beaker, whatever the beaker's capacity: the buffer
    shrinks and the beaker's volume grows by exactly that amount, so their
    sum is kept and the buffer never becomes negative; only water is added;
    when no id occurs twice in the beaker, its amount of water and the sum
    of its entries grow by that amount as well.  Without a collection beaker
    the call changes nothing. *)
Theorem addFiltrate_drains_buffer requested state :
  (vessels state !! "collection_beaker" = None ->
   addFiltrate requested state = state) /\
  (forall col, vessels state !! "collection_beaker" = Some col ->
     let moved := filtrateMoved requested (pendingFiltrationVolume state) in
     let state' := addFiltrate requested state in
     pendingFiltrationVolume state' == pendingFiltrationVolume state - moved /\
     (0 <= pendingFiltrationVolume state -> 0 <= pendingFiltrationVolume state') /\
     exists col',
       vessels state' !! "collection_beaker" = Some col' /\
       cv col' == cv col + moved /\
       cv col' + pendingFiltrationVolume state'
         == cv col + pendingFiltrationVolume state /\
       LabVessel.capacity col' = LabVessel.capacity col /\
       (forall id, id <> "water" ->
          amountOf id (LabVessel.contents col') == amountOf id (LabVessel.contents col)) /\
       (List.NoDup (chemicalIds (LabVessel.contents col)) ->
          amountOf "water" (LabVessel.contents col')
            == amountOf "water" (LabVessel.contents col) + moved /\
          totalVolume (LabVessel.contents col')
            == totalVolume (LabVessel.contents col) + moved /\
          List.NoDup (chemicalIds (LabVessel.contents col')))).
Proof.
  split.
  - intros Hc. apply addFiltrate_nothing. now left.
  - intros col Hc moved state'. subst moved state'.
    destruct (filtrateMoved_cases requested (pendingFiltrationVolume state))
      as [[Hp [Hm Heq]]|[Hno Heq]].
    + rewrite (addFiltrate_moves _ _ _ Hc Hp Hm). store_fields.
      rewrite lookup_insert_eq.
      pose proof (Q.le_min_r requested (pendingFiltrationVolume state)) as Hr.
      split; [rewrite Heq; reflexivity|]. split; [intros _; Lqa.lra|].
      eexists. split; [reflexivity|].
      cbn [LabVessel.currentVolume LabVessel.capacity LabVessel.contents
           LabVessel.with_contents LabVessel.with_currentVolume].
      split; [rewrite Heq; reflexivity|]. split; [Lqa.lra|]. split; [reflexivity|].
      destruct (includes (chemicalIds (LabVessel.contents col)) "water") eqn:Ei.
      * destruct (proj2 (find_water_includes _) Ei) as [c Hf]. rewrite Hf.
        split; [intros id Hne; now apply amountOf_addToWater_other|].
        intros Hnd.
        destruct (addToWater_once (Qmin requested (pendingFiltrationVolume state))
                    _ Hnd Ei) as [A1 A2].
        rewrite A1, A2, Heq, chemicalIds_addToWater. repeat split; try reflexivity.
        exact Hnd.
      * destruct (List.find (same_chemical "water") (LabVessel.contents col)) eqn:Hf.
        { assert (includes (chemicalIds (LabVessel.contents col)) "water" = true)
            by (apply find_water_includes; eauto). congruence. }
        split.
        { intros id Hne. rewrite amountOf_app, amountOf_cons, amountOf_nil.
          unfold same_chemical. cbn [chemical clearWater Chemical.id].
          apply not_eq_sym, String.eqb_neq in Hne. rewrite Hne. Lqa.lra. }
        intros Hnd. rewrite amountOf_app, totalVolume_app, amountOf_cons, amountOf_nil,
          totalVolume_cons, totalVolume_nil.
        unfold same_chemical. cbn [chemical volume clearWater Chemical.id String.eqb].
        rewrite Heq. split; [cbn; Lqa.lra|]. split; [Lqa.lra|].
        unfold chemicalIds. rewrite List.map_app. cbn [List.map chemical Chemical.id clearWater].
        apply NoDup_app.
        { exact Hnd. }
        { repeat constructor. intros []. }
        intros x Hx [<-|[]]. apply includes_not_In in Ei. contradiction.
    + rewrite (addFiltrate_nothing requested state)
        by (destruct Hno as [H|H]; [right; left|right; right]; exact H).
      split; [rewrite Heq; Lqa.lra|]. split; [tauto|].
      exists col. split; [exact Hc|]. rewrite Heq.
      split; [Lqa.lra|]. split; [Lqa.lra|]. split; [reflexivity|].
      split; [reflexivity|]. intros Hnd. split; [Lqa.lra|]. split; [Lqa.lra|exact Hnd].
Qed.

Lemma addFiltrate_drains_buffer_witness :
  let state := fst (transferLiquid "beaker_1" "collection_beaker" 50 filtrationBench) in
  exists col',
    vessels (addFiltrate 20 state) !! "collection_beaker" = Some col' /\
    cv col' == 0 + 20 /\
    pendingFiltrationVolume (addFiltrate 20 state) == 50 - 20 /\
    amountOf "water" (LabVessel.contents col') == 0 + 20.
Proof.
  intros state.
  assert (Hc : vessels state !! "collection_beaker" = Some collectionBeaker)
    by (vm_compute; reflexivity).
  destruct (proj2 (addFiltrate_drains_buffer 20 state) collectionBeaker Hc)
    as [P1 [_ [col' [L [V [_ [_ [_ W]]]]]]]].
  exists col'. split; [exact L|]. split; [exact V|]. split; [exact P1|].
  apply W. constructor.
Defined.

(** What the reaction check never touches. *)
Lemma checkExperimentReaction_keeps s :
  let s' := fst (checkExperimentReaction s) in
  pendingFiltrationVolume s' = pendingFiltrationVolume s /\
  isPouringActive s' = isPouringActive s /\
  placedApparatus s' = placedApparatus s /\
  experimentActions s' = experimentActions s /\
  experimentMode s' = experimentMode s /\
  neutralizationAnimating s' = neutralizationAnimating s /\
  resetAfterSaltTest s' = resetAfterSaltTest s.
Proof.
  unfold checkExperimentReaction.
  destruct (currentExperiment s) as [e|]; [|cbn [fst]; now repeat split].
  destruct (matchReaction e (addedChemicals s) (experimentActions s)) as [[key rx]|];
    [|cbn [fst]; now repeat split].
  destruct (String.eqb (Experiment.id e) "salt-dissolution" && success rx).
  { unfold checkSaltDissolution.
    match goal with |- context [if ?c then (_, [ShowCompletionPopup]) else _] =>
      destruct c end; store_fields; now repeat split. }
  destruct (String.eqb (Experiment.id e) "physical-chemical").
  { unfold checkPhysicalChemical.
    destruct (String.eqb key "ice+heat"); [store_fields; now repeat split|].
    destruct (String.eqb key "paper+heat"); [store_fields; now repeat split|].
    destruct (String.eqb key "magnesium+heat");
      [|store_fields; now repeat split].
    destruct (negb (includes (completedExperiments s) (Experiment.id e)));
      store_fields; now repeat split. }
  destruct (success rx && negb (includes (completedExperiments s) (Experiment.id e)));
    store_fields; now repeat split.
Qed.

Lemma performExperimentAction_keeps action s :
  let s' := fst (performExperimentAction action s) in
  pendingFiltrationVolume s' = pendingFiltrationVolume s /\
  vessels s' = vessels s /\
  currentExperiment s' = currentExperiment s /\
  addedChemicals s' = addedChemicals s /\
  completedExperiments s' = completedExperiments s.
Proof.
  unfold performExperimentAction.
  destruct (includes (experimentActions s) action); [cbn [fst]; now repeat split|].
  destruct (String.eqb action "heat"); [store_fields; now repeat split|].
  destruct (String.eqb action "stir"); store_fields; now repeat split.
Qed.

Lemma filterFrame_pending delta wasFiltering state :
  pendingFiltrationVolume state <= 0.1 ->
  pendingFiltrationVolume (fst (snd (filterFrame delta wasFiltering state)))
  = pendingFiltrationVolume state.
Proof.
  intros Hp. unfold filterFrame.
  assert (E : Qgtb (pendingFiltrationVolume state) 0.1 = false)
    by (apply Qgtb_false; exact Hp).
  rewrite E.
  destruct wasFiltering; [|reflexivity].
  destruct (Qgtb 5 (totalSourceVolume state)); [|reflexivity].
  pose proof (performExperimentAction_keeps "filter" state) as P.
  destruct (performExperimentAction "filter" state) as [s1 t1].
  pose proof (checkExperimentReaction_keeps s1) as C.
  destruct (checkExperimentReaction s1) as [s2 t2].
  cbn [fst snd] in *. destruct P as [P _]. destruct C as [C _]. congruence.
Qed.

Lemma sumQ_nonneg deltas :
  (forall d, In d deltas -> 0 <= d) -> 0 <= sumQ deltas.
Proof.
  induction deltas as [|d tl IH]; intros H; [cbn; Lqa.lra|].
  change (sumQ (d :: tl)) with (d + sumQ tl).
  assert (0 <= d) by (apply H; now left).
  assert (0 <= sumQ tl) by (apply IH; intros; apply H; now right).
  Lqa.lra.
Qed.

(** One frame: the buffer drains by at least [12 * delta] and at most
    [20 * delta], or it is at most 0.1 afterwards. *)
Lemma filterFrame_step delta wasFiltering state :
  0 <= delta -> 0 <= pendingFiltrationVolume state ->
  (pendingFiltrationVolume state <= 0.1
   \/ vessels state !! "collection_beaker" <> None) ->
  let state' := fst (snd (filterFrame delta wasFiltering state)) in
  (pendingFiltrationVolume state' <= 0.1
   \/ (vessels state' !! "collection_beaker" <> None
       /\ pendingFiltrationVolume state'
          <= pendingFiltrationVolume state - 12 * delta)) /\
  0 <= pendingFiltrationVolume state' /\
  pendingFiltrationVolume state' <= pendingFiltrationVolume state /\
  pendingFiltrationVolume state - 20 * delta <= pendingFiltrationVolume state'.
Proof.
  intros Hd Hp Hinv state'.
  destruct (Qlt_le_dec 0.1 (pendingFiltrationVolume state)) as [Hbig|Hsmall].
  - destruct Hinv as [Hinv|Hinv]; [Lqa.lra|].
    destruct (vessels state !! "collection_beaker") as [col|] eqn:Hc; [|congruence].
    assert (Hs : state' = addFiltrate ((if isPouringActive state then 12 else 20) * delta)
                            state).
    { unfold state', filterFrame.
      apply Qgtb_true in Hbig. now rewrite Hbig. }
    destruct (addFiltrate_collection
                ((if isPouringActive state then 12 else 20) * delta) state col Hc)
      as [P1 [P2 [col' [L _]]]].
    rewrite <- Hs in P1, P2, L.
    assert (Hrate : 12 * delta <= (if isPouringActive state then 12 else 20) * delta
                    /\ (if isPouringActive state then 12 else 20) * delta <= 20 * delta)
      by (destruct (isPouringActive state); split; Lqa.lra).
    destruct (filtrateMoved_cases
                ((if isPouringActive state then 12 else 20) * delta)
                (pendingFiltrationVolume state)) as [[_ [Hm Heq]]|[Hno Heq]];
      rewrite Heq in P1.
    + pose proof (Q.le_min_l ((if isPouringActive state then 12 else 20) * delta)
                    (pendingFiltrationVolume state)) as Ml.
      pose proof (Q.le_min_r ((if isPouringActive state then 12 else 20) * delta)
                    (pendingFiltrationVolume state)) as Mr.
      split; [|split; [|split]]; try Lqa.lra.
      destruct (Q.min_spec ((if isPouringActive state then 12 else 20) * delta)
                  (pendingFiltrationVolume state)) as [[_ M]|[_ M]].
      * right. split; [rewrite L; discriminate|]. rewrite M in P1. Lqa.lra.
      * left. rewrite M in P1. Lqa.lra.
    + destruct Hno as [Hno|Hno]; [Lqa.lra|].
      assert (delta <= 0).
      { destruct (Q.min_spec ((if isPouringActive state then 12 else 20) * delta)
                    (pendingFiltrationVolume state)) as [[_ M]|[_ M]];
          rewrite M in Hno; Lqa.lra. }
      split; [|split; [|split]]; try Lqa.lra.
      right. split; [rewrite L; discriminate|]. Lqa.lra.
  - unfold state'. rewrite (filterFrame_pending _ _ _ Hsmall).
    split; [now left|]. split; [exact Hp|]. split; Lqa.lra.
Qed.

(** X7.  The funnel drains the buffer at a rate between 12 and 20 units per
    second and stops at 0.1: with a collection beaker on the bench, after
    frames of total time [t] the buffer is at most 0.1 or at most
    [pending - 12 * t]; it never drops below [pending - 20 * t], never grows
    and never becomes negative. *)
Theorem funnel_drain_rate deltas wasFiltering state :
  (forall d, In d deltas -> 0 <= d) ->
  0 <= pendingFiltrationVolume state ->
  (pendingFiltrationVolume state <= 0.1
   \/ vessels state !! "collection_beaker" <> None) ->
  let state' := snd (filterFrames deltas wasFiltering state) in
  (pendingFiltrationVolume state' <= 0.1
   \/ pendingFiltrationVolume state'
      <= pendingFiltrationVolume state - 12 * sumQ deltas) /\
  0 <= pendingFiltrationVolume state' /\
  pendingFiltrationVolume state' <= pendingFiltrationVolume state /\
  pendingFiltrationVolume state - 20 * sumQ deltas <= pendingFiltrationVolume state'.
Proof.
  revert wasFiltering state.
  induction deltas as [|d tl IH]; intros wasFiltering state Hd Hp Hinv state'.
  - unfold state'. cbn [filterFrames snd sumQ fold_right].
    split; [right|split; [|split]]; Lqa.lra.
  - assert (H0 : 0 <= d) by (apply Hd; now left).
    assert (Htl : forall x, In x tl -> 0 <= x) by (intros; apply Hd; now right).
    pose proof (sumQ_nonneg tl Htl) as Hsum.
    pose proof (filterFrame_step d wasFiltering state H0 Hp Hinv) as Hstep.
    unfold state'. cbn [filterFrames].
    destruct (filterFrame d wasFiltering state) as [w [s1 t1]].
    cbn [fst snd] in Hstep. destruct Hstep as [S1 [S2 [S3 S4]]].
    assert (Hinv1 : pendingFiltrationVolume s1 <= 0.1
                    \/ vessels s1 !! "collection_beaker" <> None)
      by (destruct S1 as [S1|[S1 _]]; [now left|now right]).
    destruct (IH w s1 Htl S2 Hinv1) as [I1 [I2 [I3 I4]]].
    change (sumQ (d :: tl)) with (d + sumQ tl).
    split; [|split; [|split]]; [|Lqa.lra..].
    destruct I1 as [I1|I1]; [now left|].
    destruct S1 as [S1|[_ S1]]; [left|right]; Lqa.lra.
Qed.

Lemma funnel_drain_rate_witness :
  let state := fst (transferLiquid "beaker_1" "collection_beaker" 50 filtrationBench) in
  let state' := snd (filterFrames [0.5; 0.5; 0.5] false state) in
  (pendingFiltrationVolume state' <= 0.1
   \/ pendingFiltrationVolume state' <= 50 - 12 * sumQ [0.5; 0.5; 0.5]) /\
  0 <= pendingFiltrationVolume state' /\
  pendingFiltrationVolume state' <= 50 /\
  50 - 20 * sumQ [0.5; 0.5; 0.5] <= pendingFiltrationVolume state'.
Proof.
  intros state.
  apply (funnel_drain_rate [0.5; 0.5; 0.5] false state).
  - intros d [<-|[<-|[<-|[]]]]; discriminate.
  - discriminate.
  - right. vm_compute. discriminate.
Defined.

(* ===================================================================== *)
(** ** Completion of an experiment *)
(* ===================================================================== *)

Lemma NoDup_snoc (l : list string) (x : string) :
  List.NoDup l -> includes l x = false -> List.NoDup (l ++ [x]).
Proof.
  intros H E. apply includes_not_In in E.
  apply List.NoDup_rev in H. rewrite <- (rev_involutive (_ ++ _)).
  apply List.NoDup_rev. rewrite rev_app_distr. cbn [rev app].
  constructor; [|assumption].
  rewrite <- List.in_rev. assumption.
Qed.

(** X8.  [checkExperimentReaction] does nothing without a current
    experiment.  In every case it leaves the current experiment and the
    three lists of the attempt as they were, and it either leaves
    [completedExperiments] alone and sets no timer, or appends the id of the
    current experiment, which was not in the list, and sets the timer of the
    completion popup; a list without duplicates stays so. *)
Theorem completion_is_recorded_once state :
  let state' := fst (checkExperimentReaction state) in
  let timers := snd (checkExperimentReaction state) in
  (currentExperiment state = None -> checkExperimentReaction state = (state, [])) /\
  currentExperiment state' = currentExperiment state /\
  placedApparatus state' = placedApparatus state /\
  addedChemicals state' = addedChemicals state /\
  experimentActions state' = experimentActions state /\
  ((completedExperiments state' = completedExperiments state /\ timers = [])
   \/ (exists e, currentExperiment state = Some e /\
         includes (completedExperiments state) (Experiment.id e) = false /\
         completedExperiments state'
           = completedExperiments state ++ [Experiment.id e] /\
         timers = [ShowCompletionPopup])) /\
  (List.NoDup (completedExperiments state) ->
   List.NoDup (completedExperiments state')).
Proof.
  cbv zeta. unfold checkExperimentReaction.
  destruct (currentExperiment state) as [e|] eqn:He;
    [|cbn [fst snd]; rewrite He; repeat split; auto].
  split; [discriminate|].
  destruct (matchReaction e (addedChemicals state) (experimentActions state))
    as [[key rx]|];
    [|cbn [fst snd]; rewrite He; repeat split; auto].
  destruct (String.eqb (Experiment.id e) "salt-dissolution" && success rx).
  { unfold checkSaltDissolution.
    match goal with |- context [if ?c then (_, [ShowCompletionPopup]) else _] =>
      destruct c eqn:Ec end; store_fields; rewrite He.
    - apply andb_true_iff in Ec. destruct Ec as [_ Ec].
      apply negb_true_iff in Ec.
      repeat split; auto; [|intros; now apply NoDup_snoc].
      right. exists e. repeat split; auto.
    - repeat split; auto. }
  destruct (String.eqb (Experiment.id e) "physical-chemical").
  { unfold checkPhysicalChemical.
    destruct (String.eqb key "ice+heat"); [store_fields; rewrite He; repeat split; auto|].
    destruct (String.eqb key "paper+heat"); [store_fields; rewrite He; repeat split; auto|].
    destruct (String.eqb key "magnesium+heat");
      [|store_fields; rewrite He; repeat split; auto].
    destruct (negb (includes (completedExperiments state) (Experiment.id e))) eqn:Ec;
      store_fields; rewrite He; [|repeat split; auto].
    apply negb_true_iff in Ec.
    repeat split; auto; [|intros; now apply NoDup_snoc].
    right. exists e. repeat split; auto. }
  destruct (success rx && negb (includes (completedExperiments state) (Experiment.id e)))
    eqn:Ec; store_fields; rewrite He; [|repeat split; auto].
  apply andb_true_iff in Ec. destruct Ec as [_ Ec]. apply negb_true_iff in Ec.
  repeat split; auto; [|intros; now apply NoDup_snoc].
  right. exists e. repeat split; auto.
Qed.

Lemma completion_is_recorded_once_witness :
  checkExperimentReaction (initialStore []) = (initialStore [], []) /\
  List.NoDup (completedExperiments (fst (checkExperimentReaction (initialStore ["filtration"])))).
Proof.
  split.
  - apply (proj1 (completion_is_recorded_once (initialStore []))). reflexivity.
  - apply (proj2 (proj2 (proj2 (proj2 (proj2 (proj2
             (completion_is_recorded_once (initialStore ["filtration"])))))))).
    repeat constructor. intros [].
Defined.

(** A success outcome in the last branch of [checkExperimentReaction]. *)
Lemma generic_success_completes state e key r :
  currentExperiment state = Some e ->
  Experiment.id e <> "salt-dissolution" ->
  Experiment.id e <> "physical-chemical" ->
  matchReaction e (addedChemicals state) (experimentActions state) = Some (key, r) ->
  success r = true ->
  includes (completedExperiments (fst (checkExperimentReaction state))) (Experiment.id e)
  = true.
Proof.
  intros He H1 H2 Hm Hs. unfold checkExperimentReaction. rewrite He, Hm, Hs.
  apply String.eqb_neq in H1, H2. rewrite H1, H2. cbn [andb].
  destruct (includes (completedExperiments state) (Experiment.id e)) eqn:Ei;
    cbn [negb]; store_fields; [exact Ei | apply includes_app_last].
Qed.

(** X9.  Outside salt-dissolution and physical-chemical, one matched
    outcome decides: a successful outcome puts the experiment into
    [completedExperiments] at once, an unsuccessful one shows its
    observation and completes nothing. *)
Theorem successful_outcome_completes state e key r :
  currentExperiment state = Some e ->
  Experiment.id e <> "salt-dissolution" ->
  Experiment.id e <> "physical-chemical" ->
  matchReaction e (addedChemicals state) (experimentActions state) = Some (key, r) ->
  let state' := fst (checkExperimentReaction state) in
  (success r = true ->
     includes (completedExperiments state') (Experiment.id e) = true /\
     showExplanation state' = true) /\
  (success r = false ->
     completedExperiments state' = completedExperiments state /\
     currentObservation state' = observation r /\
     snd (checkExperimentReaction state) = []).
Proof.
  intros He H1 H2 Hm. cbv zeta. unfold checkExperimentReaction. rewrite He, Hm.
  apply String.eqb_neq in H1, H2. rewrite H1, H2. cbn [andb].
  destruct (success r) eqn:Es.
  - split; [intros _|discriminate]. cbn [andb].
    destruct (includes (completedExperiments state) (Experiment.id e)) eqn:Ei;
      cbn [negb]; store_fields.
    + split; [exact Ei | reflexivity].
    + split; [apply includes_app_last | reflexivity].
  - split; [discriminate|intros _]. cbn [andb]. store_fields. repeat split.
Qed.

Lemma successful_outcome_completes_witness :
  let state :=
    fst (performExperimentAction "filter"
      (fst (transferLiquid "beaker_1" "collection_beaker" 200
         (addChemicalToExperiment "muddy-water" filtrationBench)))) in
  includes (completedExperiments (fst (checkExperimentReaction state))) "filtration" = true.
Proof.
  intros state.
  assert (Hm : exists r,
             matchReaction exp_filtration (addedChemicals state) (experimentActions state)
             = Some ("muddy-water+pour+filter", r) /\ success r = true)
    by (eexists; split; vm_compute; reflexivity).
  destruct Hm as [r [Hm Hs]].
  assert (He : currentExperiment state = Some exp_filtration) by (vm_compute; reflexivity).
  apply (proj1 (successful_outcome_completes state exp_filtration _ r He
                  ltac:(discriminate) ltac:(discriminate) Hm)).
  exact Hs.
Defined.

Lemma performExperimentAction_actions action s :
  experimentActions (fst (performExperimentAction action s))
  = if includes (experimentActions s) action then experimentActions s
    else experimentActions s ++ [action].
Proof.
  unfold performExperimentAction.
  destruct (includes (experimentActions s) action); [reflexivity|].
  destruct (String.eqb action "heat"); [reflexivity|].
  destruct (String.eqb action "stir"); reflexivity.
Qed.

(** X10.  The funnel reports the end of a filtration on the edge only: with
    at most 0.1 pending, a frame that follows no draining frame changes
    nothing; a frame that follows one records the action 'filter' when the
    source beakers hold less than 5 in total, and the outcome matched then
    completes the experiment; the frame after it changes nothing again. *)
Theorem funnel_finishes_on_the_edge delta state e key r :
  pendingFiltrationVolume state <= 0.1 ->
  totalSourceVolume state < 5 ->
  currentExperiment state = Some e ->
  Experiment.id e <> "salt-dissolution" ->
  Experiment.id e <> "physical-chemical" ->
  matchReaction e (addedChemicals state)
    (if includes (experimentActions state) "filter" then experimentActions state
     else experimentActions state ++ ["filter"]) = Some (key, r) ->
  success r = true ->
  filterFrame delta false state = (false, (state, [])) /\
  let wasFiltering' := fst (filterFrame delta true state) in
  let state' := fst (snd (filterFrame delta true state)) in
  wasFiltering' = false /\
  includes (experimentActions state') "filter" = true /\
  includes (completedExperiments state') (Experiment.id e) = true /\
  filterFrame delta wasFiltering' state' = (false, (state', [])).
Proof.
  intros Hp Ht He H1 H2 Hm Hs.
  assert (E : Qgtb (pendingFiltrationVolume state) 0.1 = false)
    by (apply Qgtb_false; exact Hp).
  split; [unfold filterFrame; now rewrite E|].
  pose proof (filterFrame_pending delta true state Hp) as Hp'.
  cbv zeta. unfold filterFrame in *. rewrite E in *.
  apply Qgtb_true in Ht. rewrite Ht in *.
  pose proof (performExperimentAction_keeps "filter" state) as P.
  pose proof (performExperimentAction_actions "filter" state) as A.
  destruct (performExperimentAction "filter" state) as [s1 t1].
  cbn [fst snd] in P, A. destruct P as [_ [_ [Pe [Pc _]]]].
  assert (He1 : currentExperiment s1 = Some e) by congruence.
  assert (Hm1 : matchReaction e (addedChemicals s1) (experimentActions s1) = Some (key, r))
    by (rewrite Pc, A; exact Hm).
  pose proof (generic_success_completes s1 e key r He1 H1 H2 Hm1 Hs) as C.
  pose proof (checkExperimentReaction_keeps s1) as K.
  destruct (checkExperimentReaction s1) as [s2 t2].
  cbn [fst snd] in *. destruct K as [_ [_ [_ [Ka _]]]].
  split; [reflexivity|]. split.
  - rewrite Ka, A. destruct (includes (experimentActions state) "filter") eqn:Ei;
      [exact Ei | apply includes_app_last].
  - split; [exact C|].
    assert (E2 : Qgtb (pendingFiltrationVolume s2) 0.1 = false)
      by (apply Qgtb_false; rewrite Hp'; exact Hp).
    now rewrite E2.
Qed.

Lemma funnel_finishes_on_the_edge_witness :
  let state :=
    addFiltrate 200
      (fst (transferLiquid "beaker_1" "collection_beaker" 200
         (addChemicalToExperiment "muddy-water" filtrationBench))) in
  filterFrame 0.016 false state = (false, (state, [])) /\
  fst (filterFrame 0.016 true state) = false /\
  includes (experimentActions (fst (snd (filterFrame 0.016 true state)))) "filter" = true /\
  includes (completedExperiments (fst (snd (filterFrame 0.016 true state)))) "filtration"
    = true.
Proof.
  intros state.
  assert (Hm : exists r,
             matchReaction exp_filtration (addedChemicals state)
               (if includes (experimentActions state) "filter"
                then experimentActions state
                else experimentActions state ++ ["filter"])
             = Some ("muddy-water+pour+filter", r) /\ success r = true)
    by (eexists; split; vm_compute; reflexivity).
  destruct Hm as [r [Hm Hs]].
  assert (He : currentExperiment state = Some exp_filtration) by (vm_compute; reflexivity).
  assert (Hp : pendingFiltrationVolume state <= 0.1) by (vm_compute; discriminate).
  assert (Ht : totalSourceVolume state < 5) by (vm_compute; reflexivity).
  destruct (funnel_finishes_on_the_edge 0.016 state exp_filtration _ r Hp Ht He
              ltac:(discriminate) ltac:(discriminate) Hm Hs) as [F0 [F1 [F2 [F3 _]]]].
  repeat split; assumption.
Defined.

(* ===================================================================== *)
(** ** Applying a reaction *)
(* ===================================================================== *)

Lemma totalVolume_products (q : Q) (products : list Chemical.t) :
  totalVolume (List.map (fun product => mkContents product q) products)
  == inject_Z (Z.of_nat (length products)) * q.
Proof.
  induction products as [|p tl IH].
  - cbn [List.map length]. rewrite totalVolume_nil.
    change (inject_Z (Z.of_nat 0)) with 0. Lqa.lra.
  - cbn [List.map length]. rewrite totalVolume_cons, IH. cbn [volume].
    rewrite Nat2Z.inj_succ, <- Z.add_1_r, inject_Z_plus.
    change (inject_Z 1) with 1. Lqa.lra.
Qed.

Lemma newEffects_spec now counter vesselId effects :
  length (newEffects now counter vesselId effects) = length effects /\
  Forall (fun e =>
            ActiveEffect.vesselId e = vesselId /\ ActiveEffect.startTime e = now /\
            ActiveEffect.duration e
            = match ActiveEffect.type e with bubbles => 4000%Z | _ => 3000%Z end)
    (newEffects now counter vesselId effects) /\
  List.map ActiveEffect.type (newEffects now counter vesselId effects) = effects.
Proof.
  revert counter. induction effects as [|x tl IH]; intros counter.
  - cbn. repeat split. constructor.
  - cbn [newEffects length List.map]. destruct (IH (S counter)) as [I1 [I2 I3]].
    split; [now rewrite I1|]. split.
    + constructor; [|exact I2]. cbn. now destruct x.
    + cbn [ActiveEffect.type]. now rewrite I3.
Qed.

(** X11.  [applyReaction] on a missing vessel changes neither the store nor
    the effect counter.  Otherwise the volume, capacity and temperature of
    the vessel stay, the volumes of the new entries add up to its
    [currentVolume] when the rule has a product (and the vessel loses its
    contents when it has none), one effect per effect of the rule is appended
    for this vessel, lasting 4000 ms for bubbles and 3000 ms otherwise, and
    the counter advances by their number. *)
Theorem applyReaction_keeps_volume now counter vesselId r state :
  (vessels state !! vesselId = None ->
   applyReaction now counter vesselId r state = (state, counter)) /\
  (forall vessel, vessels state !! vesselId = Some vessel ->
     let state' := fst (applyReaction now counter vesselId r state) in
     (exists vessel',
        vessels state' !! vesselId = Some vessel' /\
        cv vessel' = cv vessel /\
        LabVessel.capacity vessel' = LabVessel.capacity vessel /\
        LabVessel.temperature vessel' = LabVessel.temperature vessel /\
        List.map chemical (LabVessel.contents vessel') = Reaction.products r /\
        (Reaction.products r <> [] ->
         totalVolume (LabVessel.contents vessel') == cv vessel)) /\
     (exists added,
        activeEffects state' = activeEffects state ++ added /\
        List.map ActiveEffect.type added = Reaction.effects r /\
        Forall (fun e =>
                  ActiveEffect.vesselId e = vesselId /\ ActiveEffect.startTime e = now /\
                  ActiveEffect.duration e
                  = match ActiveEffect.type e with bubbles => 4000%Z | _ => 3000%Z end)
          added) /\
     snd (applyReaction now counter vesselId r state)
     = (counter + length (Reaction.effects r))%nat /\
     (forall other, other <> vesselId ->
        vessels state' !! other = vessels state !! other)).
Proof.
  split.
  - intros Hv. unfold applyReaction. now rewrite Hv.
  - intros vessel Hv. cbv zeta. unfold applyReaction. rewrite Hv. store_fields.
    split; [|split; [|split]].
    + eexists. split; [apply lookup_insert_eq|].
      cbn [LabVessel.currentVolume LabVessel.capacity LabVessel.temperature
           LabVessel.contents LabVessel.with_contents].
      repeat split.
      * rewrite List.map_map. cbn [chemical]. apply List.map_id.
      * intros Hne. rewrite totalVolume_products.
        assert (Hlen : ~ inject_Z (Z.of_nat (length (Reaction.products r))) == 0).
        { destruct (Reaction.products r); [congruence|].
          cbn [length]. rewrite Nat2Z.inj_succ. intros H.
          unfold Qeq in H. cbn [Qnum Qden inject_Z] in H. lia. }
        field. exact Hlen.
    + eexists. split; [reflexivity|].
      destruct (newEffects_spec now counter vesselId (Reaction.effects r)) as [_ [N2 N3]].
      split; assumption.
    + reflexivity.
    + intros other Hne. now rewrite lookup_insert_ne by congruence.
Qed.

Lemma applyReaction_keeps_volume_witness :
  Forall (fun r =>
            exists vessel',
              vessels (fst (applyReaction 0 0 "beaker_1" r waterBench)) !! "beaker_1"
                = Some vessel' /\
              totalVolume (LabVessel.contents vessel') == 100)
    REACTIONS.
Proof.
  assert (Hv : vessels waterBench !! "beaker_1"
               = Some (LabVessel.mk "beaker_1" None beaker 500 100 0 25
                         [mkContents CHEMICALS.water 100] (vec3 (-1.2) 0 0)))
    by (vm_compute; reflexivity).
  repeat constructor;
    (match goal with |- exists _, vessels (fst (applyReaction _ _ _ ?r _)) !! _ = _ /\ _ =>
       destruct (proj2 (applyReaction_keeps_volume 0 0 "beaker_1" r waterBench) _ Hv)
         as [[v' [L [_ [_ [_ [_ T]]]]]] _];
       exists v'; split; [exact L | apply T; discriminate]
     end).
Defined.

(* ===================================================================== *)
(** ** The rule base *)
(* ===================================================================== *)

Lemma matches_pair_sym t1 t2 r : matches_pair t1 t2 r = matches_pair t2 t1 r.
Proof. unfold matches_pair. apply orb_comm. Qed.

Lemma findReaction_sym rs t1 t2 : findReaction rs t1 t2 = findReaction rs t2 t1.
Proof.
  unfold findReaction. induction rs as [|r rs IH]; [reflexivity|].
  cbn [List.find]. rewrite (matches_pair_sym t1 t2 r), IH. reflexivity.
Qed.

Lemma findReaction_None rs t1 t2 :
  findReaction rs t1 t2 = None <-> forall r, In r rs -> matches_pair t1 t2 r = false.
Proof.
  unfold findReaction. split.
  - intros H r Hr. exact (List.find_none _ _ H r Hr).
  - induction rs as [|r rs IH]; [reflexivity|]. intros H. cbn [List.find].
    rewrite (H r (or_introl eq_refl)). apply IH. intros r' Hr'. apply H. now right.
Qed.

(** X12.  The rule lookup does not depend on the order of the two
    categories, and in the rule base of the program no two rules answer to
    the same pair: [findReaction] returns a rule exactly when that rule is in
    the base and its pair is the given one, in either order. *)
Theorem rule_lookup_is_symmetric_and_unique t1 t2 :
  (forall rs, findReaction rs t1 t2 = findReaction rs t2 t1) /\
  (forall r, findReaction REACTIONS t1 t2 = Some r
             <-> In r REACTIONS /\ matches_pair t1 t2 r = true) /\
  (findReaction REACTIONS t1 t2 = None
   <-> forall r, In r REACTIONS -> matches_pair t1 t2 r = false).
Proof.
  split; [intros rs; apply findReaction_sym|]. split; [|apply findReaction_None].
  intros r. split; [apply findReaction_Some|].
  intros [Hin Hm].
  destruct Hin as [<-|[<-|[<-|[<-|[]]]]]; destruct t1, t2; try discriminate Hm;
    reflexivity.
Qed.

Lemma checkReaction_inner_None rs c1 rest :
  checkReaction_inner rs c1 rest = None <->
  forall j c2, rest !! j = Some c2 ->
    findReaction rs (Chemical.type (chemical c1)) (Chemical.type (chemical c2)) = None.
Proof.
  induction rest as [|c2 rest IH]; cbn [checkReaction_inner].
  - split; [intros _ j c2 H; discriminate | reflexivity].
  - destruct (findReaction rs _ (Chemical.type (chemical c2))) as [r|] eqn:E.
    + split; [discriminate|]. intros H. specialize (H 0%nat c2 eq_refl). congruence.
    + rewrite IH. split.
      * intros H [|j] c; [intros [= <-]; exact E | apply H].
      * intros H j c Hj. exact (H (S j) c Hj).
Qed.

Lemma checkReaction_outer_None rs contents :
  checkReaction_outer rs contents = None <->
  forall i j c1 c2, (i < j)%nat -> contents !! i = Some c1 -> contents !! j = Some c2 ->
    findReaction rs (Chemical.type (chemical c1)) (Chemical.type (chemical c2)) = None.
Proof.
  induction contents as [|c contents IH]; cbn [checkReaction_outer].
  - split; [intros _ i j c1 c2 _ H; discriminate | reflexivity].
  - destruct (checkReaction_inner rs c contents) as [r|] eqn:E.
    + split; [discriminate|]. intros H.
      apply checkReaction_inner_Some in E as [j [c2 [Hj Hf]]].
      specialize (H 0%nat (S j) c c2 ltac:(lia) eq_refl Hj). congruence.
    + rewrite IH. split.
      * intros H [|i] [|j] c1 c2 Hij Hi Hj; try lia.
        -- injection Hi as <-. exact (proj1 (checkReaction_inner_None rs c contents) E j c2 Hj).
        -- apply (H i j c1 c2); [lia | exact Hi | exact Hj].
      * intros H i j c1 c2 Hij Hi Hj.
        apply (H (S i) (S j) c1 c2); [lia | exact Hi | exact Hj].
Qed.

(** X13.  [checkReaction] reports no reaction exactly when no two entries of
    the contents, taken in order, have categories that a rule pairs; with
    fewer than two entries it never reports one; and it reports a rule
    exactly when it reports a reaction, together with that rule's
    products. *)
Theorem no_reaction_iff_no_pair rs contents :
  ((length contents < 2)%nat -> occurred (checkReaction rs contents) = false) /\
  (occurred (checkReaction rs contents) = false <->
   forall i j c1 c2, (i < j)%nat -> contents !! i = Some c1 -> contents !! j = Some c2 ->
     findReaction rs (Chemical.type (chemical c1)) (Chemical.type (chemical c2)) = None) /\
  (occurred (checkReaction rs contents) = true <->
   exists r, reaction (checkReaction rs contents) = Some r /\
             result_products (checkReaction rs contents) = Some (Reaction.products r)).
Proof.
  unfold checkReaction. split; [|split].
  - intros H. apply Nat.ltb_lt in H. now rewrite H.
  - destruct (length contents <? 2)%nat eqn:El.
    + cbn [occurred]. split; [|reflexivity]. intros _ i j c1 c2 Hij Hi Hj.
      apply Nat.ltb_lt in El. apply lookup_lt_Some in Hj. lia.
    + rewrite <- checkReaction_outer_None.
      destruct (checkReaction_outer rs contents); cbn [occurred];
        split; congruence.
  - destruct (length contents <? 2)%nat.
    + cbn. split; [discriminate | intros [r [H _]]; discriminate].
    + destruct (checkReaction_outer rs contents) as [r|]; cbn.
      * split; [intros _; now exists r | reflexivity].
      * split; [discriminate | intros [r [H _]]; discriminate].
Qed.

Lemma no_reaction_iff_no_pair_witness :
  occurred (checkReaction REACTIONS [mkContents CHEMICALS.hydrochloric_acid 10]) = false.
Proof.
  apply (proj1 (no_reaction_iff_no_pair REACTIONS
                  [mkContents CHEMICALS.hydrochloric_acid 10])).
  cbn. lia.
Defined.

Lemma rule_lookup_is_symmetric_and_unique_witness :
  exists r, findReaction REACTIONS base acid = Some r
            /\ Reaction.id r = "acid_base_neutralization".
Proof.
  eexists. split.
  - apply (proj2 (proj1 (proj2 (rule_lookup_is_symmetric_and_unique base acid)) _)).
    split; [left; reflexivity | reflexivity].
  - reflexivity.
Defined.

(* ===================================================================== *)
(** ** The table of experiments *)
(* ===================================================================== *)

Lemma find_by_id_Some id exps e :
  List.find (fun exp => String.eqb (Experiment.id exp) id) exps = Some e ->
  In e exps /\ Experiment.id e = id.
Proof.
  intros H. apply List.find_some in H. destruct H as [H1 H2].
  split; [exact H1 | now apply String.eqb_eq].
Qed.

Lemma find_by_id_None id exps :
  List.find (fun exp => String.eqb (Experiment.id exp) id) exps = None <->
  ~ In id (List.map Experiment.id exps).
Proof.
  induction exps as [|x exps IH]; cbn [List.find List.map].
  - split; [intros _ [] | reflexivity].
  - destruct (String.eqb (Experiment.id x) id) eqn:E.
    + apply String.eqb_eq in E. split; [discriminate|]. intros H. exfalso. apply H. now left.
    + apply String.eqb_neq in E. rewrite IH. cbn [In]. tauto.
Qed.

Lemma getExperimentById_in_Some id data e :
  getExperimentById_in id data = Some e ->
  In e (List.concat (List.map snd data)) /\ Experiment.id e = id.
Proof.
  induction data as [|[c exps] data IH]; [discriminate|].
  cbn [getExperimentById_in List.map List.concat snd].
  destruct (List.find _ exps) as [e'|] eqn:E.
  - intros [= <-]. apply find_by_id_Some in E. destruct E as [E1 E2].
    split; [apply in_or_app; now left | exact E2].
  - intros H. destruct (IH H) as [I1 I2]. split; [apply in_or_app; now right | exact I2].
Qed.

Lemma getExperimentById_in_None id data :
  getExperimentById_in id data = None <->
  ~ In id (List.map Experiment.id (List.concat (List.map snd data))).
Proof.
  induction data as [|[c exps] data IH].
  - cbn. split; [intros _ [] | reflexivity].
  - cbn [getExperimentById_in List.map List.concat snd].
    rewrite List.map_app, in_app_iff.
    destruct (List.find _ exps) as [e'|] eqn:E.
    + split; [discriminate|]. intros H. exfalso. apply H. left.
      apply find_by_id_Some in E. destruct E as [E1 <-]. now apply List.in_map.
    + apply find_by_id_None in E. rewrite IH. tauto.
Qed.

(** X14.  The lookup by id and the table of experiments agree: every
    experiment of the table is found under its own id, what is found under
    an id carries that id and is in the table, an id is not found exactly
    when no experiment has it, no two experiments share an id, and the
    experiments of a class are experiments of the table, none for a class
    other than 6, 7 and 8. *)
Theorem experiment_lookup_round_trip :
  (forall e, In e getAllExperiments -> getExperimentById (Experiment.id e) = Some e) /\
  (forall id e, getExperimentById id = Some e ->
     In e getAllExperiments /\ Experiment.id e = id) /\
  (forall id, getExperimentById id = None
              <-> ~ In id (List.map Experiment.id getAllExperiments)) /\
  List.NoDup (List.map Experiment.id getAllExperiments) /\
  getTotalExperimentCount = 6%nat /\
  (forall classLevel e, In e (getExperimentsByClass classLevel) ->
     In e getAllExperiments /\ Experiment.classLevel e = classLevel) /\
  (forall classLevel, classLevel <> 6%Z -> classLevel <> 7%Z -> classLevel <> 8%Z ->
     getExperimentsByClass classLevel = []).
Proof.
  split; [|split; [|split; [|split; [|split; [|split]]]]].
  - intros e He.
    repeat (destruct He as [<-|He]; [vm_compute; reflexivity|]). destruct He.
  - intros id e. apply getExperimentById_in_Some.
  - intros id. apply getExperimentById_in_None.
  - repeat (constructor; [cbn; intros H; repeat (destruct H as [H|H]; [discriminate H|]);
                          exact H|]).
    constructor.
  - reflexivity.
  - intros classLevel e. unfold getExperimentsByClass. cbn [experimentsData List.find fst snd].
    destruct (Z.eqb 6 classLevel) eqn:E6.
    { apply Z.eqb_eq in E6. subst. intros He.
      repeat (destruct He as [<-|He];
              [split; [vm_compute; tauto | reflexivity]|]). destruct He. }
    destruct (Z.eqb 7 classLevel) eqn:E7.
    { apply Z.eqb_eq in E7. subst. intros He.
      repeat (destruct He as [<-|He];
              [split; [vm_compute; tauto | reflexivity]|]). destruct He. }
    destruct (Z.eqb 8 classLevel) eqn:E8.
    { apply Z.eqb_eq in E8. subst. intros He.
      repeat (destruct He as [<-|He];
              [split; [vm_compute; tauto | reflexivity]|]). destruct He. }
    intros [].
  - intros classLevel H6 H7 H8. unfold getExperimentsByClass.
    cbn [experimentsData List.find fst snd].
    apply not_eq_sym, Z.eqb_neq in H6, H7, H8. now rewrite H6, H7, H8.
Qed.

Lemma experiment_lookup_round_trip_witness :
  getExperimentById "filtration" = Some exp_filtration /\
  getExperimentById "distillation" = None /\
  getExperimentsByClass 9 = [].
Proof.
  split; [|split].
  - apply (proj1 experiment_lookup_round_trip exp_filtration).
    right. left. reflexivity.
  - apply (proj1 (proj2 (proj2 experiment_lookup_round_trip)) "distillation").
    cbn. intros H. repeat (destruct H as [H|H]; [discriminate H|]). exact H.
  - apply (proj2 (proj2 (proj2 (proj2 (proj2 (proj2 experiment_lookup_round_trip))))) 9%Z);
      discriminate.
Defined.

(* ===================================================================== *)
(** ** Signature keys: joining and splitting *)
(* ===================================================================== *)

Lemma split_on_no_sep sep s :
  ~ In sep (list_ascii_of_string s) -> split_on sep s = [s].
Proof.
  induction s as [|c tl IH]; intros H; [reflexivity|].
  cbn [split_on list_ascii_of_string In] in *.
  destruct (Ascii.eqb c sep) eqn:E.
  - apply Ascii.eqb_eq in E. exfalso. apply H. now left.
  - rewrite IH by tauto. reflexivity.
Qed.

Lemma split_on_append sep s rest :
  ~ In sep (list_ascii_of_string s) ->
  split_on sep (String.append s (String sep rest)) = s :: split_on sep rest.
Proof.
  induction s as [|c tl IH]; intros H.
  - simpl. now rewrite Ascii.eqb_refl.
  - simpl in *.
    destruct (Ascii.eqb c sep) eqn:E.
    + apply Ascii.eqb_eq in E. exfalso. apply H. now left.
    + rewrite IH by tauto. reflexivity.
Qed.

(** X15.  Splitting a joined key gives back its tokens: for a non-empty
    list of tokens none of which contains '+', [split('+')] of
    [join('+')] is the list itself; the empty list comes back as one empty
    token. *)
Theorem split_of_join (l : list string) :
  (l <> [] ->
   Forall (fun s => ~ In "+"%char (list_ascii_of_string s)) l ->
   split_on "+" (join "+" l) = l) /\
  split_on "+" (join "+" []) = [EmptyString].
Proof.
  split; [|reflexivity].
  intros Hne Hl. induction Hl as [|x l Hx Hl IH]; [congruence|].
  destruct l as [|y l].
  - cbn [join String.concat]. now apply split_on_no_sep.
  - change (join "+" (x :: y :: l))
      with (String.append x (String "+"%char (join "+" (y :: l)))).
    rewrite (split_on_append _ _ _ Hx), IH by discriminate. reflexivity.
Qed.

Lemma split_of_join_witness :
  split_on "+" (join "+" ["naoh"; "phenolphthalein"; "heat"])
  = ["naoh"; "phenolphthalein"; "heat"].
Proof.
  apply (proj1 (split_of_join ["naoh"; "phenolphthalein"; "heat"])); [discriminate|].
  repeat constructor; cbn; intros H;
    repeat (destruct H as [H|H]; [discriminate H|]); exact H.
Defined.

(* ===================================================================== *)
(** ** The superset pass *)
(* ===================================================================== *)

Lemma supersetMatch_cons table chemicals actions key tl :
  supersetMatch table chemicals actions (key :: tl)
  = if keyCovered chemicals actions key
    then option_map (fun r => (key, r)) (lookup_key key table)
    else supersetMatch table chemicals actions tl.
Proof. reflexivity. Qed.

Lemma keyCovered_spec chemicals actions key :
  keyCovered chemicals actions key = true <->
  forall p, In p (split_on "+" key) ->
    if includes actionWords p then includes actions p = true
    else includes chemicals p = true.
Proof.
  unfold keyCovered. cbv zeta.
  rewrite andb_true_iff, !forallb_forall. split.
  - intros [Hc Ha] p Hp. destruct (includes actionWords p) eqn:E.
    + apply Ha. apply filter_In. split; assumption.
    + apply Hc. apply filter_In. split; [assumption | now rewrite E].
  - intros H. split; intros p Hp; apply filter_In in Hp; destruct Hp as [Hp E];
      specialize (H p Hp).
    + apply negb_true_iff in E. now rewrite E in H.
    + now rewrite E in H.
Qed.

Lemma includes_incl l l' x : incl l l' -> includes l x = true -> includes l' x = true.
Proof. rewrite !includes_In. auto. Qed.

(** X16.  The second pass of the matcher takes the first defined key all of
    whose tokens are present, action words among the actions and the other
    tokens among the chemicals, and stops there; it finds nothing when no
    key is covered; and a key that is covered stays covered when chemicals or
    actions are added. *)
Theorem superset_pass_takes_first_covered table chemicals actions :
  (forall key,
     keyCovered chemicals actions key = true <->
     forall p, In p (split_on "+" key) ->
       if includes actionWords p then includes actions p = true
       else includes chemicals p = true) /\
  (forall before key after,
     Forall (fun k => keyCovered chemicals actions k = false) before ->
     keyCovered chemicals actions key = true ->
     supersetMatch table chemicals actions (before ++ key :: after)
     = option_map (fun r => (key, r)) (lookup_key key table)) /\
  (forall keys,
     Forall (fun k => keyCovered chemicals actions k = false) keys ->
     supersetMatch table chemicals actions keys = None) /\
  (forall key chemicals' actions',
     incl chemicals chemicals' -> incl actions actions' ->
     keyCovered chemicals actions key = true ->
     keyCovered chemicals' actions' key = true).
Proof.
  split; [intros key; apply keyCovered_spec|]. split; [|split].
  - intros before key after Hb Hk. induction Hb as [|k before Hk0 _ IH].
    + cbn [app]. now rewrite supersetMatch_cons, Hk.
    + cbn [app]. now rewrite supersetMatch_cons, Hk0.
  - intros keys Hks. induction Hks as [|k keys Hk0 _ IH]; [reflexivity|].
    now rewrite supersetMatch_cons, Hk0.
  - intros key chemicals' actions' Hc Ha. rewrite !keyCovered_spec.
    intros H p Hp. specialize (H p Hp).
    destruct (includes actionWords p); eauto using includes_incl.
Qed.

Lemma superset_pass_takes_first_covered_witness :
  exists r,
    supersetMatch (Experiment.reactions exp_filtration) ["sand"; "muddy-water"] []
      (object_keys (Experiment.reactions exp_filtration))
    = Some ("muddy-water", r).
Proof.
  destruct (lookup_key "muddy-water" (Experiment.reactions exp_filtration)) as [r|] eqn:E;
    [|discriminate E].
  exists r.
  pose proof (proj1 (proj2 (superset_pass_takes_first_covered
                              (Experiment.reactions exp_filtration)
                              ["sand"; "muddy-water"] []))
                [] "muddy-water" ["muddy-water+pour"; "muddy-water+pour+filter"]
                (Forall_nil _) eq_refl) as H.
  rewrite E in H. exact H.
Defined.

(* ===================================================================== *)
(** ** Resetting an experiment *)
(* ===================================================================== *)

(** X17.  [resetExperiment] does nothing without a current experiment.
    With one it empties the bench and the three lists of the attempt and
    turns the burner off, keeps the id, the table of outcomes and the mode of
    the experiment, and never touches [completedExperiments], the filtration
    buffer or the neutralization state; resetting twice is resetting
    once. *)
Theorem reset_clears_the_attempt_only state :
  (currentExperiment state = None -> resetExperiment state = state) /\
  (forall e, currentExperiment state = Some e ->
     let state' := resetExperiment state in
     (exists e', currentExperiment state' = Some e' /\
        Experiment.id e' = Experiment.id e /\
        Experiment.reactions e' = Experiment.reactions e) /\
     vessels state' = ∅ /\
     placedApparatus state' = [] /\ addedChemicals state' = [] /\
     experimentActions state' = [] /\
     bunsenBurnerOn state' = false /\
     experimentMode state' = experimentMode state /\
     completedExperiments state' = completedExperiments state /\
     pendingFiltrationVolume state' = pendingFiltrationVolume state /\
     neutralizationAnimating state' = neutralizationAnimating state /\
     neutralizationDropCount state' = neutralizationDropCount state /\
     neutralizationComplete state' = neutralizationComplete state /\
     resetExperiment state' = state').
Proof.
  split.
  - intros He. unfold resetExperiment. now rewrite He.
  - intros e He. cbv zeta.
    split; [|do 11 (split; [unfold resetExperiment; rewrite He; reflexivity|])].
    + unfold resetExperiment. rewrite He. store_fields.
      eexists. split; [reflexivity|]. now destruct e.
    + unfold resetExperiment at 2. rewrite He.
      destruct state as [? ? ? ? ? ? ? ? ? ? ? ? ? ? ce ? ? ? ? ? ? ? ? ? ?
                         salt sand ? ? ? ? ? ice paper magnesium ? ? ?].
      destruct e as [eid ? ? ? ? ? ? ? ? ?]. cbn in He. subst ce.
      cbn -[saltPreviousSteps String.eqb String.append].
      destruct (String.eqb eid "salt-dissolution") eqn:E1.
      * apply String.eqb_eq in E1. subst eid.
        change (String.eqb "salt-dissolution" "physical-chemical") with false.
        destruct salt, sand, ice, paper, magnesium; vm_compute; reflexivity.
      * destruct (String.eqb eid "physical-chemical"),
                 salt, sand, ice, paper, magnesium; vm_compute; reflexivity.
Qed.

Lemma reset_clears_the_attempt_only_witness :
  let state := fst (transferLiquid "beaker_1" "collection_beaker" 50 filtrationBench) in
  vessels (resetExperiment state) = ∅ /\
  pendingFiltrationVolume (resetExperiment state) = pendingFiltrationVolume state /\
  resetExperiment (resetExperiment state) = resetExperiment state.
Proof.
  intros state.
  destruct (proj2 (reset_clears_the_attempt_only state) exp_filtration
              ltac:(vm_compute; reflexivity))
    as [_ [V [_ [_ [_ [_ [_ [_ [P [_ [_ [_ I]]]]]]]]]]]].
  split; [exact V|]. split; [exact P | exact I].
Defined.

Lemma resetExperiment_bench state e :
  currentExperiment state = Some e ->
  (exists e', currentExperiment (resetExperiment state) = Some e' /\
     Experiment.id e' = Experiment.id e) /\
  vessels (resetExperiment state) = ∅ /\
  experimentActions (resetExperiment state) = [] /\
  pendingFiltrationVolume (resetExperiment state) = pendingFiltrationVolume state /\
  isPouringActive (resetExperiment state) = isPouringActive state.
Proof.
  intros He. unfold resetExperiment. rewrite He. store_fields.
  split; [|split; [reflexivity|]; split; [reflexivity|]; split; reflexivity].
  eexists. split; [reflexivity|]. now destruct e.
Qed.

Lemma addVessel_brings_collection v state :
  current_experiment_is "filtration" state = true ->
  LabVessel.type v = beaker ->
  LabVessel.id v <> "collection_beaker" ->
  vessels state !! "collection_beaker" = None ->
  vessels (addVessel v state) !! "collection_beaker" = Some collectionBeaker /\
  pendingFiltrationVolume (addVessel v state) = pendingFiltrationVolume state /\
  experimentActions (addVessel v state) = experimentActions state /\
  isPouringActive (addVessel v state) = isPouringActive state.
Proof.
  intros He Ht Hid Hc. unfold addVessel. rewrite He, Ht.
  cbn [VesselType_eqb andb]. store_fields.
  split; [|repeat split].
  destruct (match LabVessel.name v with
            | Some n => String.eqb n ""
            | None => true
            end).
  - rewrite !lookup_insert_ne by exact Hid. rewrite Hc. apply lookup_insert_eq.
  - rewrite !lookup_insert_ne by exact Hid. rewrite Hc. apply lookup_insert_eq.
Qed.

(** X18.  The filtration buffer outlives a reset: when the experiment is
    reset with liquid still pending, the collection beaker that comes with
    the next beaker placed on the bench receives that liquid in the next
    frame of the funnel, although the new attempt records no 'pour'. *)
Theorem buffer_survives_reset state e v delta :
  currentExperiment state = Some e ->
  Experiment.id e = "filtration" ->
  LabVessel.type v = beaker ->
  LabVessel.id v <> "collection_beaker" ->
  0.1 < pendingFiltrationVolume state ->
  0 < delta ->
  let bench := addVessel v (resetExperiment state) in
  let state' := fst (snd (filterFrame delta false bench)) in
  experimentActions bench = [] /\
  experimentActions state' = [] /\
  exists col,
    vessels state' !! "collection_beaker" = Some col /\
    0 < cv col /\
    cv col == Qmin ((if isPouringActive state then 12 else 20) * delta)
                (pendingFiltrationVolume state) /\
    amountOf "water" (LabVessel.contents col) == cv col.
Proof.
  intros He Hid Ht Hv Hp Hd bench state'.
  destruct (resetExperiment_bench state e He) as [[e' [He' Hid']] [V [A [P Hisp]]]].
  assert (Hcur : current_experiment_is "filtration" (resetExperiment state) = true)
    by (unfold current_experiment_is; rewrite He', Hid', Hid; reflexivity).
  assert (Hnone : vessels (resetExperiment state) !! "collection_beaker" = None)
    by (rewrite V; apply lookup_empty).
  destruct (addVessel_brings_collection v _ Hcur Ht Hv Hnone) as [B1 [B2 [B3 B4]]].
  fold bench in B1, B2, B3, B4. rewrite P in B2. rewrite A in B3. rewrite Hisp in B4.
  clearbody bench.
  assert (Hs : state' = addFiltrate ((if isPouringActive state then 12 else 20) * delta)
                          bench).
  { unfold state', filterFrame. rewrite B2, B4.
    apply Qgtb_true in Hp. now rewrite Hp. }
  destruct (addFiltrate_collection
              ((if isPouringActive state then 12 else 20) * delta) bench
              collectionBeaker B1) as [_ [_ [col [L [C W]]]]].
  rewrite <- Hs, B2 in *. clearbody state'.
  assert (Hm : 0 < Qmin ((if isPouringActive state then 12 else 20) * delta)
                     (pendingFiltrationVolume state)).
  { destruct (Q.min_spec ((if isPouringActive state then 12 else 20) * delta)
                (pendingFiltrationVolume state)) as [[_ M]|[_ M]]; rewrite M;
      [destruct (isPouringActive state)|]; Lqa.lra. }
  assert (Hf : filtrateMoved ((if isPouringActive state then 12 else 20) * delta)
                 (pendingFiltrationVolume state)
               == Qmin ((if isPouringActive state then 12 else 20) * delta)
                    (pendingFiltrationVolume state)).
  { unfold filtrateMoved. apply Q.max_r. Lqa.lra. }
  pose proof (W eq_refl) as W1.
  change (cv collectionBeaker) with 0 in C.
  split; [exact B3|]. split.
  - rewrite Hs. unfold addFiltrate. rewrite B1, B2.
    destruct (Qleb (pendingFiltrationVolume state) 0); [exact B3|].
    destruct (Qleb _ 0); [exact B3 | exact B3].
  - exists col. split; [exact L|]. rewrite C, W1, Hf.
    split; [Lqa.lra|]. split; Lqa.lra.
Qed.

Lemma buffer_survives_reset_witness :
  let state := fst (transferLiquid "beaker_1" "collection_beaker" 50 filtrationBench) in
  let bench := addVessel (emptyVessel "beaker_1" beaker 250 (vec3 0 0 1))
                 (resetExperiment state) in
  exists col,
    vessels (fst (snd (filterFrame 0.5 false bench))) !! "collection_beaker" = Some col /\
    0 < cv col /\
    experimentActions (fst (snd (filterFrame 0.5 false bench))) = [].
Proof.
  intros state bench.
  destruct (buffer_survives_reset state exp_filtration
              (emptyVessel "beaker_1" beaker 250 (vec3 0 0 1)) 0.5
              ltac:(vm_compute; reflexivity) eq_refl eq_refl ltac:(discriminate)
              ltac:(vm_compute; reflexivity) eq_refl)
    as [_ [A [col [L [C _]]]]].
  exists col. split; [exact L|]. split; [exact C | exact A].
Defined.

(* ===================================================================== *)
(** ** The neutralization dropper *)
(* ===================================================================== *)

Lemma dropImpact_early s n :
  neutralizationAnimating s = true ->
  neutralizationDropCount s = n -> (0 <= n < 4)%Z ->
  dropImpact s = (set_neutralizationDropCount (n + 1)%Z s, []).
Proof.
  intros Ha Hn Hr. unfold dropImpact, TOTAL_DROPS. rewrite Ha, Hn.
  destruct (5 <=? n)%Z eqn:E; [apply Z.leb_le in E; lia|].
  cbn [negb orb]. unfold incrementNeutralizationDrops. rewrite Hn.
  destruct (5 <=? n + 1)%Z eqn:E'; [apply Z.leb_le in E'; lia|]. reflexivity.
Qed.

Lemma dropImpact_fifth s :
  neutralizationAnimating s = true ->
  neutralizationDropCount s = 4%Z ->
  dropImpact s = completeNeutralization (set_neutralizationDropCount 5%Z s).
Proof.
  intros Ha Hn. unfold dropImpact, TOTAL_DROPS. rewrite Ha, Hn.
  cbn [negb orb Z.leb Z.compare Pos.compare Pos.compare_cont].
  unfold incrementNeutralizationDrops. rewrite Hn. reflexivity.
Qed.

Lemma completeNeutralization_fields s :
  let s' := fst (completeNeutralization s) in
  neutralizationComplete s' = true /\
  neutralizationAnimating s' = false /\
  neutralizationDropCount s' = neutralizationDropCount s /\
  addedChemicals s'
  = List.filter (fun c => negb (String.eqb c "hcl")) (addedChemicals s) ++ ["hcl"].
Proof.
  cbv zeta. unfold completeNeutralization.
  match goal with |- context [checkExperimentReaction ?pre] =>
    pose proof (checkExperimentReaction_frame pre) as F;
    pose proof (checkExperimentReaction_keeps pre) as K;
    cbv zeta in F, K;
    destruct F as [F1 [F2 [_ [F4 _]]]];
    destruct K as [_ [_ [_ [_ [_ [K6 _]]]]]];
    rewrite F1, F2, F4, K6
  end.
  store_fields. repeat split.
Qed.

Lemma dropImpact_count s :
  (neutralizationDropCount s <= 5)%Z ->
  (neutralizationDropCount (fst (dropImpact s)) <= 5)%Z.
Proof.
  intros H. unfold dropImpact, TOTAL_DROPS.
  destruct (negb (neutralizationAnimating s) || (5 <=? neutralizationDropCount s)%Z)
    eqn:E; [exact H|].
  apply orb_false_iff in E. destruct E as [_ E]. apply Z.leb_gt in E.
  unfold incrementNeutralizationDrops.
  destruct (5 <=? neutralizationDropCount s + 1)%Z eqn:E'.
  - destruct (completeNeutralization_fields
                (set_neutralizationDropCount (neutralizationDropCount s + 1)%Z s))
      as [_ [_ [C _]]].
    cbv zeta in C. rewrite C. store_fields. lia.
  - store_fields. lia.
Qed.

(** X19.  The dropper delivers five drops and no more: an impact never
    takes the counter above 5, and changes nothing when no animation runs;
    from the start of the animation the fifth impact ends it, sets
    [neutralizationComplete], leaves exactly one 'hcl' at the end of the
    added chemicals, and every further impact changes nothing. *)
Theorem five_drops_and_no_more state :
  ((neutralizationDropCount state <= 5)%Z ->
   (neutralizationDropCount (fst (dropImpact state)) <= 5)%Z) /\
  (neutralizationAnimating state = false -> dropImpact state = (state, [])) /\
  (forall n, (n < 5)%nat ->
     neutralizationDropCount (impacts n (startNeutralizationAnimation state))
       = Z.of_nat n /\
     neutralizationAnimating (impacts n (startNeutralizationAnimation state)) = true /\
     neutralizationComplete (impacts n (startNeutralizationAnimation state))
       = neutralizationComplete state) /\
  let done := impacts 5 (startNeutralizationAnimation state) in
  neutralizationDropCount done = 5%Z /\
  neutralizationComplete done = true /\
  neutralizationAnimating done = false /\
  addedChemicals done
  = List.filter (fun c => negb (String.eqb c "hcl")) (addedChemicals state) ++ ["hcl"] /\
  forall n, impacts n done = done.
Proof.
  split; [apply dropImpact_count|].
  split; [intros H; unfold dropImpact; now rewrite H|].
  set (s0 := startNeutralizationAnimation state).
  assert (A0 : neutralizationAnimating s0 = true) by reflexivity.
  assert (C0 : neutralizationDropCount s0 = 0%Z) by reflexivity.
  assert (D1 : fst (dropImpact s0) = set_neutralizationDropCount 1%Z s0)
    by (now rewrite (dropImpact_early s0 0%Z A0 C0 ltac:(lia))).
  set (s1 := set_neutralizationDropCount 1%Z s0) in *.
  assert (D2 : fst (dropImpact s1) = set_neutralizationDropCount 2%Z s1)
    by (now rewrite (dropImpact_early s1 1%Z eq_refl eq_refl ltac:(lia))).
  set (s2 := set_neutralizationDropCount 2%Z s1) in *.
  assert (D3 : fst (dropImpact s2) = set_neutralizationDropCount 3%Z s2)
    by (now rewrite (dropImpact_early s2 2%Z eq_refl eq_refl ltac:(lia))).
  set (s3 := set_neutralizationDropCount 3%Z s2) in *.
  assert (D4 : fst (dropImpact s3) = set_neutralizationDropCount 4%Z s3)
    by (now rewrite (dropImpact_early s3 3%Z eq_refl eq_refl ltac:(lia))).
  set (s4 := set_neutralizationDropCount 4%Z s3) in *.
  assert (D5 : dropImpact s4 = completeNeutralization (set_neutralizationDropCount 5%Z s4))
    by (apply dropImpact_fifth; reflexivity).
  split.
  - intros n Hn.
    destruct n as [|[|[|[|[|n]]]]]; [| | | | |lia];
      cbn [impacts]; rewrite ?D1, ?D2, ?D3, ?D4; repeat split.
  - cbv zeta. cbn [impacts]. rewrite D1, D2, D3, D4, D5.
    destruct (completeNeutralization_fields (set_neutralizationDropCount 5%Z s4))
      as [F1 [F2 [F3 F4]]].
    cbv zeta in F1, F2, F3, F4.
    split; [rewrite F3; reflexivity|]. split; [exact F1|]. split; [exact F2|].
    split; [rewrite F4; reflexivity|].
    intros n. induction n as [|n IH]; [reflexivity|].
    cbn [impacts]. unfold dropImpact at 1. rewrite F2. cbn [negb orb fst]. exact IH.
Qed.

Lemma five_drops_and_no_more_witness :
  (neutralizationDropCount (fst (dropImpact fourDropsBench)) <= 5)%Z /\
  dropImpact (initialStore []) = (initialStore [], []).
Proof.
  split.
  - apply (proj1 (five_drops_and_no_more fourDropsBench)). vm_compute. discriminate.
  - apply (proj1 (proj2 (five_drops_and_no_more (initialStore [])))). reflexivity.
Defined.

(** X20.  A finished neutralization cannot be repeated: no action other
    than [resetNeutralizationState] clears [neutralizationComplete], and as
    long as it is set the shelf of the guided neutralization experiment
    offers no chemical at all, also after a reset, a visit to the home screen
    and a new load of the experiment. *)
Theorem finished_neutralization_stays_locked state :
  neutralizationComplete state = true ->
  neutralizationComplete (resetExperiment state) = true /\
  neutralizationComplete (goToHomeScreen state) = true /\
  (forall id, neutralizationComplete (loadExperiment id state) = true) /\
  neutralizationComplete (startNeutralizationAnimation state) = true /\
  neutralizationComplete (fst (checkExperimentReaction state)) = true /\
  neutralizationComplete (fst (dropImpact state)) = true /\
  (forall chemId,
     ChemicalShelf.isChemicalDisabledForNeutralization chemId
       (loadExperiment "neutralization" (goToHomeScreen (resetExperiment state)))
     = true) /\
  neutralizationComplete (resetNeutralizationState state) = false.
Proof.
  intros Hc.
  assert (R : neutralizationComplete (resetExperiment state) = true).
  { unfold resetExperiment. destruct (currentExperiment state); [|exact Hc]. exact Hc. }
  assert (K : neutralizationComplete (fst (checkExperimentReaction state)) = true).
  { destruct (checkExperimentReaction_frame state) as [_ [F _]]. cbv zeta in F.
    now rewrite F. }
  split; [exact R|]. split; [exact Hc|]. split.
  { intros id. unfold loadExperiment. destruct (getExperimentById id); exact Hc. }
  split; [exact Hc|]. split; [exact K|]. split.
  { unfold dropImpact.
    destruct (negb (neutralizationAnimating state)
              || (TOTAL_DROPS <=? neutralizationDropCount state)%Z); [exact Hc|].
    unfold incrementNeutralizationDrops.
    destruct (5 <=? neutralizationDropCount state + 1)%Z.
    - destruct (completeNeutralization_fields
                  (set_neutralizationDropCount (neutralizationDropCount state + 1)%Z state))
        as [F _]. exact F.
    - exact Hc. }
  split; [|reflexivity].
  intros chemId. unfold ChemicalShelf.isChemicalDisabledForNeutralization.
  assert (L : getExperimentById "neutralization" = Some exp_neutralization)
    by (vm_compute; reflexivity).
  unfold loadExperiment. rewrite L.
  unfold ChemicalShelf.isGuidedMode, current_experiment_is. store_fields.
  change (String.eqb (Experiment.id exp_neutralization) "neutralization") with true.
  cbn [negb orb].
  change (neutralizationComplete (goToHomeScreen (resetExperiment state)))
    with (neutralizationComplete (resetExperiment state)).
  rewrite R. now rewrite orb_true_r.
Qed.

Lemma finished_neutralization_stays_locked_witness :
  ChemicalShelf.isChemicalDisabledForNeutralization "naoh"
    (loadExperiment "neutralization"
       (goToHomeScreen (resetExperiment (fst (incrementNeutralizationDrops fourDropsBench)))))
  = true.
Proof.
  apply (proj1 (proj2 (proj2 (proj2 (proj2 (proj2 (proj2
           (finished_neutralization_stays_locked
              (fst (incrementNeutralizationDrops fourDropsBench))
              ltac:(vm_compute; reflexivity))))))))).
Defined.

(* ===================================================================== *)
(** ** The burner and the evaporation *)
(* ===================================================================== *)

(** X21.  [toggleBunsenBurner] flips the burner, and flips it back when
    called again.  Switching the burner on records the action 'heat';
    switching it off records nothing and removes nothing.  The toggle never
    raises [experimentHeatLevel], and once it has recorded 'heat' a later
    [performExperimentAction('heat')] changes nothing and sets no timer. *)
Theorem burner_records_heat state :
  let lit := toggleBunsenBurner state in
  bunsenBurnerOn lit = negb (bunsenBurnerOn state) /\
  bunsenBurnerOn (toggleBunsenBurner lit) = bunsenBurnerOn state /\
  (bunsenBurnerOn state = false ->
     includes (experimentActions lit) "heat" = true /\
     performExperimentAction "heat" lit = (lit, [])) /\
  (bunsenBurnerOn state = true -> experimentActions lit = experimentActions state) /\
  (forall a, includes (experimentActions state) a = true ->
             includes (experimentActions lit) a = true) /\
  experimentHeatLevel lit = experimentHeatLevel state /\
  (List.NoDup (experimentActions state) -> List.NoDup (experimentActions lit)).
Proof.
  cbv zeta. unfold toggleBunsenBurner. store_fields.
  split; [reflexivity|]. split; [apply negb_involutive|].
  assert (Hheat : bunsenBurnerOn state = false ->
                  includes
                    (if negb (bunsenBurnerOn state)
                        && negb (includes (experimentActions state) "heat")
                     then experimentActions state ++ ["heat"]
                     else experimentActions state) "heat" = true).
  { intros Hb. rewrite Hb. cbn [negb andb].
    destruct (includes (experimentActions state) "heat") eqn:E; cbn [negb];
      [exact E | apply includes_app_last]. }
  split.
  { intros Hb. split; [exact (Hheat Hb)|].
    unfold performExperimentAction. store_fields. now rewrite (Hheat Hb). }
  split; [intros Hb; now rewrite Hb|].
  split.
  { intros a Ha.
    destruct (negb (bunsenBurnerOn state)
              && negb (includes (experimentActions state) "heat")); [|exact Ha].
    apply includes_In, in_or_app. left. now apply includes_In. }
  split; [reflexivity|].
  intros Hnd.
  destruct (negb (bunsenBurnerOn state)
            && negb (includes (experimentActions state) "heat")) eqn:E; [|exact Hnd].
  apply andb_true_iff in E. destruct E as [_ E]. apply negb_true_iff in E.
  now apply NoDup_snoc.
Qed.

Lemma burner_records_heat_witness :
  performExperimentAction "heat" (toggleBunsenBurner (initialStore []))
  = (toggleBunsenBurner (initialStore []), []).
Proof.
  apply (proj1 (proj2 (proj2 (burner_records_heat (initialStore []))))). reflexivity.
Defined.

(** X22.  The end of the evaporation: when the salt solution is the one
    chemical of the attempt and the burner was lit before, the callback of
    the china dish records 'evaporate' after 'heat', turns the burner off,
    and the reaction check completes the experiment; the heat level is not
    raised and no automatic evaporation is scheduled. *)
Theorem evaporation_run_completes state e :
  currentExperiment state = Some e ->
  Experiment.id e = "evaporation" ->
  Experiment.reactions e = Experiment.reactions exp_evaporation ->
  addedChemicals state = ["salt-solution"] ->
  experimentActions state = ["heat"] ->
  bunsenBurnerOn state = true ->
  let state' := fst (dishEvaporated state) in
  experimentActions state' = ["heat"; "evaporate"] /\
  bunsenBurnerOn state' = false /\
  experimentHeatLevel state' = experimentHeatLevel state /\
  includes (completedExperiments state') "evaporation" = true /\
  ~ In AutoEvaporate (snd (dishEvaporated state)) /\
  (includes (completedExperiments state) "evaporation" = false ->
   snd (dishEvaporated state) = [ShowCompletionPopup]).
Proof.
  intros He Hid Hr Hc Ha Hb. cbv zeta. unfold dishEvaporated.
  assert (P1 : performExperimentAction "heat" state = (state, []))
    by (unfold performExperimentAction; now rewrite Ha).
  rewrite P1.
  assert (P2 : performExperimentAction "evaporate" state
               = (set_experimentActions ["heat"; "evaporate"]
                    (set_experimentHeatLevel (experimentHeatLevel state)
                    (set_experimentStirCount (experimentStirCount state)
                    (set_isStirring (isStirring state) state))), []))
    by (unfold performExperimentAction; now rewrite Ha).
  rewrite P2. store_fields. rewrite Hb.
  set (s3 := toggleBunsenBurner _).
  assert (A3 : experimentActions s3 = ["heat"; "evaporate"])
    by (unfold s3, toggleBunsenBurner; store_fields; now rewrite Hb).
  assert (B3 : bunsenBurnerOn s3 = false)
    by (unfold s3, toggleBunsenBurner; store_fields; now rewrite Hb).
  assert (E3 : currentExperiment s3 = Some e) by exact He.
  assert (C3 : addedChemicals s3 = ["salt-solution"]) by exact Hc.
  assert (H3 : experimentHeatLevel s3 = experimentHeatLevel state) by reflexivity.
  assert (K3 : completedExperiments s3 = completedExperiments state) by reflexivity.
  clearbody s3.
  assert (Hm : exists r,
             matchReaction e (addedChemicals s3) (experimentActions s3)
             = Some ("salt-solution+heat+evaporate", r) /\ success r = true).
  { rewrite C3, A3. unfold matchReaction. rewrite Hr.
    eexists. split; vm_compute; reflexivity. }
  destruct Hm as [r [Hm Hs]].
  assert (N1 : Experiment.id e <> "salt-dissolution") by (rewrite Hid; discriminate).
  assert (N2 : Experiment.id e <> "physical-chemical") by (rewrite Hid; discriminate).
  pose proof (generic_success_completes s3 e _ r E3 N1 N2 Hm Hs) as S1.
  pose proof (checkExperimentReaction_keeps s3) as K.
  assert (X : checkExperimentReaction s3
              = (set_currentObservation
                   (string_or (observation r) "Experiment Complete!")
                   (set_currentExplanation
                      (string_or (explanation r) (Experiment.conclusion e))
                   (set_showExplanation true
                   (set_completedExperiments
                      (completedExperiments s3 ++ [Experiment.id e]) s3))),
                 [ShowCompletionPopup])
              \/ (includes (completedExperiments s3) (Experiment.id e) = true
                  /\ snd (checkExperimentReaction s3) = []
                  /\ bunsenBurnerOn (fst (checkExperimentReaction s3)) = bunsenBurnerOn s3
                  /\ experimentHeatLevel (fst (checkExperimentReaction s3))
                     = experimentHeatLevel s3)).
  { unfold checkExperimentReaction. rewrite E3, Hm.
    apply String.eqb_neq in N1, N2. rewrite N1, N2, Hs. cbn [andb].
    destruct (includes (completedExperiments s3) (Experiment.id e));
      cbn [negb]; [right; repeat split | left; reflexivity]. }
  destruct K as [_ [_ [_ [Ka _]]]]. rewrite Hid in S1.
  destruct (checkExperimentReaction s3) as [s4 t4] eqn:E4. cbn [fst snd] in *.
  split; [now rewrite Ka|].
  destruct X as [X|[X1 [X2 [X3 X4]]]].
  - injection X as -> ->. store_fields.
    split; [exact B3|]. split; [exact H3|]. split; [exact S1|].
    split; [intros [H|[]]; discriminate H|]. intros _. reflexivity.
  - split; [now rewrite X3|]. split; [now rewrite X4|]. split; [exact S1|].
    rewrite X2. split; [intros []|].
    intros Hn. rewrite K3, Hid in X1. congruence.
Qed.

Lemma evaporation_run_completes_witness :
  let state :=
    toggleBunsenBurner
      (addChemicalToExperiment "salt-solution"
         (loadExperiment "evaporation" (initialStore []))) in
  includes (completedExperiments (fst (dishEvaporated state))) "evaporation" = true /\
  snd (dishEvaporated state) = [ShowCompletionPopup].
Proof.
  intros state.
  destruct (evaporation_run_completes state exp_evaporation
              eq_refl eq_refl eq_refl eq_refl eq_refl eq_refl)
    as [_ [_ [_ [C [_ T]]]]].
  split; [exact C | apply T; reflexivity].
Defined.

(* ===================================================================== *)
(** ** The heating loop over many frames *)
(* ===================================================================== *)

Module HeatingRun.
Import HeatingSystem.
Local Open Scope R_scope.

Lemma temperatureAfter_range burner delta position temperature :
  0 <= delta -> 25 <= temperature <= 120 ->
  25 <= temperatureAfter burner delta position temperature <= 120.
Proof.
  intros Hd [H1 H2]. unfold temperatureAfter, useFrame.
  destruct burner; cbn [negb].
  - destruct (Rlt_dec (distance position) heatingDistance) as [Hz|Hz].
    + pose proof (HeatingFacts.heatingRate_range _
                    (HeatingFacts.distance_nonneg position) Hz) as Hrate.
      assert (0 <= delta * heatingRate (distance position))
        by (apply Rmult_le_pos; lra).
      split; [apply Rmin_glb; lra | apply Rmin_l].
    + destruct (Rlt_dec 25 temperature); [|lra].
      pose proof (HeatingFacts.cooling_step temperature delta 3 Hd ltac:(lra) r). lra.
  - destruct (Rlt_dec 25 temperature); [|lra].
    pose proof (HeatingFacts.cooling_step temperature delta 5 Hd ltac:(lra) r). lra.
Qed.

Lemma elapsed_nonneg deltas : Forall (fun d => 0 <= d) deltas -> 0 <= elapsed deltas.
Proof.
  induction 1 as [|d tl Hd _ IH]; [cbn; lra|].
  change (elapsed (d :: tl)) with (d + elapsed tl). lra.
Qed.

(** X23.  A vessel that starts between 25 and 120 degrees stays there,
    however the burner is switched and however long the frames are. *)
Theorem temperature_stays_in_range steps position temperature :
  Forall (fun step => 0 <= snd step) steps ->
  25 <= temperature <= 120 ->
  25 <= frames steps position temperature <= 120.
Proof.
  intros Hs. revert temperature.
  induction Hs as [|[burner delta] tl Hd _ IH]; intros temperature Ht.
  - exact Ht.
  - cbn [frames]. apply IH. now apply temperatureAfter_range.
Qed.

Lemma temperature_stays_in_range_witness :
  25 <= frames [(true, 1); (false, 2)] (0, 0, 2) 25 <= 120.
Proof.
  apply (temperature_stays_in_range [(true, 1); (false, 2)] (0, 0, 2) 25).
  - repeat constructor; cbn; lra.
  - lra.
Defined.

Lemma Rmax_cool T a b :
  0 <= a -> 0 <= b -> Rmax 25 (Rmax 25 (T - a) - b) = Rmax 25 (T - (a + b)).
Proof.
  intros Ha Hb. destruct (Rle_dec 25 (T - a)) as [H|H].
  - rewrite (Rmax_right 25 (T - a)) by exact H. f_equal. ring.
  - rewrite (Rmax_left 25 (T - a)) by lra. rewrite !Rmax_left by lra. reflexivity.
Qed.

Lemma Rmin_heat T a b :
  0 <= a -> 0 <= b -> Rmin 120 (Rmin 120 (T + a) + b) = Rmin 120 (T + (a + b)).
Proof.
  intros Ha Hb. destruct (Rle_dec (T + a) 120) as [H|H].
  - rewrite (Rmin_right 120 (T + a)) by exact H. f_equal. ring.
  - rewrite (Rmin_left 120 (T + a)) by lra. rewrite !Rmin_left by lra. reflexivity.
Qed.

(** X24.  Heating and cooling do not depend on the frame rate.  With the
    burner off, a vessel at 25 degrees or more is, after frames of total
    time [t], at [max(25, T - 5 t)]; on the burner, a vessel at 120 degrees
    or less is at [min(120, T + rate * t)], [rate] being the heating rate at
    its distance. *)
Theorem heating_is_frame_rate_independent deltas position temperature :
  Forall (fun d => 0 <= d) deltas ->
  (25 <= temperature ->
   frames (List.map (pair false) deltas) position temperature
   = Rmax 25 (temperature - 5 * elapsed deltas)) /\
  (distance position < heatingDistance -> temperature <= 120 ->
   frames (List.map (pair true) deltas) position temperature
   = Rmin 120 (temperature + heatingRate (distance position) * elapsed deltas)).
Proof.
  intros Hd. split.
  - revert temperature. induction Hd as [|d tl H0 Htl IH]; intros temperature Ht.
    + cbn [List.map frames elapsed fold_right]. rewrite Rmult_0_r, Rminus_0_r.
      symmetry. apply Rmax_right. exact Ht.
    + cbn [List.map frames]. change (elapsed (d :: tl)) with (d + elapsed tl).
      pose proof (elapsed_nonneg tl Htl) as He.
      unfold temperatureAfter, useFrame. cbn [negb].
      destruct (Rlt_dec 25 temperature) as [Hlt|Hge].
      * rewrite IH by apply Rmax_l.
        replace (temperature - d * 5) with (temperature - 5 * d) by ring.
        rewrite Rmax_cool by lra. f_equal. ring.
      * assert (temperature = 25) by lra. subst temperature.
        rewrite IH by lra. rewrite !Rmax_left by lra. reflexivity.
  - intros Hz. revert temperature.
    pose proof (HeatingFacts.heatingRate_range _
                  (HeatingFacts.distance_nonneg position) Hz) as Hrate.
    induction Hd as [|d tl H0 Htl IH]; intros temperature Ht.
    + cbn [List.map frames elapsed fold_right]. rewrite Rmult_0_r, Rplus_0_r.
      symmetry. apply Rmin_right. exact Ht.
    + cbn [List.map frames]. change (elapsed (d :: tl)) with (d + elapsed tl).
      pose proof (elapsed_nonneg tl Htl) as He.
      unfold temperatureAfter, useFrame. cbn [negb].
      destruct (Rlt_dec (distance position) heatingDistance); [|lra].
      rewrite IH by apply Rmin_l.
      assert (0 <= d * heatingRate (distance position)) by (apply Rmult_le_pos; lra).
      assert (0 <= heatingRate (distance position) * elapsed tl)
        by (apply Rmult_le_pos; lra).
      rewrite Rmin_heat by lra. f_equal. ring.
Qed.

Lemma heating_is_frame_rate_independent_witness :
  frames (List.map (pair false) [1; 2]) (0, 0, 0) 100
  = Rmax 25 (100 - 5 * elapsed [1; 2]).
Proof.
  apply (proj1 (heating_is_frame_rate_independent [1; 2] (0, 0, 0) 100
                  ltac:(repeat constructor; lra))).
  lra.
Defined.

End HeatingRun.

(* ===================================================================== *)
(** ** Loading an experiment *)
(* ===================================================================== *)

(** X25.  [loadExperiment] with an unknown id changes nothing.  With a
    known id it starts an empty attempt in guided mode, and it overwrites
    everything that [goToHomeScreen] or an earlier load has written: loading
    after a visit to the home screen, or after another load, gives the same
    store as loading at once.  It does not touch the burner, the phase flags,
    the reset prompt, the crack of the dish, the filtration buffer or the
    neutralization state, which all survive from whatever ran before. *)
Theorem load_overwrites_and_keeps experimentId state :
  (getExperimentById experimentId = None -> loadExperiment experimentId state = state) /\
  (forall e, getExperimentById experimentId = Some e ->
     let state' := loadExperiment experimentId state in
     currentExperiment state' = Some e /\
     ChemicalShelf.isGuidedMode state' = true /\
     vessels state' = ∅ /\
     attempt state' = ([], [], []) /\
     loadExperiment experimentId (goToHomeScreen state) = state' /\
     (forall other, loadExperiment experimentId (loadExperiment other state) = state') /\
     bunsenBurnerOn state' = bunsenBurnerOn state /\
     (saltTested state', sandTested state', resetAfterSaltTest state')
       = (saltTested state, sandTested state, resetAfterSaltTest state) /\
     (iceTested state', paperTested state', magnesiumTested state')
       = (iceTested state, paperTested state, magnesiumTested state) /\
     (showResetPrompt state', dishCracked state', isStirring state')
       = (showResetPrompt state, dishCracked state, isStirring state) /\
     pendingFiltrationVolume state' = pendingFiltrationVolume state /\
     (neutralizationAnimating state', neutralizationDropCount state',
      neutralizationComplete state')
       = (neutralizationAnimating state, neutralizationDropCount state,
          neutralizationComplete state) /\
     completedExperiments state' = completedExperiments state).
Proof.
  split.
  - intros H. unfold loadExperiment. now rewrite H.
  - intros e He. cbv zeta. unfold loadExperiment. rewrite He.
    split; [reflexivity|]. split; [reflexivity|]. split; [reflexivity|].
    split; [reflexivity|]. split; [reflexivity|].
    split; [|repeat (split; [reflexivity|]); reflexivity].
    intros other. destruct (getExperimentById other); reflexivity.
Qed.

Lemma load_overwrites_and_keeps_witness :
  loadExperiment "filtration" (goToHomeScreen (toggleBunsenBurner (initialStore [])))
  = loadExperiment "filtration" (toggleBunsenBurner (initialStore [])) /\
  bunsenBurnerOn (loadExperiment "filtration" (toggleBunsenBurner (initialStore [])))
  = true.
Proof.
  destruct (proj2 (load_overwrites_and_keeps "filtration"
                     (toggleBunsenBurner (initialStore [])))
              exp_filtration eq_refl) as [_ [_ [_ [_ [H [_ [B _]]]]]]].
  split; [exact H | exact B].
Defined.

(* ===================================================================== *)
(** ** The colour of a beaker and the melting of ice *)
(* ===================================================================== *)

Lemma primaryContent_fold rest : forall first,
  In (Beaker.primaryContent first rest) (first :: rest) /\
  volume first <= volume (Beaker.primaryContent first rest) /\
  Forall (fun c => volume c <= volume (Beaker.primaryContent first rest)) rest.
Proof.
  unfold Beaker.primaryContent.
  induction rest as [|x rest IH]; intros first.
  - cbn [fold_left]. split; [now left|]. split; [apply Qle_refl | constructor].
  - cbn [fold_left].
    destruct (Qgtb (volume x) (volume first)) eqn:E.
    + destruct (IH x) as [I1 [I2 I3]]. apply Qgtb_true in E.
      split; [right; exact I1|]. split; [Lqa.lra|]. constructor; assumption.
    + destruct (IH first) as [I1 [I2 I3]]. apply Qgtb_false in E.
      split; [destruct I1 as [<-|I1]; [now left | right; now right]|].
      split; [exact I2|]. constructor; [Lqa.lra | exact I3].
Qed.

(** X26.  The colour of a beaker is the colour of its largest entry: the
    entry chosen by [primaryContent] is one of the contents and no entry has
    a larger volume; outside the guided experiments, with nothing stirred and
    no ice melting, [liquidColor] is the colour of that entry, and the
    default '#4fc3f7' for an empty or unknown vessel. *)
Theorem colour_of_the_largest_entry vesselId iceMeltProgress state :
  (forall first rest,
     In (Beaker.primaryContent first rest) (first :: rest) /\
     Forall (fun c => volume c <= volume (Beaker.primaryContent first rest))
       (first :: rest)) /\
  (currentExperiment state = None ->
   includes (experimentActions state) "stir" = false ->
   iceMeltProgress <= 0 ->
   (forall v first rest,
      vessels state !! vesselId = Some v ->
      LabVessel.contents v = first :: rest ->
      Beaker.liquidColor vesselId iceMeltProgress state
      = Beaker.Hex (Chemical.color (chemical (Beaker.primaryContent first rest)))) /\
   (vessels state !! vesselId = None ->
    Beaker.liquidColor vesselId iceMeltProgress state = Beaker.Hex "#4fc3f7") /\
   (forall v, vessels state !! vesselId = Some v -> LabVessel.contents v = [] ->
    Beaker.liquidColor vesselId iceMeltProgress state = Beaker.Hex "#4fc3f7")).
Proof.
  split.
  - intros first rest. destruct (primaryContent_fold rest first) as [H1 [H2 H3]].
    split; [exact H1 | constructor; assumption].
  - intros He Hs Hp.
    assert (Ep : Qgtb iceMeltProgress 0 = false) by (apply Qgtb_false; exact Hp).
    unfold Beaker.liquidColor, current_experiment_is. rewrite He, Hs, Ep.
    split; [|split].
    + intros v first rest Hv Hc. rewrite Hv, Hc. now rewrite andb_false_r.
    + intros Hv. rewrite Hv. now rewrite andb_false_r.
    + intros v Hv Hc. rewrite Hv, Hc. now rewrite andb_false_r.
Qed.

Lemma colour_of_the_largest_entry_witness :
  Beaker.liquidColor "beaker_1" 0 acidBaseBench = Beaker.Hex "#c8e6c9".
Proof.
  assert (Hv : vessels acidBaseBench !! "beaker_1"
               = Some (LabVessel.mk "beaker_1" None beaker 500 200 0 25
                         [mkContents CHEMICALS.hydrochloric_acid 100;
                          mkContents CHEMICALS.sodium_hydroxide 100]
                         (vec3 (-1.2) 0 0)))
    by (vm_compute; reflexivity).
  apply (proj1 (proj2 (colour_of_the_largest_entry "beaker_1" 0 acidBaseBench)
                  eq_refl eq_refl ltac:(discriminate))
           _ (mkContents CHEMICALS.hydrochloric_acid 100)
           [mkContents CHEMICALS.sodium_hydroxide 100] Hv eq_refl).
Defined.

Lemma meltIce_water_id e :
  Chemical.id
    (match List.find (fun c => String.eqb (ExperimentChemical.id c) "water")
             (Experiment.chemicals e) with
     | Some w =>
         Chemical.mk (ExperimentChemical.id w) (ExperimentChemical.name w) None
           (ExperimentChemical.color w) water None
     | None => Chemical.mk "water" "Water" None "#a8d4ff" water None
     end) = "water".
Proof.
  destruct (List.find _ (Experiment.chemicals e)) as [w|] eqn:E; [|reflexivity].
  apply List.find_some in E. destruct E as [_ E]. now apply String.eqb_eq in E.
Qed.

(** X27.  Melting: a vessel without ice is left as it is; a vessel with ice
    ends with one entry, water, whose volume is 0.4 times the volume of the
    first ice entry, and with exactly that [currentVolume], whatever else it
    held; its capacity, temperature and position stay; melting again changes
    nothing. *)
Theorem melted_ice_becomes_water e vessel :
  (List.find (same_chemical "ice") (LabVessel.contents vessel) = None ->
   meltIce e vessel = vessel) /\
  (forall ice,
     List.find (same_chemical "ice") (LabVessel.contents vessel) = Some ice ->
     (exists w,
        LabVessel.contents (meltIce e vessel) = [w] /\
        Chemical.id (chemical w) = "water" /\
        Chemical.type (chemical w) = water /\
        volume w = volume ice * 0.4 /\
        cv (meltIce e vessel) = volume w) /\
     totalVolume (LabVessel.contents (meltIce e vessel)) == cv (meltIce e vessel) /\
     LabVessel.capacity (meltIce e vessel) = LabVessel.capacity vessel /\
     LabVessel.temperature (meltIce e vessel) = LabVessel.temperature vessel /\
     LabVessel.position (meltIce e vessel) = LabVessel.position vessel /\
     (0 <= volume ice -> volume ice <= cv vessel ->
      0 <= cv (meltIce e vessel) /\ cv (meltIce e vessel) <= cv vessel)) /\
  meltIce e (meltIce e vessel) = meltIce e vessel.
Proof.
  split; [|split].
  - intros H. unfold meltIce. now rewrite H.
  - intros ice H. unfold meltIce. rewrite H.
    cbn [LabVessel.contents LabVessel.currentVolume LabVessel.capacity
         LabVessel.temperature LabVessel.position LabVessel.with_contents
         LabVessel.with_currentVolume].
    split; [|split; [|split; [|split; [|split]]]]; try reflexivity.
    + eexists. split; [reflexivity|]. cbn [chemical volume].
      split; [apply meltIce_water_id|].
      split; [|split; reflexivity].
      now destruct (List.find _ (Experiment.chemicals e)).
    + rewrite totalVolume_cons, totalVolume_nil. cbn [volume]. Lqa.lra.
    + intros H0 H1. split; Lqa.lra.
  - destruct (List.find (same_chemical "ice") (LabVessel.contents vessel)) as [ice|] eqn:H.
    + unfold meltIce at 1. unfold meltIce at 1. rewrite H.
      cbn [LabVessel.contents LabVessel.with_contents LabVessel.with_currentVolume
           List.find].
      unfold same_chemical at 1. cbn [chemical].
      rewrite meltIce_water_id. cbn [String.eqb Ascii.eqb Bool.eqb].
      unfold meltIce. now rewrite H.
    + unfold meltIce. rewrite H. now rewrite H.
Qed.

Lemma melted_ice_becomes_water_witness :
  exists w,
    LabVessel.contents
      (meltIce exp_physical_chemical
         (LabVessel.mk "beaker_1" None beaker 250 100 0 60
            [mkContents (Chemical.mk "ice" "Ice Cubes" None "#e0f4ff" neutral None) 100]
            (vec3 0 1 2))) = [w] /\
    volume w = 100 * 0.4.
Proof.
  destruct (proj1 (proj1 (proj2 (melted_ice_becomes_water exp_physical_chemical
              (LabVessel.mk "beaker_1" None beaker 250 100 0 60
                 [mkContents (Chemical.mk "ice" "Ice Cubes" None "#e0f4ff" neutral None) 100]
                 (vec3 0 1 2)))) _ eq_refl)) as [w [H1 [_ [_ [H4 _]]]]].
  exists w. split; [exact H1 | exact H4].
Defined.

(* ===================================================================== *)
(** ** The three rounds of the physical and chemical changes *)
(* ===================================================================== *)

Lemma matchReaction_heated e substance :
  Experiment.reactions e = Experiment.reactions exp_physical_chemical ->
  In substance ["ice"; "paper"; "magnesium"] ->
  exists r, matchReaction e [substance] ["heat"]
            = Some (String.append substance "+heat", r).
Proof.
  intros Hr Hin. unfold matchReaction. rewrite Hr.
  destruct Hin as [<-|[<-|[<-|[]]]]; eexists; vm_compute; reflexivity.
Qed.

(** X28.  In the physical-chemical experiment the outcome of a heated
    substance is recorded whatever was tested before: ice sets [iceTested],
    melts the ice of every vessel and leaves the burner as it is; paper sets
    [paperTested] and magnesium sets [magnesiumTested], both turning the
    burner off; only magnesium completes the experiment, and it does so also
    when ice and paper were never tested.  The order of the rounds is kept by
    the shelf alone, which offers magnesium only after both. *)
Theorem heated_substance_is_recorded state e :
  currentExperiment state = Some e ->
  Experiment.id e = "physical-chemical" ->
  Experiment.reactions e = Experiment.reactions exp_physical_chemical ->
  experimentActions state = ["heat"] ->
  let state' := fst (checkExperimentReaction state) in
  (addedChemicals state = ["ice"] ->
     iceTested state' = true /\ showResetPrompt state' = true /\
     vessels state' = meltIce e <$> vessels state /\
     bunsenBurnerOn state' = bunsenBurnerOn state /\
     completedExperiments state' = completedExperiments state) /\
  (addedChemicals state = ["paper"] ->
     paperTested state' = true /\ showResetPrompt state' = true /\
     bunsenBurnerOn state' = false /\
     iceTested state' = iceTested state /\
     completedExperiments state' = completedExperiments state) /\
  (addedChemicals state = ["magnesium"] ->
     magnesiumTested state' = true /\ bunsenBurnerOn state' = false /\
     includes (completedExperiments state') "physical-chemical" = true /\
     iceTested state' = iceTested state /\ paperTested state' = paperTested state) /\
  (ChemicalShelf.isGuidedMode state = true ->
   ChemicalShelf.isChemicalDisabledForPhysicalChemical "magnesium" state = false ->
   iceTested state = true /\ paperTested state = true /\ magnesiumTested state = false).
Proof.
  intros He Hid Hr Ha. cbv zeta.
  assert (Hbranch : forall substance r,
            addedChemicals state = [substance] ->
            matchReaction e [substance] ["heat"]
              = Some (String.append substance "+heat", r) ->
            checkExperimentReaction state
            = checkPhysicalChemical e (String.append substance "+heat") r state).
  { intros substance r Hc Hm. unfold checkExperimentReaction.
    rewrite He, Hc, Ha, Hm, Hid. reflexivity. }
  split; [|split; [|split]].
  - intros Hc. destruct (matchReaction_heated e "ice" Hr ltac:(cbn; tauto)) as [r Hm].
    rewrite (Hbranch "ice" r Hc Hm). unfold checkPhysicalChemical.
    change (String.eqb (String.append "ice" "+heat") "ice+heat") with true.
    cbv iota. store_fields. repeat split.
  - intros Hc. destruct (matchReaction_heated e "paper" Hr ltac:(cbn; tauto)) as [r Hm].
    rewrite (Hbranch "paper" r Hc Hm). unfold checkPhysicalChemical.
    change (String.eqb (String.append "paper" "+heat") "ice+heat") with false.
    change (String.eqb (String.append "paper" "+heat") "paper+heat") with true.
    cbv iota. store_fields. repeat split.
  - intros Hc.
    destruct (matchReaction_heated e "magnesium" Hr ltac:(cbn; tauto)) as [r Hm].
    rewrite (Hbranch "magnesium" r Hc Hm). unfold checkPhysicalChemical.
    change (String.eqb (String.append "magnesium" "+heat") "ice+heat") with false.
    change (String.eqb (String.append "magnesium" "+heat") "paper+heat") with false.
    change (String.eqb (String.append "magnesium" "+heat") "magnesium+heat") with true.
    cbv iota. rewrite Hid.
    destruct (includes (completedExperiments state) "physical-chemical") eqn:Ei;
      cbn [negb]; store_fields.
    + split; [reflexivity|]. split; [reflexivity|]. split; [exact Ei|].
      split; reflexivity.
    + split; [reflexivity|]. split; [reflexivity|]. split; [apply includes_app_last|].
      split; reflexivity.
  - intros Hg. unfold ChemicalShelf.isChemicalDisabledForPhysicalChemical.
    rewrite Hg. unfold current_experiment_is. rewrite He, Hid.
    change (String.eqb "physical-chemical" "physical-chemical") with true.
    cbn [negb orb].
    change (String.eqb "magnesium" "ice") with false.
    change (String.eqb "magnesium" "paper") with false.
    change (String.eqb "magnesium" "magnesium") with true. cbv iota.
    destruct (iceTested state), (paperTested state), (magnesiumTested state);
      cbn [negb orb]; try discriminate. now intros _.
Qed.

Lemma heated_substance_is_recorded_witness :
  let state :=
    toggleBunsenBurner
      (addChemicalToExperiment "magnesium"
         (loadExperiment "physical-chemical" (initialStore []))) in
  iceTested state = false /\
  includes (completedExperiments (fst (checkExperimentReaction state)))
    "physical-chemical" = true.
Proof.
  intros state. split; [reflexivity|].
  destruct (heated_substance_is_recorded state exp_physical_chemical
              eq_refl eq_refl eq_refl eq_refl) as [_ [_ [M _]]].
  destruct (M eq_refl) as [_ [_ [C _]]]. exact C.
Defined.

(* ===================================================================== *)
(** ** The ids of the visual effects *)
(* ===================================================================== *)

Lemma nat_to_string_inj a b : nat_to_string a = nat_to_string b -> a = b.
Proof.
  unfold nat_to_string. intros H.
  apply (f_equal NilEmpty.uint_of_string) in H. rewrite !NilEmpty.usu in H.
  injection H as H. apply (f_equal Nat.of_uint) in H.
  now rewrite !DecimalNat.Unsigned.of_to in H.
Qed.

Lemma effect_id_inj a b :
  ("effect_" ++ nat_to_string a)%string = ("effect_" ++ nat_to_string b)%string -> a = b.
Proof. intros H. simpl in H. injection H as H. now apply nat_to_string_inj. Qed.

Lemma newEffects_ids now counter vesselId effects :
  forall e, In e (newEffects now counter vesselId effects) ->
    exists k, (counter < k <= counter + length effects)%nat /\
              ActiveEffect.id e = ("effect_" ++ nat_to_string k)%string.
Proof.
  revert counter. induction effects as [|x tl IH]; intros counter e He; [destruct He|].
  cbn [newEffects] in He. destruct He as [<-|He].
  - exists (S counter). split; [cbn [length]; lia | reflexivity].
  - destruct (IH (S counter) e He) as [k [Hk Hid]].
    exists k. split; [cbn [length]; lia | exact Hid].
Qed.

Lemma newEffects_NoDup now counter vesselId effects :
  List.NoDup (List.map ActiveEffect.id (newEffects now counter vesselId effects)).
Proof.
  revert counter. induction effects as [|x tl IH]; intros counter; [constructor|].
  cbn [newEffects List.map ActiveEffect.id]. constructor; [|apply IH].
  intros Hin. apply in_map_iff in Hin. destruct Hin as [e [Hid He]].
  destruct (newEffects_ids _ _ _ _ e He) as [k [Hk Hk']].
  rewrite Hk' in Hid. apply effect_id_inj in Hid. lia.
Qed.

Lemma effectIds_append counter added n state (P : LabStore) :
  effectIdsBelow counter state ->
  activeEffects P = activeEffects state ++ added ->
  List.NoDup (List.map ActiveEffect.id added) ->
  (forall e, In e added ->
     exists k, (counter < k <= counter + n)%nat /\
               ActiveEffect.id e = ("effect_" ++ nat_to_string k)%string) ->
  effectIdsBelow (counter + n) P.
Proof.
  intros [Hnd Hids] Hp Hnew Hnewids. unfold effectIdsBelow. rewrite Hp. split.
  - rewrite List.map_app. apply NoDup_app; [exact Hnd | exact Hnew|].
    intros x Hx1 Hx2. apply in_map_iff in Hx1, Hx2.
    destruct Hx1 as [e1 [E1 H1]]. destruct Hx2 as [e2 [E2 H2]].
    destruct (Hids e1 H1) as [k1 [K1 I1]]. destruct (Hnewids e2 H2) as [k2 [K2 I2]].
    assert (k1 = k2) by (apply effect_id_inj; congruence). lia.
  - intros e He. apply in_app_or in He. destruct He as [He|He].
    + destruct (Hids e He) as [k [K I]]. exists k. split; [lia | exact I].
    + destruct (Hnewids e He) as [k [K I]]. exists k. split; [lia | exact I].
Qed.

(** X29.  The ids of the active effects stay distinct: the initial store
    has no effect; [addEffect] and [applyReaction] give every new effect an
    id made from a counter value that was never used, and
    [clearExpiredEffects] and [removeEffect] only remove effects.  The
    effects that [clearExpiredEffects] keeps are exactly those whose duration
    has not run out, and [removeEffect] removes the effect with the given id
    and no other. *)
Theorem effect_ids_stay_distinct counter state :
  effectIdsBelow 0 (initialStore []) /\
  (effectIdsBelow counter state ->
   (forall now type vesselId duration,
      effectIdsBelow (snd (addEffect now counter type vesselId duration state))
        (fst (addEffect now counter type vesselId duration state))) /\
   (forall now vesselId r,
      effectIdsBelow (snd (applyReaction now counter vesselId r state))
        (fst (applyReaction now counter vesselId r state))) /\
   (forall now, effectIdsBelow counter (clearExpiredEffects now state)) /\
   (forall effectId, effectIdsBelow counter (removeEffect effectId state))) /\
  (forall now e,
     In e (activeEffects (clearExpiredEffects now state)) <->
     In e (activeEffects state)
     /\ (now - ActiveEffect.startTime e < ActiveEffect.duration e)%Z) /\
  (forall effectId e,
     In e (activeEffects (removeEffect effectId state)) <->
     In e (activeEffects state) /\ ActiveEffect.id e <> effectId).
Proof.
  split; [|split; [|split]].
  - split; [constructor | intros e []].
  - intros Hinv. split; [|split; [|split]].
    + intros now type vesselId duration. unfold addEffect. cbn [fst snd].
      match goal with |- effectIdsBelow _ ?P =>
        assert (H : effectIdsBelow (counter + 1) P) end.
      { eapply effectIds_append; [exact Hinv | reflexivity | |].
        - cbn. constructor; [intros [] | constructor].
        - intros e [<-|[]]. exists (S counter). split; [lia | reflexivity]. }
      rewrite Nat.add_1_r in H. exact H.
    + intros now vesselId r. unfold applyReaction.
      destruct (vessels state !! vesselId); [|exact Hinv]. cbn [fst snd].
      eapply effectIds_append; [exact Hinv | reflexivity | apply newEffects_NoDup |].
      apply newEffects_ids.
    + intros now. destruct Hinv as [Hnd Hids]. unfold effectIdsBelow, clearExpiredEffects.
      store_fields. split.
      * clear Hids. induction (activeEffects state) as [|x l IH]; [constructor|].
        cbn [List.map] in Hnd. inversion Hnd as [|? ? Hx Hl]; subst.
        cbn [List.filter]. destruct (_ <? _)%Z; [|now apply IH].
        cbn [List.map]. constructor; [|now apply IH].
        intros Hin. apply Hx. apply in_map_iff in Hin. destruct Hin as [e [E He]].
        apply filter_In in He. destruct He as [He _]. rewrite <- E. now apply List.in_map.
      * intros e He. apply filter_In in He. destruct He as [He _]. now apply Hids.
    + intros effectId. destruct Hinv as [Hnd Hids]. unfold effectIdsBelow, removeEffect.
      store_fields. split.
      * clear Hids. induction (activeEffects state) as [|x l IH]; [constructor|].
        cbn [List.map] in Hnd. inversion Hnd as [|? ? Hx Hl]; subst.
        cbn [List.filter]. destruct (negb _); [|now apply IH].
        cbn [List.map]. constructor; [|now apply IH].
        intros Hin. apply Hx. apply in_map_iff in Hin. destruct Hin as [e [E He]].
        apply filter_In in He. destruct He as [He _]. rewrite <- E. now apply List.in_map.
      * intros e He. apply filter_In in He. destruct He as [He _]. now apply Hids.
  - intros now e. unfold clearExpiredEffects. store_fields.
    rewrite filter_In, Z.ltb_lt. reflexivity.
  - intros effectId e. unfold removeEffect. store_fields.
    rewrite filter_In, negb_true_iff, String.eqb_neq. reflexivity.
Qed.

Lemma effect_ids_stay_distinct_witness :
  effectIdsBelow 2
    (fst (applyReaction 0 0 "beaker_1"
            (Reaction.mk "acid_metal_reaction" "Acid-Metal Reaction" "" acid metal
               [hydrogen_gas; zinc_chloride] "#f5f5f5" [bubbles; heat] (Some true))
            (initialStore []))).
Proof.
  apply (proj1 (proj2 (proj1 (proj2 (effect_ids_stay_distinct 0 (initialStore [])))
                         (proj1 (effect_ids_stay_distinct 0 (initialStore []))))) 0%Z
           "beaker_1"
           (Reaction.mk "acid_metal_reaction" "Acid-Metal Reaction" "" acid metal
              [hydrogen_gas; zinc_chloride] "#f5f5f5" [bubbles; heat] (Some true))).
Defined.

(* ===================================================================== *)
(** ** Contents and volume *)
(* ===================================================================== *)

Lemma merge_one_nonneg l t :
  Forall (fun c => 0 <= volume c) l -> 0 <= volume t ->
  Forall (fun c => 0 <= volume c) (merge_one l t).
Proof.
  intros Hl Ht. induction Hl as [|x l Hx Hl IH].
  - unfold merge_one. cbn [findIndex app]. now repeat constructor.
  - rewrite merge_one_cons.
    destruct (same_chemical (Chemical.id (chemical t)) x).
    + constructor; [|exact Hl]. unfold add_volume. cbn [volume]. Lqa.lra.
    + constructor; assumption.
Qed.

Lemma merge_contents_nonneg ts : forall l,
  Forall (fun c => 0 <= volume c) l -> Forall (fun c => 0 <= volume c) ts ->
  Forall (fun c => 0 <= volume c) (merge_contents l ts).
Proof.
  unfold merge_contents. induction ts as [|t ts IH]; intros l Hl Hts; [exact Hl|].
  inversion Hts; subst. cbn [fold_left]. apply IH; [now apply merge_one_nonneg | assumption].
Qed.

Lemma totalVolume_merge_contents ts : forall l,
  totalVolume (merge_contents l ts) == totalVolume l + totalVolume ts.
Proof.
  unfold merge_contents. induction ts as [|t ts IH]; intros l.
  - cbn [fold_left]. rewrite totalVolume_nil. Lqa.lra.
  - cbn [fold_left]. rewrite IH, totalVolume_merge_one, totalVolume_cons. Lqa.lra.
Qed.

Lemma newSourceContents_total ratio l :
  Forall (fun c => 0 <= volume c) l -> 0 <= ratio -> ratio <= 1 ->
  Forall (fun c => 0 <= volume c) (newSourceContents ratio l) /\
  totalVolume (newSourceContents ratio l) <= (1 - ratio) * totalVolume l.
Proof.
  intros Hl H0 H1. unfold newSourceContents.
  induction Hl as [|x l Hx Hl [IH1 IH2]].
  - cbn [flat_map]. split; [constructor|]. rewrite totalVolume_nil. Lqa.lra.
  - cbn [flat_map].
    assert (Hres : 0 <= (1 - ratio) * volume x)
      by (apply Qmult_le_0_compat; Lqa.lra).
    destruct (Qgtb (volume x - volume x * ratio) 0.01).
    + cbn [app]. split.
      * constructor; [cbn [volume]; Lqa.lra | exact IH1].
      * rewrite !totalVolume_cons. cbn [volume]. Lqa.lra.
    + cbn [app]. split; [exact IH1|]. rewrite totalVolume_cons. Lqa.lra.
Qed.

Lemma transferredContents_total ratio l :
  Forall (fun c => 0 <= volume c) l -> 0 <= ratio ->
  Forall (fun c => 0 <= volume c) (transferredContents ratio l) /\
  totalVolume (transferredContents ratio l) <= ratio * totalVolume l.
Proof.
  intros Hl H0. unfold transferredContents.
  induction Hl as [|x l Hx Hl [IH1 IH2]].
  - cbn [flat_map]. split; [constructor|]. rewrite totalVolume_nil. Lqa.lra.
  - cbn [flat_map].
    assert (Hsub : 0 <= ratio * volume x) by (apply Qmult_le_0_compat; Lqa.lra).
    destruct (Qgtb (volume x * ratio) 0.01).
    + cbn [app]. split.
      * constructor; [cbn [volume]; Lqa.lra | exact IH1].
      * rewrite !totalVolume_cons. cbn [volume]. Lqa.lra.
    + cbn [app]. split; [exact IH1|]. rewrite totalVolume_cons. Lqa.lra.
Qed.

(** X30.  The entries of a vessel never add up to more than its
    [currentVolume]: when this holds, with no negative entry, for the vessels
    involved, it holds again after [fillVessel] and after a [transferLiquid]
    between two different vessels into an ordinary target, for the source and
    for the target. *)
Theorem contents_stay_within_volume state :
  (forall vesselId chem requested vessel,
     vessels state !! vesselId = Some vessel ->
     contentsWithin vessel ->
     exists vessel',
       vessels (fst (fillVessel vesselId chem requested state)) !! vesselId
         = Some vessel' /\
       contentsWithin vessel') /\
  (forall sourceId targetId requested src tgt,
     vessels state !! sourceId = Some src ->
     vessels state !! targetId = Some tgt ->
     sourceId <> targetId ->
     targetId <> "collection_beaker" ->
     contentsWithin src -> contentsWithin tgt ->
     exists src' tgt',
       vessels (fst (transferLiquid sourceId targetId requested state)) !! sourceId
         = Some src' /\
       vessels (fst (transferLiquid sourceId targetId requested state)) !! targetId
         = Some tgt' /\
       contentsWithin src' /\ contentsWithin tgt').
Proof.
  split.
  - intros vesselId chem requested vessel Hv [Hn Ht].
    destruct (Qlt_le_dec 0
                (Qmin (cv vessel + requested) (LabVessel.capacity vessel) - cv vessel))
      as [Hpos|Hle].
    + rewrite (fillVessel_adds _ _ _ _ _ Hv Hpos). cbn [vessels set_vessels].
      eexists. split; [apply lookup_insert_eq|].
      unfold contentsWithin.
      cbn [LabVessel.contents LabVessel.currentVolume LabVessel.with_contents
           LabVessel.with_currentVolume].
      split.
      * apply merge_one_nonneg; [exact Hn|]. cbn [volume]. Lqa.lra.
      * rewrite totalVolume_merge_one. cbn [volume]. Lqa.lra.
    + rewrite (fillVessel_nothing _ _ _ _ _ Hv Hle).
      exists vessel. split; [exact Hv | split; assumption].
  - intros sourceId targetId requested src tgt HS HT Hne Hnc [SN ST] [TN TT].
    destruct (transferLiquid_outcome sourceId targetId requested state src tgt HS HT)
      as [_ Heq | Hs Ha E1 E2].
    + rewrite Heq. exists src, tgt. cbn [fst]. repeat split; assumption.
    + rewrite (transferLiquid_plain _ _ _ _ _ _ HS HT E1 E2 Hnc).
      cbn [vessels set_vessels].
      exists (pouredSource (actualTransfer requested src tgt) src),
             (pouredTarget (actualTransfer requested src tgt) src tgt).
      split; [rewrite lookup_insert_ne by congruence; apply lookup_insert_eq|].
      split; [apply lookup_insert_eq|].
      pose proof (actualTransfer_le_available requested src tgt) as A1.
      set (a := actualTransfer requested src tgt) in *.
      assert (Hr0 : 0 <= a / cv src) by (apply Qle_shift_div_l; Lqa.lra).
      assert (Hr1 : a / cv src <= 1) by (apply Qle_shift_div_r; Lqa.lra).
      assert (Hra : a / cv src * cv src == a) by (field; Lqa.lra).
      destruct (newSourceContents_total (a / cv src) _ SN Hr0 Hr1) as [N1 N2].
      destruct (transferredContents_total (a / cv src) _ SN Hr0) as [T1 T2].
      assert (G1 : 0 <= (1 - a / cv src) * (cv src - totalVolume (LabVessel.contents src)))
        by (apply Qmult_le_0_compat; Lqa.lra).
      assert (G2 : 0 <= a / cv src * (cv src - totalVolume (LabVessel.contents src)))
        by (apply Qmult_le_0_compat; Lqa.lra).
      unfold contentsWithin, pouredSource, pouredTarget.
      cbn [LabVessel.contents LabVessel.currentVolume LabVessel.with_contents
           LabVessel.with_currentVolume].
      split; [split; [exact N1 | Lqa.lra]|].
      split; [now apply merge_contents_nonneg|].
      rewrite totalVolume_merge_contents. Lqa.lra.
Qed.

Lemma contents_stay_within_volume_witness :
  exists src' tgt',
    vessels (fst (transferLiquid "beaker_1" "beaker_2" 40 waterBench)) !! "beaker_1"
      = Some src' /\
    vessels (fst (transferLiquid "beaker_1" "beaker_2" 40 waterBench)) !! "beaker_2"
      = Some tgt' /\
    contentsWithin src' /\ contentsWithin tgt'.
Proof.
  assert (HS : vessels waterBench !! "beaker_1"
               = Some (LabVessel.mk "beaker_1" None beaker 500 100 0 25
                         [mkContents CHEMICALS.water 100] (vec3 (-1.2) 0 0)))
    by (vm_compute; reflexivity).
  assert (HT : vessels waterBench !! "beaker_2"
               = Some (emptyVessel "beaker_2" beaker 500 (vec3 1.2 0 0)))
    by (vm_compute; reflexivity).
  apply (proj2 (contents_stay_within_volume waterBench) "beaker_1" "beaker_2" 40 _ _
           HS HT); try discriminate.
  - split; [repeat constructor; discriminate | cbn; discriminate].
  - split; [constructor | cbn; discriminate].
Defined.

(* ===================================================================== *)
(** ** The neutralization: drops, colour and completion *)
(* ===================================================================== *)














